(** * kikuchipy documentation slice: build configuration and tutorial notebooks

    The slice holds three files: the Read the Docs build configuration
    [readthedocs.yaml] and two notebook files under [doc/tutorials/].  The
    second notebook file carries two notebooks one after the other (Hough
    indexing, then Visualizing patterns).

    The configuration is embedded twice: as the lines of the file, and as the
    tree a YAML loader builds from them; a small loader for the subset of YAML
    the file uses connects the two.  The notebooks are embedded as lists of
    cells, code cells as abstract syntax of the Python statements they hold. *)

From Stdlib Require Import ZArith List Ascii String.
From stdpp Require Import base option list strings gmap.

(** Induction principles that reach through the lists, options and pairs
    nested in the syntax trees below. *)
Scheme All for list.
Scheme All for option.
Scheme All for prod.

Local Open Scope string_scope.
Local Open Scope list_scope.

(** The double-quote character, for source text that contains it. *)
Definition dq : string := String (ascii_of_nat 34) EmptyString.

(** [q s] is [s] between double quotes, as it stands in the source. *)
Definition q (s : string) : string := dq +:+ s +:+ dq.

(** The pieces of [s] between occurrences of [c]: of a dotted module name,
    a version number, a path. *)
Fixpoint split_on (c : ascii) (s : string) : list string :=
  match s with
  | EmptyString => [EmptyString]
  | String a s' =>
      if Ascii.eqb a c then EmptyString :: split_on c s'
      else match split_on c s' with
           | h :: t => String a h :: t
           | [] => [String a EmptyString]
           end
  end.

(** [contains needle hay]: [needle] occurs in [hay]. *)
Fixpoint contains (needle hay : string) : bool :=
  String.prefix needle hay
  || match hay with
     | EmptyString => false
     | String _ hay' => contains needle hay'
     end.

(* ===================================================================== *)
(** ** The build configuration, readthedocs.yaml *)
(* ===================================================================== *)

Module Yaml.

(** The file, line by line. *)
Definition readthedocs_lines : list string :=
  [ "# .readthedocs.yaml";
    "# Read the Docs configuration file";
    "# See https://docs.readthedocs.io/en/stable/config-file/v2.html for details";
    "";
    "# Required";
    "version: 2";
    "";
    "# Build documentation in the doc/ directory with Sphinx";
    "sphinx:";
    "  configuration: doc/conf.py";
    "";
    "# Set the version of Python and other tools you might need";
    "build:";
    "  os: ubuntu-22.04";
    "  tools:";
    "    python: " +:+ q "3.10";
    "    nodejs: " +:+ q "19";
    "  # See https://docs.pyvista.org/user-guide/jupyter/panel.html#configuration-considerations.";
    "  # Some of these packages are needed by PyVista/panel to render 3D";
    "  # plots from RTD's server.";
    "  apt_packages:";
    "    - imagemagick";
    "    - libgl1-mesa-dev";
    "    - xvfb";
    "";
    "# Build doc in all formats (HTML, PDF and ePub)";
    "# TODO: Enable PDF build when issues like this";
    "#  (https://github.com/readthedocs/readthedocs.org/issues/10150) are addressed by RTD.";
    "formats:";
    "  - htmlzip";
    "#  - pdf";
    "";
    "# Python environment for building the docs";
    "python:";
    "  install:";
    "    - method: pip";
    "      path: .";
    "      extra_requirements:";
    "        - doc";
    "        - viz" ].

(** A loaded YAML value.  Plain integers load as [YInt]; quoted scalars and
    every other plain scalar load as [YStr]. *)
Inductive yaml :=
| YInt (n : Z)
| YStr (s : string)
| YSeq (items : list yaml)
| YMap (entries : list (string * yaml)).

(** The document the file denotes. *)
Definition readthedocs : yaml :=
  YMap
    [ ("version", YInt 2);
      ("sphinx", YMap [ ("configuration", YStr "doc/conf.py") ]);
      ("build",
        YMap
          [ ("os", YStr "ubuntu-22.04");
            ("tools", YMap [ ("python", YStr "3.10"); ("nodejs", YStr "19") ]);
            ("apt_packages",
              YSeq [ YStr "imagemagick"; YStr "libgl1-mesa-dev"; YStr "xvfb" ]) ]);
      ("formats", YSeq [ YStr "htmlzip" ]);
      ("python",
        YMap
          [ ("install",
              YSeq
                [ YMap
                    [ ("method", YStr "pip");
                      ("path", YStr ".");
                      ("extra_requirements", YSeq [ YStr "doc"; YStr "viz" ]) ] ]) ]) ].

(** *** Loading the lines

    The file uses block mappings, block sequences, plain and double-quoted
    scalars and whole-line comments; the loader below reads exactly that
    subset and gives [None] on anything else. *)

(** Leading spaces of a line, and the rest of it. *)
Fixpoint indent_of (s : string) : nat * string :=
  match s with
  | String " " s' => let '(n, r) := indent_of s' in (S n, r)
  | _ => (0, s)
  end.

(** A line that carries no data: empty, or a comment. *)
Definition is_comment (s : string) : bool :=
  match snd (indent_of s) with
  | String "#" _ => true
  | _ => false
  end.

Definition is_blank (s : string) : bool :=
  match snd (indent_of s) with
  | EmptyString => true
  | _ => false
  end.

(** The text of a comment line once its [#] is taken away. *)
Definition uncomment (s : string) : option string :=
  match snd (indent_of s) with
  | String "#" r => Some r
  | _ => None
  end.

Definition is_digit (c : ascii) : bool :=
  let n := nat_of_ascii c in (48 <=? n)%nat && (n <=? 57)%nat.

Fixpoint all_digits (s : string) : bool :=
  match s with
  | EmptyString => true
  | String c s' => is_digit c && all_digits s'
  end.

Fixpoint digits_value (acc : Z) (s : string) : Z :=
  match s with
  | EmptyString => acc
  | String c s' => digits_value (10 * acc + Z.of_nat (nat_of_ascii c - 48)) s'
  end.

(** [s] without its last character, and that character. *)
Fixpoint unsnoc (s : string) : option (string * ascii) :=
  match s with
  | EmptyString => None
  | String c EmptyString => Some (EmptyString, c)
  | String c s' =>
      match unsnoc s' with
      | Some (r, l) => Some (String c r, l)
      | None => None
      end
  end.

(** A scalar: double-quoted text is a string, a run of digits an integer,
    anything else a string. *)
Definition scalar (s : string) : yaml :=
  match s with
  | String c r =>
      if Ascii.eqb c (ascii_of_nat 34) then
        match unsnoc r with
        | Some (inner, l) => if Ascii.eqb l (ascii_of_nat 34) then YStr inner else YStr s
        | None => YStr s
        end
      else if all_digits s then YInt (digits_value 0 s) else YStr s
  | EmptyString => YStr s
  end.

(** Split [key: value] at the first colon; the value has its leading spaces
    removed. *)
Fixpoint split_colon (s : string) : option (string * string) :=
  match s with
  | EmptyString => None
  | String ":" r => Some (EmptyString, snd (indent_of r))
  | String c r =>
      match split_colon r with
      | Some (k, v) => Some (String c k, v)
      | None => None
      end
  end.

(** What one data line says. *)
Inductive item :=
| IKey (k : string)                  (* [key:] and a nested block below *)
| IKeyVal (k : string) (v : yaml)    (* [key: value] *)
| ISeqVal (v : yaml)                 (* [- value] *)
| ISeqKeyVal (k : string) (v : yaml) (* [- key: value], the first entry of a mapping *).

Definition key_item (s : string) : option item :=
  match split_colon s with
  | Some (k, EmptyString) => Some (IKey k)
  | Some (k, v) => Some (IKeyVal k (scalar v))
  | None => None
  end.

Definition tokenize (line : string) : option (nat * item) :=
  let '(n, r) := indent_of line in
  match r with
  | String "-" (String " " r') =>
      match split_colon r' with
      | Some (k, EmptyString) => None
      | Some (k, v) => Some (n, ISeqKeyVal k (scalar v))
      | None => Some (n, ISeqVal (scalar r'))
      end
  | _ => pair n <$> key_item r
  end.

Definition data_lines (lines : list string) : list string :=
  filter (fun l => negb (is_blank l || is_comment l) = true) lines.

(** Blocks, by indentation.  [load_value n] reads the block whose first line
    stands at column [n]; [load_map n] and [load_seq n] read the entries at
    column [n] until a line stands further left. *)
Fixpoint load_value (fuel n : nat) (ls : list (nat * item))
  : option (yaml * list (nat * item)) :=
  match fuel with
  | O => None
  | S fuel =>
      match ls with
      | (_, ISeqVal _) :: _ | (_, ISeqKeyVal _ _) :: _ =>
          '(vs, rest) ← load_seq fuel n ls; Some (YSeq vs, rest)
      | (_, IKey _) :: _ | (_, IKeyVal _ _) :: _ =>
          '(es, rest) ← load_map fuel n ls; Some (YMap es, rest)
      | [] => None
      end
  end
with load_map (fuel n : nat) (ls : list (nat * item))
  : option (list (string * yaml) * list (nat * item)) :=
  match fuel with
  | O => None
  | S fuel =>
      match ls with
      | (i, IKeyVal k v) :: rest =>
          if (i =? n)%nat then
            '(es, rest') ← load_map fuel n rest; Some ((k, v) :: es, rest')
          else if (i <? n)%nat then Some ([], ls) else None
      | (i, IKey k) :: rest =>
          if (i =? n)%nat then
            match rest with
            | (j, _) :: _ =>
                if (n <? j)%nat then
                  '(v, rest1) ← load_value fuel j rest;
                  '(es, rest2) ← load_map fuel n rest1;
                  Some ((k, v) :: es, rest2)
                else None
            | [] => None
            end
          else if (i <? n)%nat then Some ([], ls) else None
      | (i, _) :: _ => if (i <? n)%nat then Some ([], ls) else None
      | [] => Some ([], [])
      end
  end
with load_seq (fuel n : nat) (ls : list (nat * item))
  : option (list yaml * list (nat * item)) :=
  match fuel with
  | O => None
  | S fuel =>
      match ls with
      | (i, ISeqVal v) :: rest =>
          if (i =? n)%nat then
            '(vs, rest') ← load_seq fuel n rest; Some (v :: vs, rest')
          else if (i <? n)%nat then Some ([], ls) else None
      | (i, ISeqKeyVal k v) :: rest =>
          if (i =? n)%nat then
            '(es, rest1) ← load_map fuel (n + 2) ((n + 2, IKeyVal k v) :: rest)%nat;
            '(vs, rest2) ← load_seq fuel n rest1;
            Some (YMap es :: vs, rest2)
          else if (i <? n)%nat then Some ([], ls) else None
      | (i, _) :: _ => if (i <? n)%nat then Some ([], ls) else None
      | [] => Some ([], [])
      end
  end.

Definition load (lines : list string) : option yaml :=
  toks ← mapM tokenize (data_lines lines);
  match load_value (S (2 * length toks)) 0 toks with
  | Some (y, []) => Some y
  | _ => None
  end.

(** *** Reading a loaded document *)

Definition get (k : string) (y : yaml) : option yaml :=
  match y with
  | YMap es => snd <$> List.find (fun e => String.eqb (fst e) k) es
  | _ => None
  end.

Fixpoint get_path (ks : list string) (y : yaml) : option yaml :=
  match ks with
  | [] => Some y
  | k :: ks' => get k y ≫= get_path ks'
  end.

Definition as_str (y : yaml) : option string :=
  match y with YStr s => Some s | _ => None end.

Definition as_seq (y : yaml) : option (list yaml) :=
  match y with YSeq vs => Some vs | _ => None end.

Definition as_map (y : yaml) : option (list (string * yaml)) :=
  match y with YMap es => Some es | _ => None end.

Definition str_seq (y : yaml) : option (list string) :=
  as_seq y ≫= mapM as_str.

(** The keys of the Read the Docs schema (version 2) that the file sets. *)

Definition sphinx_configuration (y : yaml) : option string :=
  get_path ["sphinx"; "configuration"] y ≫= as_str.

Definition build_os (y : yaml) : option string :=
  get_path ["build"; "os"] y ≫= as_str.

(** [build.tools]: each tool with the version asked for. *)
Definition build_tools (y : yaml) : option (list (string * string)) :=
  es ← get_path ["build"; "tools"] y ≫= as_map;
  mapM (fun e => pair (fst e) <$> as_str (snd e)) es.

Definition tool_version (tool : string) (y : yaml) : option string :=
  ts ← build_tools y;
  snd <$> List.find (fun e => String.eqb (fst e) tool) ts.

Definition build_apt_packages (y : yaml) : option (list string) :=
  get_path ["build"; "apt_packages"] y ≫= str_seq.

Definition formats (y : yaml) : option (list string) :=
  get "formats" y ≫= str_seq.

(** One entry of [python.install]. *)
Record install := {
  method : option string;
  path : option string;
  extra_requirements : list string
}.

Definition install_of (y : yaml) : option install :=
  extras ← match get "extra_requirements" y with
            | Some v => str_seq v
            | None => Some []
            end;
  Some {| method := get "method" y ≫= as_str;
          path := get "path" y ≫= as_str;
          extra_requirements := extras |}.

Definition python_install (y : yaml) : option (list install) :=
  vs ← get_path ["python"; "install"] y ≫= as_seq;
  mapM install_of vs.

(** No mapping of the document, at any depth, has the same key twice. *)
Fixpoint keys_unique (y : yaml) : bool :=
  match y with
  | YMap es =>
      bool_decide (NoDup es.*1) && forallb (fun e => let '(_, v) := e in keys_unique v) es
  | YSeq items => forallb keys_unique items
  | _ => true
  end.

End Yaml.

(* ===================================================================== *)
(** ** Python syntax of the notebooks' code cells *)
(* ===================================================================== *)

Module Py.

Inductive binop := Add | Sub | Mul | Div.

(** Expressions.  A float literal keeps its text; a negative integer literal
    is written as the integer.  [ELambda] and [EComp] never occur in the
    notebooks: they are part of the syntax so that their absence can be
    stated. *)
Inductive expr :=
| EName (x : string)
| ENone
| EBool (b : bool)
| EInt (n : Z)
| EFloat (lit : string)
| EStr (s : string)
| EFString (parts : list expr)
| EEllipsis
| ETuple (es : list expr)
| EList (es : list expr)
| EDict (kvs : list (expr * expr))
| EAttr (e : expr) (a : string)
| ESubscript (e : expr) (i : expr)
| ESlice (lo hi step : option expr)
| ECall (f : expr) (args : list expr) (kwargs : list (string * expr))
| EBinOp (op : binop) (l r : expr)
| EStarred (e : expr)
| ELambda (params : list string) (body : expr)
| EComp (elt target iter : expr).

(** Statements.  [SMagic] is an IPython line magic ([%matplotlib inline]).
    An [import a, b] is two [SImport]s.  The notebooks use [SMagic],
    [SImport], [SFromImport], [SAssign], [SExpr] and [SFor] only; the other
    kinds are there so that their absence can be stated. *)
Inductive stmt :=
| SMagic (line : string)
| SImport (module : string) (asname : option string)
| SFromImport (module : string) (names : list string)
| SAssign (target : expr) (e : expr)
| SExpr (e : expr)
| SFor (target iter : expr) (body : list stmt)
| SWhile (test : expr) (body : list stmt)
| SIf (test : expr) (body orelse : list stmt)
| STry (body handlers finalbody : list stmt)
| SRaise (e : expr)
| SAssert (e : expr)
| SWith (ctx : expr) (body : list stmt)
| SDef (name : string) (params : list string) (body : list stmt)
| SClass (name : string) (body : list stmt).

End Py.

(* ===================================================================== *)
(** ** The notebooks *)
(* ===================================================================== *)

Module Nb.
Import Py.

(** A cell.  [hidden] is the cell metadata [nbsphinx: hidden] (the cell is
    run but not shown in the built page); [tags] is the metadata [tags].
    Comments of a code cell are not part of its statements. *)
Inductive cell :=
| Markdown (hidden : bool) (source : list string)
| Code (hidden : bool) (tags : list string) (source : list stmt).

Record notebook := {
  cells : list cell;
  kernel_name : string;
  language : string;
  language_version : string;
  nbformat : nat * nat
}.

(** *** doc/tutorials/virtual_backscatter_electron_imaging.ipynb

    Cell [vbse_NN] is cell [NN] of the notebook, markdown and code cells
    counted together from 0. *)

Definition vbse_00 : cell :=
  Markdown true
    [ "This notebook is part of the `kikuchipy` documentation https://kikuchipy.org.";
      "Links to the documentation won't work from the notebook." ].

Definition vbse_01 : cell :=
  Markdown false
    [ "# Virtual backscatter electron imaging";
      EmptyString;
      "In this tutorial, we will perform virtual imaging on the EBSD detector to";
      "generate maps, known as virtual backscatter electron (VBSE) imaging.";
      EmptyString;
      "This is useful for getting a qualitative overview of the sample and pattern";
      "quality prior to indexing, and can also be useful when interpreting indexing";
      "resuls, as they are indexing independent." ].

Definition vbse_02 : cell :=
  Markdown false
    [ "## Interactive plotting";
      EmptyString;
      "Angle resolved backscatter electron (BSE) imaging can be performed interactively";
      "with the method";
      "[plot_virtual_bse_intensity()](../reference/generated/kikuchipy.signals.EBSD.plot_virtual_bse_intensity.rst),";
      "adopted from [pyxem](https://github.com/pyxem/pyxem), by integrating the";
      "intensities within a part, e.g. a (10 x 10) pixel rectangular region of interest";
      "(ROI), of the stack of EBSD patterns. Let's first import necessary libraries";
      "and a 13 MB Nickel EBSD data set" ].

Definition vbse_03 : cell :=
  Code false
    []
    [ SMagic "matplotlib inline";
      SFromImport "pathlib" ["Path"];
      SImport "tempfile" None;
      SImport "matplotlib.pyplot" (Some "plt");
      SImport "numpy" (Some "np");
      SImport "hyperspy.api" (Some "hs");
      SImport "kikuchipy" (Some "kp");
      SAssign (ESubscript (EAttr (EName "plt") "rcParams") (EStr "font.size")) (EInt 12);
      SAssign
        (EName "s")
        (ECall
           (EAttr (EAttr (EName "kp") "data") "nickel_ebsd_large")
           []
           [("allow_download", EBool true)]);
      SExpr (EName "s") ].

Definition vbse_04 : cell :=
  Markdown false
    [ "We create a rectangular ROI by specifying the upper left and lower right";
      "coordinates of the rectangle in units of the detector pixel size (scale of `dx`";
      "and `dy` in the signal axes manager)" ].

Definition vbse_05 : cell :=
  Code false
    []
    [ SAssign
        (EName "roi")
        (ECall
           (EAttr (EAttr (EName "hs") "roi") "RectangularROI")
           []
           [("left", EInt 0); ("top", EInt 0); ("right", EInt 10); ("bottom", EInt 10)]);
      SExpr (ECall (EAttr (EName "s") "plot_virtual_bse_intensity") [EName "roi"] []) ].

Definition vbse_06 : cell :=
  Markdown false
    [ "Note that the position of the ROI on the detector is updated during";
      "interactive plotting if it is moved around by hand. See";
      "[HyperSpy's ROI user guide](http://hyperspy.org/hyperspy-doc/current/user_guide/interactive_operations_ROIs.html#region-of-interest-roi)";
      "for more detailed use of ROIs.";
      EmptyString;
      "The virtual image, created from integrating the intensities within the ROI, can";
      "then be written to an image file using";
      "[get_virtual_bse_intensity()](../reference/generated/kikuchipy.signals.EBSD.get_virtual_bse_intensity.rst)" ].

Definition vbse_07 : cell :=
  Code false
    []
    [ SAssign
        (EName "vbse")
        (ECall (EAttr (EName "s") "get_virtual_bse_intensity") [EName "roi"] []);
      SExpr (EName "vbse") ].

Definition vbse_08 : cell :=
  Code false
    []
    [ SAssign
        (EName "temp_dir")
        (ECall (EName "Path") [ECall (EAttr (EName "tempfile") "mkdtemp") [] []] []);
      SExpr
        (ECall
           (EAttr (EName "plt") "imsave")
           [EBinOp Div (EName "temp_dir") (EStr "vbse1.png")]
           [("arr", EAttr (EName "vbse") "data")]) ].

Definition vbse_09 : cell :=
  Markdown false
    [ "A [VirtualBSEImage](../reference/generated/kikuchipy.signals.VirtualBSEImage.rst)";
      "instance is returned." ].

Definition vbse_10 : cell :=
  Markdown false
    [ "## Generate many virtual images";
      EmptyString;
      "Sometimes we want to get many images from parts of the detector, e.g. like what";
      "is demonstrated in the";
      "[xcdskd project](https://xcdskd.readthedocs.io/en/latest/bse_imaging.html) with";
      "the angle resolved virtual backscatter electron array (arbse/vbse array).";
      "Instead of keeping track of multiple";
      "[hyperspy.roi.BaseInteractiveROI](http://hyperspy.org/hyperspy-doc/current/api/hyperspy.roi.html#hyperspy.roi.BaseInteractiveROI)";
      "objects, we can create a detector grid of a certain shape, e.g. (5, 5), and";
      "obtain gray scale images, or combine multiple grid tiles in red, green and";
      "channels to obtain RGB images.";
      EmptyString;
      "First, we initialize a virtual BSE image generator,";
      "[kikuchipy.imaging.VirtualBSEImager](../reference/generated/kikuchipy.imaging.VirtualBSEImager.rst),";
      "with an [EBSD](../reference/generated/kikuchipy.signals.EBSD.rst) signal, in";
      "case the raw EBSD patterns without any background correction or other processing" ].

Definition vbse_11 : cell :=
  Code false
    []
    [ SAssign
        (EName "vbse_imager")
        (ECall (EAttr (EAttr (EName "kp") "imaging") "VirtualBSEImager") [EName "s"] []);
      SExpr (EName "vbse_imager") ].

Definition vbse_12 : cell :=
  Markdown false
    [ "We can set and plot the detector grid on one of the EBSD patterns, also coloring";
      "one or more of the grid tiles red, green and blue, as is done in";
      "<cite data-cite=" +:+ q "nolze2017electron" +:+ ">Nolze et al. (2017)</cite>, by calling";
      "[VirtualBSEImager.plot_grid()](../reference/generated/kikuchipy.imaging.VirtualBSEImager.plot_grid.rst)" ].

Definition vbse_13 : cell :=
  Code false [] [SExpr (EAttr (EName "vbse_imager") "grid_shape")].

Definition vbse_14 : cell :=
  Code false
    []
    [ SAssign (EAttr (EName "vbse_imager") "grid_shape") (ETuple [EInt 10; EInt 10]);
      SAssign
        (EName "red")
        (EList
           [ ETuple [EInt 7; EInt 1];
             ETuple [EInt 8; EInt 1];
             ETuple [EInt 8; EInt 2];
             ETuple [EInt 9; EInt 1];
             ETuple [EInt 9; EInt 2] ]);
      SAssign
        (EName "green")
        (EList
           [ ETuple [EInt 8; EInt 4];
             ETuple [EInt 8; EInt 5];
             ETuple [EInt 9; EInt 4];
             ETuple [EInt 9; EInt 5] ]);
      SAssign
        (EName "blue")
        (EList
           [ ETuple [EInt 7; EInt 8];
             ETuple [EInt 8; EInt 7];
             ETuple [EInt 8; EInt 8];
             ETuple [EInt 9; EInt 7];
             ETuple [EInt 9; EInt 8] ]);
      SAssign
        (EName "p")
        (ECall
           (EAttr (EName "vbse_imager") "plot_grid")
           []
           [ ("rgb_channels", EList [EName "red"; EName "green"; EName "blue"]);
             ("visible_indices", EBool true);
             ("pattern_idx", ETuple [EInt 10; EInt 20]) ]);
      SExpr (EName "p") ].

Definition vbse_15 : cell :=
  Markdown false
    [ "As shown above, whether to show the grid tile indices or not is controlled with";
      "the `visible_indices` argument, and which signal pattern to superimpose the grid";
      "upon is controlled with the `pattern_idx` parameter." ].

Definition vbse_16 : cell :=
  Markdown false
    [ "To obtain an RGB image from the detector grid tiles shown above, we use";
      "[get_rgb_image()](../reference/generated/kikuchipy.imaging.VirtualBSEImager.get_rgb_image.rst)";
      "(see the docstring for all available parameters)" ].

Definition vbse_17 : cell :=
  Code false
    []
    [ SAssign
        (EName "vbse_rgb_img")
        (ECall
           (EAttr (EName "vbse_imager") "get_rgb_image")
           []
           [("r", EName "red"); ("g", EName "green"); ("b", EName "blue")]);
      SExpr (EName "vbse_rgb_img") ].

Definition vbse_18 : cell :=
  Code false
    ["nbsphinx-thumbnail"]
    [ SExpr
        (ECall
           (EAttr (EName "vbse_rgb_img") "plot")
           []
           [("title", EStr EmptyString); ("axes_off", EBool true)]) ].

Definition vbse_19 : cell :=
  Markdown false
    [ "An RGB image formed from coloring three grey scale virtual BSE images red,";
      "green and blue." ].

Definition vbse_20 : cell :=
  Markdown false
    [ "To obtain one grey scale virtual BSE image from each grid tile, we use";
      "[get_images_from_grid()](../reference/generated/kikuchipy.imaging.VirtualBSEImager.get_images_from_grid.rst)" ].

Definition vbse_21 : cell :=
  Code false
    []
    [ SAssign (EAttr (EName "vbse_imager") "grid_shape") (ETuple [EInt 3; EInt 3]);
      SAssign
        (EName "vbse_imgs")
        (ECall (EAttr (EName "vbse_imager") "get_images_from_grid") [] []);
      SExpr (EName "vbse_imgs") ].

Definition vbse_22 : cell :=
  Code false [] [SExpr (ECall (EAttr (EName "vbse_imgs") "plot") [] [])].

Definition vbse_23 : cell :=
  Code false
    []
    [ SAssign
        (ETuple [EName "fig"; EName "ax"])
        (ECall
           (EAttr (EName "plt") "subplots")
           []
           [("nrows", EInt 3); ("ncols", EInt 3); ("figsize", ETuple [EInt 20; EInt 20])]);
      SFor
        (EName "idx")
        (ECall
           (EAttr (EName "np") "ndindex")
           [ ESubscript
               (EAttr (EAttr (EName "vbse_imgs") "axes_manager") "navigation_shape")
               (ESlice None None (Some (EInt (-1)))) ]
           [])
        [ SAssign
            (EName "hs_idx")
            (ESubscript (EName "idx") (ESlice None None (Some (EInt (-1)))));
          SExpr
            (ECall
               (EAttr (ESubscript (EName "ax") (EName "idx")) "imshow")
               [ EAttr
                   (ESubscript (EAttr (EName "vbse_imgs") "inav") (EName "hs_idx"))
                   "data" ]
               [("cmap", EStr "gray")]);
          SExpr
            (ECall (EAttr (ESubscript (EName "ax") (EName "idx")) "axis") [EStr "off"] []) ];
      SExpr
        (ECall
           (EAttr (EName "fig") "tight_layout")
           []
           [("w_pad", EFloat "0.5"); ("h_pad", EInt (-24))]) ].

Definition vbse_24 : cell :=
  Markdown false
    [ "It might be desirable to normalize, rescale or stretch the intensities in the";
      "images, as shown e.g. in Fig. 9 in";
      "<cite data-cite=" +:+ q "wright2015electron" +:+ ">Wright et al. (2015)</cite>. This can be";
      "done with";
      "[VirtualBSEImage.normalize_intensity()](../reference/generated/kikuchipy.signals.VirtualBSEImage.normalize_intensity.rst)";
      "or";
      "[VirtualBSEImage.rescale_intensity()](../reference/generated/kikuchipy.signals.VirtualBSEImage.rescale_intensity.rst).";
      "Let's rescale the intensities in each image to the range [0, 1], while also";
      "excluding the intensities outside the lower and upper 0.5% percentile, per image" ].

Definition vbse_25 : cell :=
  Code false [] [SExpr (EAttr (EAttr (EName "vbse_imgs") "data") "dtype")].

Definition vbse_26 : cell :=
  Code false
    []
    [ SAssign (EName "vbse_imgs2") (ECall (EAttr (EName "vbse_imgs") "deepcopy") [] []);
      SExpr
        (ECall
           (EAttr (EName "vbse_imgs2") "rescale_intensity")
           []
           [ ("out_range", ETuple [EInt 0; EInt 1]);
             ("percentiles", ETuple [EFloat "0.5"; EFloat "99.5"]) ]) ].

Definition vbse_27 : cell :=
  Code false
    []
    [ SExpr
        (ECall
           (EName "print")
           [ ECall (EAttr (EAttr (EName "vbse_imgs") "data") "min") [] [];
             ECall (EAttr (EAttr (EName "vbse_imgs") "data") "max") [] [] ]
           []);
      SExpr
        (ECall
           (EName "print")
           [ ECall (EAttr (EAttr (EName "vbse_imgs2") "data") "min") [] [];
             ECall (EAttr (EAttr (EName "vbse_imgs2") "data") "max") [] [] ]
           []) ].

Definition vbse_28 : cell :=
  Code false
    []
    [ SAssign
        (ETuple [EName "fig"; EName "ax"])
        (ECall
           (EAttr (EName "plt") "subplots")
           []
           [("nrows", EInt 3); ("ncols", EInt 3); ("figsize", ETuple [EInt 20; EInt 20])]);
      SFor
        (EName "idx")
        (ECall
           (EAttr (EName "np") "ndindex")
           [ ESubscript
               (EAttr (EAttr (EName "vbse_imgs2") "axes_manager") "navigation_shape")
               (ESlice None None (Some (EInt (-1)))) ]
           [])
        [ SAssign
            (EName "hs_idx")
            (ESubscript (EName "idx") (ESlice None None (Some (EInt (-1)))));
          SExpr
            (ECall
               (EAttr (ESubscript (EName "ax") (EName "idx")) "imshow")
               [ EAttr
                   (ESubscript (EAttr (EName "vbse_imgs2") "inav") (EName "hs_idx"))
                   "data" ]
               [("cmap", EStr "gray")]);
          SExpr
            (ECall (EAttr (ESubscript (EName "ax") (EName "idx")) "axis") [EStr "off"] []) ];
      SExpr
        (ECall
           (EAttr (EName "fig") "tight_layout")
           []
           [("w_pad", EFloat "0.5"); ("h_pad", EInt (-24))]) ].

Definition vbse_29 : cell :=
  Markdown false
    [ "To obtain a rectangular ROI from the grid, we can use";
      "[VirtualBSEGenerator.roi_from_grid()](../reference/generated/kikuchipy.imaging.VirtualBSEImager.roi_from_grid.rst)" ].

Definition vbse_30 : cell :=
  Code false
    []
    [ SAssign
        (EName "roi2")
        (ECall (EAttr (EName "vbse_imager") "roi_from_grid") [ETuple [EInt 3; EInt 3]] []);
      SExpr (EName "roi2") ].

Definition vbse_31 : cell :=
  Code true
    []
    [ SImport "os" None;
      SExpr
        (ECall
           (EAttr (EName "os") "remove")
           [EBinOp Div (EName "temp_dir") (EStr "vbse1.png")]
           []);
      SExpr (ECall (EAttr (EName "os") "rmdir") [EName "temp_dir"] []) ].

Definition virtual_backscatter_electron_imaging : notebook :=
  {| cells :=
       [ vbse_00; vbse_01; vbse_02; vbse_03; vbse_04; vbse_05; vbse_06; vbse_07;
       vbse_08; vbse_09; vbse_10; vbse_11; vbse_12; vbse_13; vbse_14; vbse_15; vbse_16;
       vbse_17; vbse_18; vbse_19; vbse_20; vbse_21; vbse_22; vbse_23; vbse_24; vbse_25;
       vbse_26; vbse_27; vbse_28; vbse_29; vbse_30; vbse_31 ];
     kernel_name := "python3";
     language := "python";
     language_version := "3.10.9";
     nbformat := (4, 4) |}.

(** *** doc/tutorials/hough_indexing.ipynb, first notebook: Hough indexing *)

Definition hough_00 : cell :=
  Markdown true
    [ "This notebook is part of the `kikuchipy` documentation https://kikuchipy.org.";
      "Links to the documentation won't work from the notebook." ].

Definition hough_01 : cell :=
  Markdown false
    [ "# Hough indexing";
      EmptyString;
      "In this tutorial, we will perform Hough indexing (HI) using [PyEBSDIndex](https://pyebsdindex.readthedocs.io).";
      "We will use a tiny 13 MB dataset of nickel available with kikuchipy.";
      EmptyString;
      "<div class=" +:+ q "alert alert-info" +:+ ">";
      EmptyString;
      "Note";
      EmptyString;
      "PyEBSDIndex is an optional dependency of kikuchipy, and can be installed with both `pip` and `conda` (from `conda-forge`).";
      "To install PyEBSDIndex, see their [installation instructions](https://pyebsdindex.readthedocs.io/en/latest/installation.html).";
      EmptyString;
      "PyEBSDIndex supports indexing face centered and body centered cubic (FCC and BCC) materials.";
      EmptyString;
      "</div>";
      EmptyString;
      "Let's import necessary libraries" ].

Definition hough_02 : cell :=
  Code false
    []
    [ SMagic "matplotlib inline";
      SImport "matplotlib.pyplot" (Some "plt");
      SImport "numpy" (Some "np");
      SFromImport "diffpy.structure" ["Atom"; "Lattice"; "Structure"];
      SFromImport "diffsims.crystallography" ["ReciprocalLatticeVector"];
      SImport "kikuchipy" (Some "kp");
      SFromImport "orix" ["plot"];
      SFromImport "orix.crystal_map" ["Phase"; "PhaseList"];
      SFromImport "orix.vector" ["Vector3d"];
      SExpr
        (ECall
           (EAttr (EAttr (EName "plt") "rcParams") "update")
           [ EDict
               [ (EStr "font.size", EInt 15);
                 (EStr "lines.markersize", EInt 15);
                 (EStr "scatter.edgecolors", EStr "k") ] ]
           []) ].

Definition hough_03 : cell :=
  Markdown false
    [ "Load a dataset of (75, 55) nickel EBSD patterns of (60, 60) pixels with a step size of 1.5 μm" ].

Definition hough_04 : cell :=
  Code false
    []
    [ SAssign
        (EName "s")
        (ECall
           (EAttr (EAttr (EName "kp") "data") "nickel_ebsd_large")
           []
           [("allow_download", EBool true)]);
      SExpr (EName "s") ].

Definition hough_05 : cell :=
  Markdown false
    [ "## Pre-indexing maps";
      EmptyString;
      "First, we produce two indexing independent maps showing microstructural features: a [virtual backscatter electron (VBSE) image](virtual_backscatter_electron_imaging.ipynb) and an [image quality (IQ) map](feature_maps.ipynb#Image-quality).";
      "The former uses the BSE yield on the detector to give a qualitative orientation contrast, so is done on raw unprocessed patterns.";
      "The latter assumes that the sharper the Kikuchi bands, the higher the image quality, so is done on processed patterns." ].

Definition hough_06 : cell :=
  Code false
    []
    [ SAssign
        (EName "vbse_imager")
        (ECall (EAttr (EAttr (EName "kp") "imaging") "VirtualBSEImager") [EName "s"] []);
      SExpr (ECall (EName "print") [EAttr (EName "vbse_imager") "grid_shape"] []) ].

Definition hough_07 : cell :=
  Markdown false
    ["Get the VBSE image by coloring the three center grid tiles red, green and blue"].

Definition hough_08 : cell :=
  Code false
    []
    [ SAssign
        (EName "maps_vbse_rgb")
        (ECall
           (EAttr (EName "vbse_imager") "get_rgb_image")
           []
           [ ("r", ETuple [EInt 2; EInt 1]);
             ("g", ETuple [EInt 2; EInt 2]);
             ("b", ETuple [EInt 2; EInt 3]) ]);
      SExpr (EName "maps_vbse_rgb") ].

Definition hough_09 : cell :=
  Markdown false ["Plot the VBSE image"].

Definition hough_10 : cell :=
  Code false [] [SExpr (ECall (EAttr (EName "maps_vbse_rgb") "plot") [] [])].

Definition hough_11 : cell :=
  Markdown false
    [ "We see that we have 20-30 grains, many of them apparently twinned.";
      EmptyString;
      "Enhance the Kikuchi bands by removing the static and dynamic background (see the [pattern processing tutorial](pattern_processing.ipynb) for details)" ].

Definition hough_12 : cell :=
  Code false
    []
    [ SExpr (ECall (EAttr (EName "s") "remove_static_background") [] []);
      SExpr (ECall (EAttr (EName "s") "remove_dynamic_background") [] []) ].

Definition hough_13 : cell :=
  Markdown false ["Get the IQ map"].

Definition hough_14 : cell :=
  Code false
    []
    [SAssign (EName "maps_iq") (ECall (EAttr (EName "s") "get_image_quality") [] [])].

Definition hough_15 : cell :=
  Markdown false
    [ "Plot the IQ map (using the [CrystalMap.plot()](https://orix.readthedocs.io/en/stable/reference/generated/orix.crystal_map.CrystalMap.plot.html) method of the [EBSD.xmap](../reference/generated/kikuchipy.signals.EBSD.xmap.rst) attribute)" ].

Definition hough_16 : cell :=
  Code false
    []
    [ SExpr
        (ECall
           (EAttr (EAttr (EName "s") "xmap") "plot")
           [ECall (EAttr (EName "maps_iq") "ravel") [] []]
           [ ("cmap", EStr "gray");
             ("colorbar", EBool true);
             ("colorbar_label", EStr "Image quality $Q$");
             ("remove_padding", EBool true) ]) ].

Definition hough_17 : cell :=
  Markdown false
    [ "We recognize the grain and (presumably) twinning boundaries from the VBSE image, and also some dark lines, e.g. to the lower and upper left, which look like scratches on the sample surface." ].

Definition hough_18 : cell :=
  Markdown false
    [ "## Calibrate detector-sample geometry";
      EmptyString;
      "We need to know the position of the sample with respect to the detector, the so-called projection/pattern center (PC) (see the [reference frames tutorial](reference_frames.ipynb) for all conventions).";
      "We do this by optimizing an initial guess of the PC obtained from similar experiments on the same microscope.";
      EmptyString;
      "We will keep all detector-sample geometry parameters conveniently in an [EBSDDetector](../reference/generated/kikuchipy.detectors.EBSDDetector.rst)" ].

Definition hough_19 : cell :=
  Code false
    []
    [ SAssign
        (EName "sig_shape")
        (ESubscript
           (EAttr (EAttr (EName "s") "axes_manager") "signal_shape")
           (ESlice None None (Some (EInt (-1)))));
      SAssign
        (EName "det")
        (ECall
           (EAttr (EAttr (EName "kp") "detectors") "EBSDDetector")
           [EName "sig_shape"]
           [("sample_tilt", EInt 70)]);
      SExpr (EName "det") ].

Definition hough_20 : cell :=
  Markdown false
    ["Extract patterns from the full dataset spread out evenly in a map grid"].

Definition hough_21 : cell :=
  Code false
    []
    [ SAssign (EName "grid_shape") (ETuple [EInt 5; EInt 4]);
      SAssign
        (ETuple [EName "s_grid"; EName "idx"])
        (ECall
           (EAttr (EName "s") "extract_grid")
           [EName "grid_shape"]
           [("return_indices", EBool true)]);
      SExpr (EName "s_grid") ].

Definition hough_22 : cell :=
  Markdown false ["Plot the pattern grid on the IQ map"].

Definition hough_23 : cell :=
  Code false
    []
    [ SAssign
        (EName "nav_shape")
        (ESubscript
           (EAttr (EAttr (EName "s") "axes_manager") "navigation_shape")
           (ESlice None None (Some (EInt (-1)))));
      SExpr
        (ECall
           (EAttr (EAttr (EName "kp") "draw") "plot_pattern_positions_in_map")
           []
           [ ("rc",
              EAttr (ECall (EAttr (EName "idx") "reshape") [EInt 2; EInt (-1)] []) "T");
             ("roi_shape", EName "nav_shape");
             ("roi_image", EName "maps_iq") ]) ].

Definition hough_24 : cell :=
  Markdown false
    [ "We will optimize one PC per pattern in this grid using [EBSD.hough_indexing_optimize_pc()](../reference/generated/kikuchipy.signals.EBSD.hough_indexing_optimize_pc.rst), which calls the `PyEBSDIndex` function";
      "[pcopt.optimize()](https://pyebsdindex.readthedocs.io/en/stable/reference/generated/pyebsdindex.pcopt.optimize.html) internally.";
      "Hough indexing with `PyEBSDIndex` is centered around the use of an [EBSDIndexer](https://pyebsdindex.readthedocs.io/en/stable/reference/generated/pyebsdindex.ebsd_index.EBSDIndexer.html).";
      "The indexer stores the phase and detector information as well as the indexing parameters, like the resolution of the Hough transform and the number of bands to use for orientation determination.";
      "Here, we obtain this indexer by combining a [PhaseList](https://orix.readthedocs.io/en/stable/reference/generated/orix.crystal_map.PhaseList.html) with an `EBSDDetector` via [EBSDDetector.get_indexer()](../reference/generated/kikuchipy.detectors.EBSDDetector.get_indexer.rst)" ].

Definition hough_25 : cell :=
  Code false
    []
    [ SAssign
        (EName "phase_list")
        (ECall
           (EName "PhaseList")
           [ ECall
               (EName "Phase")
               []
               [ ("name", EStr "ni");
                 ("space_group", EInt 225);
                 ("structure",
                  ECall
                    (EName "Structure")
                    []
                    [ ("lattice",
                       ECall
                         (EName "Lattice")
                         [ EFloat "3.5236";
                           EFloat "3.5236";
                           EFloat "3.5236";
                           EInt 90;
                           EInt 90;
                           EInt 90 ]
                         []);
                      ("atoms",
                       EList
                         [ ECall
                             (EName "Atom")
                             [EStr "Ni"; EList [EInt 0; EInt 0; EInt 0]]
                             [] ]) ]) ] ]
           []);
      SExpr (EName "phase_list") ].

Definition hough_26 : cell :=
  Code false
    []
    [ SAssign
        (EName "indexer")
        (ECall (EAttr (EName "det") "get_indexer") [EName "phase_list"] []);
      SExpr (ECall (EName "print") [EAttr (EName "indexer") "vendor"] []);
      SExpr (ECall (EName "print") [EAttr (EName "indexer") "sampleTilt"] []);
      SExpr (ECall (EName "print") [EAttr (EName "indexer") "camElev"] []);
      SExpr (ECall (EName "print") [EAttr (EName "indexer") "PC"] []);
      SExpr (ECall (EName "print") [EAttr (EName "indexer") "phaselist"] []) ].

Definition hough_27 : cell :=
  Markdown false
    [ "Optimize PCs for each grid pattern using the Nelder-Mead optimization algorithm from SciPy.";
      "(We will " +:+ q "overwrite" +:+ " the existing detector variable.)" ].

Definition hough_28 : cell :=
  Code false
    []
    [ SAssign
        (EName "det")
        (ECall
           (EAttr (EName "s_grid") "hough_indexing_optimize_pc")
           []
           [ ("pc0", EList [EFloat "0.4"; EFloat "0.2"; EFloat "0.5"]);
             ("indexer", EName "indexer");
             ("batch", EBool true) ]);
      SExpr
        (ECall
           (EName "print")
           [ ECall
               (EAttr (EAttr (EName "det") "pc_flattened") "mean")
               []
               [("axis", EInt 0)] ]
           []);
      SExpr
        (ECall
           (EName "print")
           [ECall (EAttr (EAttr (EName "det") "pc_flattened") "std") [EInt 0] []]
           []) ].

Definition hough_29 : cell :=
  Markdown false ["Plot the PCs"].

Definition hough_30 : cell :=
  Code false
    []
    [ SExpr
        (ECall
           (EAttr (EName "det") "plot_pc")
           [EStr "scatter"]
           [("s", EInt 50); ("annotate", EBool true)]) ].

Definition hough_31 : cell :=
  Markdown false
    [ "The values do not order nicely in the grid they were extracted from...";
      "This is not that surprising though, seeing that they are only (60, 60) pixels wide!";
      "Fortunately, the spread is not great, so we will can use the mean PC for indexing." ].

Definition hough_32 : cell :=
  Code false [] [SAssign (EAttr (EName "det") "pc") (EAttr (EName "det") "pc_average")].

Definition hough_33 : cell :=
  Markdown false
    ["We can check the position of the mean PC on the detector before using it"].

Definition hough_34 : cell :=
  Code false
    []
    [ SExpr
        (ECall
           (EAttr (EName "det") "plot")
           []
           [ ("pattern",
              EAttr
                (ESubscript (EAttr (EName "s_grid") "inav") (ETuple [EInt 0; EInt 0]))
                "data") ]) ].

Definition hough_35 : cell :=
  Markdown false
    [ "## Perform indexing";
      EmptyString;
      "With this PC calibration, we can index all patterns.";
      "We will get a new indexer from the detector with the average PC as determined from the optimization above" ].

Definition hough_36 : cell :=
  Code false
    []
    [ SAssign
        (EName "indexer")
        (ECall (EAttr (EName "det") "get_indexer") [EName "phase_list"] []);
      SExpr (EAttr (EName "indexer") "PC") ].

Definition hough_37 : cell :=
  Markdown false
    [ "Now we are ready to index our patterns using [EBSD.hough_indexing()](../reference/generated/kikuchipy.signals.EBSD.hough_indexing.rst).";
      "After indexing is done, we will also plot the Hough transform of the first pattern with the nine detected bands used in indexing highlighted (by passing `verbose=2` on top `PyEBSDIndex`).";
      "Although we passed the phase list to create the indexer with `EBSDDetector.get_indexer()` above, we need to pass it to `EBSD.hough_indexing()` to obtain describe the phase(s) correctly in the returned [CrystalMap](https://orix.readthedocs.io/en/stable/reference/generated/orix.crystal_map.CrystalMap.html)" ].

Definition hough_38 : cell :=
  Code false
    []
    [ SAssign
        (EName "xmap")
        (ECall
           (EAttr (EName "s") "hough_indexing")
           []
           [ ("phase_list", EName "phase_list");
             ("indexer", EName "indexer");
             ("verbose", EInt 2) ]) ].

Definition hough_39 : cell :=
  Code false [] [SExpr (EName "xmap")].

Definition hough_40 : cell :=
  Markdown false ["## Validate indexing results"].

Definition hough_41 : cell :=
  Markdown false ["Plot quality metrics"].

Definition hough_42 : cell :=
  Code false
    []
    [ SAssign
        (EName "aspect_ratio")
        (EBinOp Div
           (ESubscript (EAttr (EName "xmap") "shape") (EInt 1))
           (ESubscript (EAttr (EName "xmap") "shape") (EInt 0)));
      SAssign
        (EName "figsize")
        (ETuple
           [ EBinOp Mul (EInt 8) (EName "aspect_ratio");
             EBinOp Mul (EFloat "4.5") (EName "aspect_ratio") ]);
      SAssign
        (ETuple [EName "fig"; EName "ax"])
        (ECall
           (EAttr (EName "plt") "subplots")
           []
           [("nrows", EInt 2); ("ncols", EInt 2); ("figsize", EName "figsize")]);
      SFor
        (ETuple [EName "a"; EName "to_plot"])
        (ECall
           (EName "zip")
           [ ECall (EAttr (EName "ax") "ravel") [] [];
             EList [EStr "pq"; EStr "cm"; EStr "fit"; EStr "nmatch"] ]
           [])
        [ SAssign
            (EName "im")
            (ECall
               (EAttr (EName "a") "imshow")
               [ECall (EAttr (EName "xmap") "get_map_data") [EName "to_plot"] []]
               []);
          SExpr
            (ECall
               (EAttr (EName "fig") "colorbar")
               [EName "im"]
               [("ax", EName "a"); ("label", EName "to_plot")]);
          SExpr (ECall (EAttr (EName "a") "axis") [EStr "off"] []) ];
      SExpr
        (ECall
           (EAttr (EName "fig") "subplots_adjust")
           []
           [("wspace", EInt 0); ("hspace", EFloat "0.05")]) ].

Definition hough_43 : cell :=
  Markdown false
    [ "The pattern quality (PQ) and confidence metric (CM) maps show little variation across the sample.";
      "The most important map here is the pattern fit (also known as the mean angular error/deviation), which shows the average angular deviation between the positions of each detected band to the closest theoretical band: this is below an OK fit of 1.5$^{\circ}$ across most of the map.";
      "The final map (*nmatch*) shows that most of the nine detected bands in each pattern were indexed within a pattern fit of 3$^{\circ}$.";
      "See the [PyEBSDIndex Hough indexing tutorial](https://pyebsdindex.readthedocs.io/en/latest/tutorials/ebsd_index_demo.html) for a complete explanation of all the indexing result parameters.";
      EmptyString;
      "Create a color key to color orientations with" ].

Definition hough_44 : cell :=
  Code false
    []
    [ SAssign (EName "v_ipf") (ECall (EAttr (EName "Vector3d") "xvector") [] []);
      SAssign
        (EName "sym")
        (EAttr (ESubscript (EAttr (EName "xmap") "phases") (EInt 0)) "point_group");
      SAssign
        (EName "ckey")
        (ECall (EAttr (EName "plot") "IPFColorKeyTSL") [EName "sym"; EName "v_ipf"] []);
      SExpr (EName "ckey") ].

Definition hough_45 : cell :=
  Markdown false
    [ "Orientations are given a color based on which crystal direction $\left<uvw\right>$ points in a certain sample direction, producing the so-called inverse pole figure (IPF) map.";
      "Let's plot the IPF-X map with the CM map overlayed" ].

Definition hough_46 : cell :=
  Code false
    ["nbsphinx-thumbnail"]
    [ SAssign
        (EName "rgb_x")
        (ECall
           (EAttr (EName "ckey") "orientation2color")
           [EAttr (EName "xmap") "rotations"]
           []);
      SAssign
        (EName "fig")
        (ECall
           (EAttr (EName "xmap") "plot")
           [EName "rgb_x"]
           [ ("overlay", EStr "cm");
             ("remove_padding", EBool true);
             ("return_figure", EBool true) ]);
      SAssign
        (EName "ax_ckey")
        (ECall
           (EAttr (EName "fig") "add_axes")
           [EList [EFloat "0.77"; EFloat "0.07"; EFloat "0.2"; EFloat "0.2"]]
           [("projection", EStr "ipf"); ("symmetry", EName "sym")]);
      SExpr
        (ECall
           (EAttr (EName "ax_ckey") "plot_ipf_color_key")
           []
           [("show_title", EBool false)]);
      SExpr
        (ECall (EAttr (EAttr (EName "ax_ckey") "patch") "set_facecolor") [EStr "None"] []) ].

Definition hough_47 : cell :=
  Markdown false ["Let's also plot the three maps side by side"].

Definition hough_48 : cell :=
  Code false
    []
    [ SAssign
        (EName "directions")
        (ECall
           (EName "Vector3d")
           [ ETuple
               [ ETuple [EInt 1; EInt 0; EInt 0];
                 ETuple [EInt 0; EInt 1; EInt 0];
                 ETuple [EInt 0; EInt 0; EInt 1] ] ]
           []);
      SAssign (EName "n") (EAttr (EName "directions") "size");
      SAssign
        (EName "figsize")
        (ETuple
           [ EBinOp Mul (EBinOp Mul (EInt 4) (EName "n")) (EName "aspect_ratio");
             EBinOp Mul (EName "n") (EName "aspect_ratio") ]);
      SAssign
        (ETuple [EName "fig"; EName "ax"])
        (ECall
           (EAttr (EName "plt") "subplots")
           []
           [("ncols", EName "n"); ("figsize", EName "figsize")]);
      SFor
        (ETuple [EName "i"; EName "title"])
        (ECall
           (EName "zip")
           [ECall (EName "range") [EName "n"] []; EList [EStr "X"; EStr "Y"; EStr "Z"]]
           [])
        [ SAssign
            (EAttr (EName "ckey") "direction")
            (ESubscript (EName "directions") (EName "i"));
          SAssign
            (EName "rgb")
            (ECall
               (EAttr (EName "ckey") "orientation2color")
               [EAttr (EName "xmap") "rotations"]
               []);
          SExpr
            (ECall
               (EAttr (ESubscript (EName "ax") (EName "i")) "imshow")
               [ ECall
                   (EAttr (EName "rgb") "reshape")
                   [EBinOp Add (EAttr (EName "xmap") "shape") (ETuple [EInt 3])]
                   [] ]
               []);
          SExpr
            (ECall
               (EAttr (ESubscript (EName "ax") (EName "i")) "set_title")
               [EFString [EStr "IPF-"; EName "title"]]
               []);
          SExpr
            (ECall (EAttr (ESubscript (EName "ax") (EName "i")) "axis") [EStr "off"] []) ];
      SExpr (ECall (EAttr (EName "fig") "subplots_adjust") [] [("wspace", EFloat "0.02")]) ].

Definition hough_49 : cell :=
  Markdown false
    [ "The orientation maps show grains and twins as we would expect from the VBSE image and IQ map obtained before indexing.";
      EmptyString;
      "As a final verification, we'll plot geometrical simulations on top of the experimental patterns (see the [geometrical simulations tutorial](geometrical_ebsd_simulations.ipynb) for details)" ].

Definition hough_50 : cell :=
  Code false
    []
    [ SAssign
        (EName "rlv")
        (ECall
           (EName "ReciprocalLatticeVector")
           []
           [ ("phase", ESubscript (EAttr (EName "xmap") "phases") (EInt 0));
             ("hkl",
              EList
                [ EList [EInt 1; EInt 1; EInt 1];
                  EList [EInt 2; EInt 0; EInt 0];
                  EList [EInt 2; EInt 2; EInt 0];
                  EList [EInt 3; EInt 1; EInt 1] ]) ]);
      SAssign (EName "rlv") (ECall (EAttr (EName "rlv") "symmetrise") [] []);
      SAssign
        (EName "simulator")
        (ECall
           (EAttr (EAttr (EName "kp") "simulations") "KikuchiPatternSimulator")
           [EName "rlv"]
           []);
      SAssign
        (EName "sim")
        (ECall
           (EAttr (EName "simulator") "on_detector")
           [ EName "det";
             ECall
               (EAttr (EAttr (EName "xmap") "rotations") "reshape")
               [EStarred (EAttr (EName "xmap") "shape")]
               [] ]
           []) ].

Definition hough_51 : cell :=
  Markdown false ["Add markers to EBSD signal"].

Definition hough_52 : cell :=
  Code false
    []
    [ SAssign (EName "markers") (ECall (EAttr (EName "sim") "as_markers") [] []);
      SExpr
        (ECall
           (EAttr (EName "s") "add_marker")
           [EName "markers"]
           [("plot_marker", EBool false); ("permanent", EBool true)]) ].

Definition hough_53 : cell :=
  Markdown false
    [ "Navigate patterns with simulations in IPF-X map (see the [visualization tutorial](visualizing_patterns.ipynb) for details)" ].

Definition hough_54 : cell :=
  Code false
    []
    [ SAssign
        (EName "maps_nav_rgb")
        (ECall
           (EAttr (EAttr (EName "kp") "draw") "get_rgb_navigator")
           [ ECall
               (EAttr (EName "rgb_x") "reshape")
               [EBinOp Add (EAttr (EName "xmap") "shape") (ETuple [EInt 3])]
               [] ]
           []) ].

Definition hough_55 : cell :=
  Code false [] [SExpr (ECall (EAttr (EName "s") "plot") [EName "maps_nav_rgb"] [])].

Definition hough_56 : cell :=
  Markdown false
    [ "We can refine the orientation results using dynamical simulations.";
      "See the [refinement section](pattern_matching.ipynb#Refinement) of the pattern matching tutorial for how to do that." ].

Definition hough_indexing : notebook :=
  {| cells :=
       [ hough_00; hough_01; hough_02; hough_03; hough_04; hough_05; hough_06;
       hough_07; hough_08; hough_09; hough_10; hough_11; hough_12; hough_13; hough_14;
       hough_15; hough_16; hough_17; hough_18; hough_19; hough_20; hough_21; hough_22;
       hough_23; hough_24; hough_25; hough_26; hough_27; hough_28; hough_29; hough_30;
       hough_31; hough_32; hough_33; hough_34; hough_35; hough_36; hough_37; hough_38;
       hough_39; hough_40; hough_41; hough_42; hough_43; hough_44; hough_45; hough_46;
       hough_47; hough_48; hough_49; hough_50; hough_51; hough_52; hough_53; hough_54;
       hough_55; hough_56 ];
     kernel_name := "python3";
     language := "python";
     language_version := "3.10.9";
     nbformat := (4, 5) |}.

(** *** doc/tutorials/hough_indexing.ipynb, second notebook: Visualizing patterns

    The file goes on, after a separator line, with a second notebook.  Its
    first heading is "Visualizing patterns", and the Hough indexing notebook
    links to it as [visualizing_patterns.ipynb]. *)

Definition visual_00 : cell :=
  Markdown true
    [ "This notebook is part of the `kikuchipy` documentation https://kikuchipy.org.";
      "Links to the documentation won't work from the notebook." ].

Definition visual_01 : cell :=
  Markdown false
    [ "# Visualizing patterns";
      EmptyString;
      "The [EBSD](../reference/generated/kikuchipy.signals.EBSD.rst) and [EBSDMasterPattern](../reference/generated/kikuchipy.signals.EBSDMasterPattern.rst) signals have a powerful and versatile [plot()](http://hyperspy.org/hyperspy-doc/current/api/hyperspy.signal.html#hyperspy.signal.BaseSignal.plot) method provided by HyperSpy.";
      "Its uses are greatly detailed in HyperSpy's [visualisation user guide](http://hyperspy.org/hyperspy-doc/current/user_guide/visualisation.html).";
      "This section details example uses specific to EBSD and EBSDMasterPattern signals.";
      EmptyString;
      "Let's import the necessary libraries and a Nickel EBSD test data set <cite data-cite=" +:+ q "aanes2019electron" +:+ ">Ånes et al. (2019)</cite>" ].

Definition visual_02 : cell :=
  Code false
    []
    [ SMagic "matplotlib inline";
      SImport "matplotlib.pyplot" (Some "plt");
      SImport "numpy" (Some "np");
      SImport "pyvista" None;
      SImport "skimage.exposure" (Some "ske");
      SImport "skimage.transform" (Some "skt");
      SImport "hyperspy.api" (Some "hs");
      SImport "kikuchipy" (Some "kp");
      SFromImport "orix" ["io"; "plot"; "quaternion"; "vector"];
      SExpr (ECall (EAttr (EName "pyvista") "set_jupyter_backend") [EStr "panel"] []) ].

Definition visual_03 : cell :=
  Code false
    []
    [ SAssign
        (EName "s")
        (ECall
           (EAttr (EAttr (EName "kp") "data") "nickel_ebsd_large")
           []
           [("allow_download", EBool true)]);
      SExpr (EName "s") ].

Definition visual_04 : cell :=
  Markdown false
    [ "## Navigate in custom map";
      EmptyString;
      "Correlating results from e.g. crystal and phase structure determination, i.e. indexing, with experimental patterns can inform their interpretation.";
      "When calling `plot()` without any input parameters, the navigator map is a grey scale image with pixel values corresponding to the sum of all detector intensities within that pattern" ].

Definition visual_05 : cell :=
  Code false [] [SExpr (ECall (EAttr (EName "s") "plot") [] [])].

Definition visual_06 : cell :=
  Markdown false
    [ "The upper panel shows the navigation axes, in this case 2D, with the current beam position in the upper left corner shown as a red square the size of one pixel.";
      "This square can be made larger/smaller with <kbd>+</kbd>/<kbd>-</kbd>.";
      "The square can be moved either by the keyboard arrows or the mouse.";
      "The lower panel shows the image on the detector in the current beam position.";
      EmptyString;
      "Any [BaseSignal](http://hyperspy.org/hyperspy-doc/current/api/hyperspy.signal.html#hyperspy.signal.BaseSignal) signal with a 2D `signal_shape` corresponding to the scan `navigation_shape` can be passed in to the `navgiator` parameter in [plot()](http://hyperspy.org/hyperspy-doc/current/api/hyperspy.signal.html#hyperspy.signal.BaseSignal.plot), including a virtual image showing diffraction contrast, any quality metric map, or an orientation map or a phase map." ].

Definition visual_07 : cell :=
  Markdown false
    [ "## Virtual image";
      EmptyString;
      "A virtual backscatter electron (VBSE) image created from any detector region of interest with the [get_virtual_bse_intensity()](../reference/generated/kikuchipy.signals.EBSD.get_virtual_bse_intensity.rst) method or";
      "[get_rgb_image()](../reference/generated/kikuchipy.imaging.VirtualBSEImager.get_rgb_image.rst) explained in the [virtual backscatter electron imaging](virtual_backscatter_electron_imaging.ipynb) tutorial, can be used as a navigator for a scan `s`" ].

Definition visual_08 : cell :=
  Code false
    []
    [ SAssign
        (EName "vbse_imager")
        (ECall (EAttr (EAttr (EName "kp") "imaging") "VirtualBSEImager") [EName "s"] []);
      SExpr (ECall (EName "print") [EName "vbse_imager"] []);
      SExpr (ECall (EName "print") [EAttr (EName "vbse_imager") "grid_shape"] []) ].

Definition visual_09 : cell :=
  Code false
    []
    [ SAssign
        (EName "vbse_rgb")
        (ECall
           (EAttr (EName "vbse_imager") "get_rgb_image")
           []
           [ ("r", ETuple [EInt 3; EInt 1]);
             ("b", ETuple [EInt 3; EInt 2]);
             ("g", ETuple [EInt 3; EInt 3]) ]);
      SExpr (EName "vbse_rgb") ].

Definition visual_10 : cell :=
  Code false
    []
    [ SExpr
        (ECall
           (EAttr (EName "s") "plot")
           []
           [("navigator", EName "vbse_rgb"); ("cmap", EStr "viridis")]) ].

Definition visual_11 : cell :=
  Markdown false
    [ "## Any image";
      EmptyString;
      "Images made into a [Signal2D](http://hyperspy.org/hyperspy-doc/current/api/hyperspy._signals.signal2d.html#hyperspy._signals.signal2d.Signal2D) can be used as navigators, like a quality metric map like the [image quality map](feature_maps.ipynb#Image-quality) calculated using [get_image_quality()](../reference/generated/kikuchipy.signals.EBSD.get_image_quality.rst)" ].

Definition visual_12 : cell :=
  Code false
    []
    [ SExpr (ECall (EAttr (EName "s") "remove_static_background") [] []);
      SExpr (ECall (EAttr (EName "s") "remove_dynamic_background") [] []) ].

Definition visual_13 : cell :=
  Code false
    []
    [ SAssign (EName "iq") (ECall (EAttr (EName "s") "get_image_quality") [] []);
      SAssign
        (EName "s_iq")
        (ECall (EAttr (EAttr (EName "hs") "signals") "Signal2D") [EName "iq"] []);
      SExpr (ECall (EAttr (EName "s") "plot") [] [("navigator", EName "s_iq")]) ].

Definition visual_14 : cell :=
  Markdown false
    [ "We can obtain an RGB signal from an RGB image using [get_rgb_navigator()](../reference/generated/kikuchipy.draw.get_rgb_navigator.rst).";
      "Let's load an orientation map from dictionary indexing in the [pattern matching](pattern_matching.ipynb) tutorial" ].

Definition visual_15 : cell :=
  Code false
    []
    [ SAssign
        (EName "rgb_z")
        (ECall
           (EAttr (EName "plt") "imread")
           [EStr "../_static/image/visualizing_patterns/ni_large_rgb_z.png"]
           []);
      SAssign
        (EName "rgb_z")
        (ESubscript
           (EName "rgb_z")
           (ETuple [EEllipsis; ESlice None (Some (EInt 3)) None]));
      SAssign
        (EName "s_rgb_z")
        (ECall (EAttr (EAttr (EName "kp") "draw") "get_rgb_navigator") [EName "rgb_z"] []);
      SExpr
        (ECall
           (EAttr (EName "s") "plot")
           []
           [("navigator", EName "s_rgb_z"); ("colorbar", EBool false)]) ].

Definition visual_16 : cell :=
  Markdown false
    [ "## Plot multiple signals";
      EmptyString;
      "HyperSpy provides the function [plot_signals()](http://hyperspy.org/hyperspy-doc/current/api/hyperspy.drawing.utils.html#hyperspy.drawing.utils.plot_signals) to plot multiple signals with the same navigator, as explained in their [documentation](http://hyperspy.org/hyperspy-doc/current/user_guide/visualisation.html#plotting-several-signals).";
      "This enables e.g. plotting of experimental and best matching simulated patterns side-by-side as a visual inspection of indexing results.";
      "See the [pattern matching tutorial](pattern_matching.ipynb#Validate-indexing-results) for a demonstration." ].

Definition visual_17 : cell :=
  Markdown false
    [ "## Plot master patterns";
      EmptyString;
      "[EBSDMasterPattern](../reference/generated/kikuchipy.signals.EBSDMasterPattern.rst) signals can be navigated along their energy axis and/or their northern/southern hemisphere.";
      "Let's reload the Nickel master pattern used in the previous section, but this time in the stereographic projection." ].

Definition visual_18 : cell :=
  Code false
    []
    [ SAssign
        (EName "mp_stereo")
        (ECall
           (EAttr (EAttr (EName "kp") "data") "nickel_ebsd_master_pattern_small")
           []
           [("projection", EStr "stereographic"); ("hemisphere", EStr "both")]);
      SExpr (ECall (EName "print") [EAttr (EName "mp_stereo") "axes_manager"] []) ].

Definition visual_19 : cell :=
  Markdown false
    [ "As can be seen from the axes manager, the master pattern has two navigation axes, the northern and southern hemispheres, thus, when plotting, we get a navigation slider" ].

Definition visual_20 : cell :=
  Code false
    ["nbsphinx-thumbnail"]
    [SExpr (ECall (EAttr (EName "mp_stereo") "plot") [] [])].

Definition visual_21 : cell :=
  Markdown false
    [ "We can plot the master pattern on the sphere, provided it is in the stereographic projection and that both hemispheres are loaded if it is non-centrosymmetric, using [EBSDMasterPattern.plot_spherical()](../reference/generated/kikuchipy.signals.EBSDMasterPattern.plot_spherical.rst).";
      "The initial orientation of the sphere corresponds to the orientation of the stereographic and Lambert projections." ].

Definition visual_22 : cell :=
  Code false
    ["nbval-skip"]
    [ SExpr
        (ECall (EAttr (EName "mp_stereo") "plot_spherical") [] [("style", EStr "points")]) ].

Definition visual_23 : cell :=
  Markdown false
    [ "This plot uses one of the [Jupyter backends supported by PyVista](https://docs.pyvista.org/user-guide/jupyter/index.html), installed separately, which we set in the first notebook cell.";
      "If we want to plot the master pattern in a separate window, we can pass `plotter_kwargs={" +:+ dq +:+ "notebook" +:+ dq +:+ ": False}" +:+ dq +:+ "` to `plot_spherical()`.";
      "`PyVista`, required for this interactive plot, is an optional dependency of kikuchipy; see [the installation guide](../user/installation.rst#with-pip) for details." ].

Definition visualizing_patterns : notebook :=
  {| cells :=
       [ visual_00; visual_01; visual_02; visual_03; visual_04; visual_05; visual_06;
       visual_07; visual_08; visual_09; visual_10; visual_11; visual_12; visual_13;
       visual_14; visual_15; visual_16; visual_17; visual_18; visual_19; visual_20;
       visual_21; visual_22; visual_23 ];
     kernel_name := "python3";
     language := "python";
     language_version := "3.10.9";
     nbformat := (4, 4) |}.

(** The notebooks of the slice, in the order of the files. *)
Definition notebooks : list notebook :=
  [ virtual_backscatter_electron_imaging; hough_indexing; visualizing_patterns ].

(** The statements of a code cell. *)
Definition cell_source (c : cell) : list stmt :=
  match c with Code _ _ ss => ss | Markdown _ _ => [] end.

Definition code_cells (nb : notebook) : list (list stmt) :=
  omap (fun c => match c with Code _ _ ss => Some ss | Markdown _ _ => None end)
       (cells nb).

Definition markdown_lines (nb : notebook) : list string :=
  mjoin (omap (fun c => match c with Markdown _ ls => Some ls | Code _ _ _ => None end)
              (cells nb)).

(** A cell that the built documentation leaves out ([nbsphinx: hidden]). *)
Definition hidden (c : cell) : bool :=
  match c with Markdown h _ | Code h _ _ => h end.

Definition is_code (c : cell) : bool :=
  match c with Code _ _ _ => true | Markdown _ _ => false end.

Definition tagged (t : string) (c : cell) : bool :=
  match c with
  | Code _ tags _ => bool_decide (t ∈ tags)
  | Markdown _ _ => false
  end.

(** Where in a notebook the cells with property [p] stand, counting all
    cells from 0. *)
Definition positions (p : cell -> bool) (nb : notebook) : list nat :=
  (fun ic => fst ic) <$> filter (fun ic => p (snd ic) = true) (imap pair (cells nb)).

(** The code cells the built documentation shows. *)
Definition visible_code_cells (nb : notebook) : list (list stmt) :=
  omap (fun c => match c with Code false _ ss => Some ss | _ => None end) (cells nb).

End Nb.

(* ===================================================================== *)
(** ** Running a notebook *)
(* ===================================================================== *)

(** The cells of a notebook run top to bottom in one Python session.  The
    model keeps what the notebook's own statements do: the names they bind,
    the attributes and items they assign on objects, and the files they ask
    the operating system to create or delete.

    The libraries the notebooks call (kikuchipy itself, HyperSpy, orix,
    matplotlib's plotting, NumPy, ...) are not in the slice.  What a call
    into them does, to the state of objects (a method that works in place),
    to the file system (a download into a cache) or by raising, is not for
    the model to decide: it is part of the [world] a notebook runs in, as is
    which modules are installed.  A theorem that needs the libraries to
    behave in some way says so in a hypothesis on the world. *)

Module Sem.
Import Py.

Inductive value :=
| VNone
| VBool (b : bool)
| VInt (n : Z)
| VFloat (lit : string)
| VStr (s : string)
| VTuple (vs : list value)
| VList (vs : list value)
| VDict (kvs : list (value * value))
| VSlice (lo hi step : option value)
| VEllipsis
| VPath (p : list string)      (* a file-system path, [str] or [pathlib.Path] *)
| VGlobal (qual : list string) (* a module or a member of one, by qualified name *)
| VObj (l : list nat)          (* an object a library call returned *)
| VAttrOf (base : value) (a : string) (* [base.a], never assigned by the notebook *)
| VItemOf (base : value) (i : value)  (* [base[i]], never assigned by the notebook *)
| VUnknown.                    (* a number or sequence the model does not track *)

(** Objects that can carry state: the ones library calls returned and the
    module-level ones ([plt.rcParams]). *)
Inductive oid := OAlloc (l : list nat) | OGlobal (qual : list string).

(** A place in an object: an attribute [o.a] or an item [o[k]] with a string
    key. *)
Inductive slot := SlotAttr (a : string) | SlotItem (k : string).

#[global] Instance oid_eq_dec : EqDecision oid.
Proof. solve_decision. Defined.

#[global] Instance slot_eq_dec : EqDecision slot.
Proof. solve_decision. Defined.

Definition oid_to_sum (o : oid) : list nat + list string :=
  match o with OAlloc l => inl l | OGlobal g => inr g end.

Definition oid_of_sum (s : list nat + list string) : oid :=
  match s with inl l => OAlloc l | inr g => OGlobal g end.

Lemma oid_of_to_sum o : oid_of_sum (oid_to_sum o) = o.
Proof. by destruct o. Qed.

#[global] Instance oid_countable : Countable oid :=
  inj_countable' oid_to_sum oid_of_sum oid_of_to_sum.

Definition slot_to_sum (s : slot) : string + string :=
  match s with SlotAttr a => inl a | SlotItem k => inr k end.

Definition slot_of_sum (s : string + string) : slot :=
  match s with inl a => SlotAttr a | inr k => SlotItem k end.

Lemma slot_of_to_sum s : slot_of_sum (slot_to_sum s) = s.
Proof. by destruct s. Qed.

#[global] Instance slot_countable : Countable slot :=
  inj_countable' slot_to_sum slot_of_sum slot_of_to_sum.

(** What is asked of the file system while a notebook runs. *)
Inductive fsop :=
| FsMkdtemp (d : list string)  (* [tempfile.mkdtemp()] created directory [d] *)
| FsWrite (f : list string)    (* file [f] is written: [plt.imsave(f, ...)], a download *)
| FsRemove (f : list string)   (* [os.remove(f)] *)
| FsRmdir (d : list string).   (* [os.rmdir(d)] *)

Inductive exn :=
| NameError (x : string)
| ModuleNotFoundError (m : string)  (* [import m] when [m] is not installed *)
| IndexError
| ValueError
| LibraryError (what : string)      (* raised inside a library call *)
| Unsupported.

(** The session: names, assigned object state, where the next object a call
    returns is numbered, and the file-system requests so far, oldest first.

    An object is numbered by where it was made.  Outside any loop the objects
    are [[0]], [[1]], ...; a [for] loop takes the next number [k] for itself,
    and the objects made in its round [i] are [[k; i; 0]], [[k; i; 1]], ...;
    after the loop the numbering goes on at [[k + 1]].  So the number of an
    object made after a loop does not depend on how many rounds the loop
    had. *)
Record state := {
  env : gmap string value;
  heap : gmap (oid * slot) value;
  scope : list nat;
  next : nat;
  files : list fsop
}.

Definition init : state :=
  {| env := ∅; heap := ∅; scope := []; next := 0; files := [] |}.

(** What a call into a library does besides handing back an object: the
    attributes and items it sets on objects (a method that works in place,
    such as [s.remove_static_background()] or [plt.rcParams.update(...)]),
    the files it asks for (a data set downloaded into a cache), and whether
    it raises instead. *)
Record effect := {
  sets : list (oid * slot * value);
  asks : list fsop;
  throws : option exn
}.

(** A call that only hands back an object. *)
Definition quiet : effect := {| sets := []; asks := []; throws := None |}.

(** What the session cannot decide: the directory [tempfile.mkdtemp] picks,
    how many elements an iterable made by a library yields, which modules
    are installed, and what each call into a library does (by the callable,
    its arguments and its keyword arguments). *)
Record world := {
  tmpdir : list string;
  unknown_len : nat;
  installed : string -> bool;
  library : value -> list value -> list (string * value) -> effect
}.

Inductive res (A : Type) :=
| Ok (a : A)
| Err (e : exn).
Arguments Ok {A} a.
Arguments Err {A} e.

Definition M (A : Type) : Type := state -> res (A * state).

Definition ret {A} (a : A) : M A := fun σ => Ok (a, σ).

Definition bind {A B} (m : M A) (k : A -> M B) : M B :=
  fun σ => match m σ with
           | Ok (a, σ') => k a σ'
           | Err e => Err e
           end.

Definition raise {A} (e : exn) : M A := fun _ => Err e.

Notation "'do' x <- m ; k" := (bind m (fun x => k))
  (at level 10, x name, m at level 100, k at level 200).
Notation "m ;; k" := (bind m (fun _ => k))
  (at level 100, k at level 200, right associativity).

Definition mmap {A B} (f : A -> M B) : list A -> M (list B) :=
  fix go l :=
    match l with
    | [] => ret []
    | a :: l' => do b <- f a; do bs <- go l'; ret (b :: bs)
    end.

Definition mfor {A} (f : A -> M unit) : list A -> M unit :=
  fix go l :=
    match l with
    | [] => ret tt
    | a :: l' => f a ;; go l'
    end.

Definition moption {A B} (f : A -> M B) (o : option A) : M (option B) :=
  match o with
  | Some a => do b <- f a; ret (Some b)
  | None => ret None
  end.

(** *** The session's primitives *)

Definition builtins : list string := ["print"; "zip"; "range"].

Definition lookup_name (x : string) : M value :=
  fun σ => match env σ !! x with
           | Some v => Ok (v, σ)
           | None =>
               if bool_decide (x ∈ builtins) then Ok (VGlobal ["builtins"; x], σ)
               else Err (NameError x)
           end.

Definition bind_name (x : string) (v : value) : M unit :=
  fun σ => Ok (tt, {| env := <[x := v]> (env σ); heap := heap σ;
                      scope := scope σ; next := next σ; files := files σ |}).

Definition load (p : oid * slot) : M (option value) :=
  fun σ => Ok (heap σ !! p, σ).

Definition store (p : oid * slot) (v : value) : M unit :=
  fun σ => Ok (tt, {| env := env σ; heap := <[p := v]> (heap σ);
                      scope := scope σ; next := next σ; files := files σ |}).

Definition alloc : M value :=
  fun σ => Ok (VObj (scope σ ++ [next σ]),
               {| env := env σ; heap := heap σ;
                  scope := scope σ; next := S (next σ); files := files σ |}).

Definition emit (op : fsop) : M unit :=
  fun σ => Ok (tt, {| env := env σ; heap := heap σ;
                      scope := scope σ; next := next σ; files := files σ ++ [op] |}).

(** Where the numbering stands, and setting it: on entering round [i] of the
    loop numbered [k] in scope [p], and on leaving that loop. *)
Definition position : M (list nat * nat) :=
  fun σ => Ok ((scope σ, next σ), σ).

Definition renumber (p : list nat) (k : nat) : M unit :=
  fun σ => Ok (tt, {| env := env σ; heap := heap σ;
                      scope := p; next := k; files := files σ |}).

Definition enter (p : list nat) (k i : nat) : M unit := renumber (p ++ [k; i]) 0.

Definition leave (p : list nat) (k : nat) : M unit := renumber p (S k).

(** *** Values *)

Definition oid_of (v : value) : option oid :=
  match v with
  | VObj l => Some (OAlloc l)
  | VGlobal g => Some (OGlobal g)
  | _ => None
  end.

(** [v.a]: what the notebook assigned there if it did, else the library's. *)
Definition getattr (v : value) (a : string) : M value :=
  match oid_of v with
  | Some o =>
      do r <- load (o, SlotAttr a);
      match r with
      | Some x => ret x
      | None =>
          ret (match v with VGlobal g => VGlobal (g ++ [a]) | _ => VAttrOf v a end)
      end
  | None => ret (VAttrOf v a)
  end.

(** Python's index into a sequence of known length: negative indices count
    from the end, an index out of range raises. *)
Definition seq_index (vs : list value) (n : Z) : M value :=
  let len := Z.of_nat (length vs) in
  let i := if (n <? 0)%Z then (len + n)%Z else n in
  if ((0 <=? i) && (i <? len))%Z then
    match vs !! Z.to_nat i with
    | Some x => ret x
    | None => raise IndexError
    end
  else raise IndexError.

Definition getitem (v i : value) : M value :=
  match v, i with
  | VTuple vs, VInt n | VList vs, VInt n => seq_index vs n
  | _, _ =>
      match oid_of v, i with
      | Some o, VStr k =>
          do r <- load (o, SlotItem k);
          match r with
          | Some x => ret x
          | None => ret (VItemOf v i)
          end
      | _, _ => ret (VItemOf v i)
      end
  end.

(** The operators as far as the notebooks need their result: [/] joins a path
    and a name, [+] concatenates, integers add, subtract and multiply; every
    other result (floats, library arrays) is not tracked. *)
Definition binop_value (op : binop) (l r : value) : value :=
  match op, l, r with
  | Div, VPath p, VStr s => VPath (p ++ [s])
  | Add, VInt a, VInt b => VInt (a + b)
  | Sub, VInt a, VInt b => VInt (a - b)
  | Mul, VInt a, VInt b => VInt (a * b)
  | Add, VTuple a, VTuple b => VTuple (a ++ b)
  | Add, VList a, VList b => VList (a ++ b)
  | Add, VStr a, VStr b => VStr (a +:+ b)
  | _, _, _ => VUnknown
  end.

Fixpoint fstring_value (vs : list value) : value :=
  match vs with
  | [] => VStr EmptyString
  | VStr s :: vs' =>
      match fstring_value vs' with
      | VStr r => VStr (s +:+ r)
      | _ => VUnknown
      end
  | _ => VUnknown
  end.

(** The elements a [for] loop or [zip] draws from a value. *)
Definition iter_values (w : world) (v : value) : list value :=
  match v with
  | VList vs | VTuple vs => vs
  | _ => (fun i => VItemOf v (VInt (Z.of_nat i))) <$> seq 0 (unknown_len w)
  end.

(** [zip]: rows up to the shortest argument. *)
Definition zip_values (w : world) (args : list value) : list value :=
  let cols := iter_values w <$> args in
  match cols with
  | [] => []
  | c :: cs =>
      let n := foldr (fun c' m => Nat.min (length c') m) (length c) cs in
      (fun i => VTuple (omap (fun col => col !! i) cols)) <$> seq 0 n
  end.

(** [range(n)] for a known [n]. *)
Definition range_values (n : Z) : list value :=
  (fun i => VInt (Z.of_nat i)) <$> seq 0 (Z.to_nat n).

(** *** Calls *)

(** The callables whose effect the session knows: three builtins and the
    file functions of the standard library and matplotlib. *)
Inductive api :=
| ApiPrint | ApiZip | ApiRange
| ApiMkdtemp | ApiPath | ApiImsave | ApiRemove | ApiRmdir.

Definition apis : list (list string * api) :=
  [ (["builtins"; "print"], ApiPrint);
    (["builtins"; "zip"], ApiZip);
    (["builtins"; "range"], ApiRange);
    (["tempfile"; "mkdtemp"], ApiMkdtemp);
    (["pathlib"; "Path"], ApiPath);
    (["matplotlib"; "pyplot"; "imsave"], ApiImsave);
    (["os"; "remove"], ApiRemove);
    (["os"; "rmdir"], ApiRmdir) ].

Definition api_of (f : value) : option api :=
  match f with
  | VGlobal g => snd <$> List.find (fun e => bool_decide (fst e = g)) apis
  | _ => None
  end.

(** A call into a library whose code is not in the slice (kikuchipy's
    signal, detector, imaging, data and drawing modules, HyperSpy, orix,
    diffsims, matplotlib's plotting, NumPy, PyVista).  What it does is the
    world's to say: it raises, or it sets the attributes and items the world
    names, asks the file system for what the world names, and hands back a
    new object. *)
Definition library_call (w : world) (f : value) (args : list value)
    (kwargs : list (string * value)) : M value :=
  let eff := library w f args kwargs in
  match throws eff with
  | Some e => raise e
  | None =>
      mfor (fun pv => store (fst pv) (snd pv)) (sets eff) ;;
      mfor emit (asks eff) ;;
      alloc
  end.

Definition call (w : world) (f : value) (args : list value)
    (kwargs : list (string * value)) : M value :=
  match api_of f with
  | Some ApiPrint => ret VNone
  | Some ApiZip => ret (VList (zip_values w args))
  | Some ApiRange =>
      match args with
      | [VInt n] => ret (VList (range_values n))
      | _ => ret VUnknown
      end
  | Some ApiMkdtemp => emit (FsMkdtemp (tmpdir w)) ;; ret (VPath (tmpdir w))
  | Some ApiPath =>
      match args with
      | [VPath p] => ret (VPath p)
      | _ => raise Unsupported
      end
  | Some ApiImsave =>
      match args with
      | VPath p :: _ => emit (FsWrite p) ;; ret VNone
      | _ => raise Unsupported
      end
  | Some ApiRemove =>
      match args with
      | [VPath p] => emit (FsRemove p) ;; ret VNone
      | _ => raise Unsupported
      end
  | Some ApiRmdir =>
      match args with
      | [VPath p] => emit (FsRmdir p) ;; ret VNone
      | _ => raise Unsupported
      end
  | None => library_call w f args kwargs
  end.

(** *** Expressions *)

Fixpoint eval (w : world) (e : expr) {struct e} : M value :=
  match e with
  | EName x => lookup_name x
  | ENone => ret VNone
  | EBool b => ret (VBool b)
  | EInt n => ret (VInt n)
  | EFloat lit => ret (VFloat lit)
  | EStr s => ret (VStr s)
  | EFString parts => do vs <- mmap (eval w) parts; ret (fstring_value vs)
  | EEllipsis => ret VEllipsis
  | ETuple es => do vs <- mmap (eval w) es; ret (VTuple vs)
  | EList es => do vs <- mmap (eval w) es; ret (VList vs)
  | EDict kvs =>
      do vs <- mmap (fun kv => let '(k, v) := kv in
                               do k' <- eval w k; do v' <- eval w v; ret (k', v')) kvs;
      ret (VDict vs)
  | EAttr e' a => do v <- eval w e'; getattr v a
  | ESubscript e' i => do v <- eval w e'; do k <- eval w i; getitem v k
  | ESlice lo hi step =>
      do lo' <- moption (eval w) lo;
      do hi' <- moption (eval w) hi;
      do step' <- moption (eval w) step;
      ret (VSlice lo' hi' step')
  | ECall f args kwargs =>
      do vf <- eval w f;
      do vs <- mmap (eval w) args;
      do kvs <- mmap (fun kv => let '(k, v) := kv in
                                do v' <- eval w v; ret (k, v')) kwargs;
      call w vf vs kvs
  | EBinOp op l r => do a <- eval w l; do b <- eval w r; ret (binop_value op a b)
  | EStarred e' => eval w e'
  | ELambda _ _ | EComp _ _ _ => raise Unsupported
  end.

(** *** Statements *)

(** The values a tuple target of [k] names takes apart. *)
Definition unpack (k : nat) (v : value) : M (list value) :=
  match v with
  | VTuple vs | VList vs =>
      if (length vs =? k)%nat then ret vs else raise ValueError
  | _ => ret ((fun i => VItemOf v (VInt (Z.of_nat i))) <$> seq 0 k)
  end.

Definition mfor2 {A B} (f : A -> B -> M unit) : list A -> list B -> M unit :=
  fix go l r :=
    match l, r with
    | a :: l', b :: r' => f a b ;; go l' r'
    | _, _ => ret tt
    end.

Fixpoint assign (w : world) (t : expr) (v : value) {struct t} : M unit :=
  match t with
  | EName x => bind_name x v
  | ETuple ts | EList ts => do vs <- unpack (length ts) v; mfor2 (assign w) ts vs
  | EAttr e a =>
      do o <- eval w e;
      match oid_of o with
      | Some o' => store (o', SlotAttr a) v
      | None => raise Unsupported
      end
  | ESubscript e i =>
      do o <- eval w e;
      do k <- eval w i;
      match oid_of o, k with
      | Some o', VStr k' => store (o', SlotItem k') v
      | _, _ => raise Unsupported
      end
  | _ => raise Unsupported
  end.

(** [import a.b as c] binds [c] to the module [a.b]; [import a.b] binds [a]
    to the package [a].  An import of a module that is not installed raises
    instead. *)
Definition import_binding (module : string) (asname : option string)
  : string * value :=
  match asname with
  | Some x => (x, VGlobal (split_on "." module))
  | None =>
      match split_on "." module with
      | top :: _ => (top, VGlobal [top])
      | [] => (module, VGlobal [module])
      end
  end.

Fixpoint exec (w : world) (s : stmt) {struct s} : M unit :=
  match s with
  | SMagic _ => ret tt
  | SImport m asname =>
      if installed w m then let '(x, v) := import_binding m asname in bind_name x v
      else raise (ModuleNotFoundError m)
  | SFromImport m names =>
      if installed w m then
        mfor (fun x => bind_name x (VGlobal (split_on "." m ++ [x]))) names
      else raise (ModuleNotFoundError m)
  | SAssign t e => do v <- eval w e; assign w t v
  | SExpr e => eval w e ;; ret tt
  | SFor t it body =>
      do v <- eval w it;
      do pk <- position;
      (mfor (fun ix => enter (fst pk) (snd pk) (fst ix) ;;
                       assign w t (snd ix) ;;
                       mfor (exec w) body)
            (imap pair (iter_values w v)) ;;
       leave (fst pk) (snd pk))
  | SWhile _ _ | SIf _ _ _ | STry _ _ _ | SRaise _ | SAssert _
  | SWith _ _ | SDef _ _ _ | SClass _ _ => raise Unsupported
  end.

Definition exec_cell (w : world) (c : list stmt) : M unit := mfor (exec w) c.

Definition exec_cells (w : world) (cs : list (list stmt)) : M unit :=
  mfor (exec_cell w) cs.

(** The session after every code cell of the notebook has run. *)
Definition run (w : world) (nb : Nb.notebook) : res state :=
  match exec_cells w (Nb.code_cells nb) init with
  | Ok (_, σ) => Ok σ
  | Err e => Err e
  end.

(** The session a computation leaves, and the value it gives. *)
Definition after {A} (m : M A) (σ : state) : state :=
  match m σ with Ok (_, σ') => σ' | Err _ => σ end.

Definition value_of {A} (m : M A) (σ : state) : option A :=
  match m σ with Ok (a, _) => Some a | Err _ => None end.

(** The sessions in which code cell [i] of a notebook starts and ends, when
    the cells before it and the cell itself run without raising. *)
Definition cell_run (w : world) (nb : Nb.notebook) (i : nat)
  : option (state * state) :=
  c ← Nb.code_cells nb !! i;
  match exec_cells w (take i (Nb.code_cells nb)) init with
  | Ok (_, σ) =>
      match exec_cell w c σ with
      | Ok (_, σ') => Some (σ, σ')
      | Err _ => None
      end
  | Err _ => None
  end.

(** A computation that leaves the assigned object state as it was. *)
Definition keeps_heap {A} (m : M A) : Prop :=
  forall σ a σ', m σ = Ok (a, σ') -> heap σ' = heap σ.

(** A computation that leaves some view [proj] of the session as it was. *)
Definition keeps {A B} (proj : state -> B) (m : M A) : Prop :=
  forall σ a σ', m σ = Ok (a, σ') -> proj σ' = proj σ.

(** What the names [xs] are bound to in a session. *)
Definition bound_to (σ : state) (xs : list string) : list (option value) :=
  (fun x => env σ !! x) <$> xs.

(** The session after round [j] of a plotting loop over the elements of the
    untracked iterable [it], when the loop started in [σ]: the loop variable
    [idx] and the reversed index [hs_idx] are bound from element [j], and the
    round numbered two objects. *)
Definition plotting_loop_state (σ : state) (it : value) (j : nat) : state :=
  let x := VItemOf it (VInt (Z.of_nat j)) in
  {| env := <["hs_idx" := VItemOf x (VSlice None None (Some (VInt (-1))))]>
              (<["idx" := x]> (env σ));
     heap := heap σ;
     scope := scope σ ++ [next σ; j];
     next := 2;
     files := files σ |}.

(** The world with temporary directory [d] and [n] elements to a library
    iterable in which every module is installed and every library call is
    quiet: it succeeds, sets nothing and asks nothing of the file system. *)
Definition calm_world (d : list string) (n : nat) : world :=
  {| tmpdir := d; unknown_len := n;
     installed := fun _ => true; library := fun _ _ _ => quiet |}.

(** The worlds that answer as a calm one does. *)
Definition calm (w : world) : Prop :=
  (forall m, installed w m = true) /\ (forall f args kwargs, library w f args kwargs = quiet).

(** The worlds whose library calls set no attribute or item. *)
Definition read_only (w : world) : Prop :=
  forall f args kwargs, sets (library w f args kwargs) = [].

(** Two worlds that answer alike. *)
Definition alike (w w' : world) : Prop :=
  tmpdir w = tmpdir w' /\ unknown_len w = unknown_len w'
  /\ (forall m, installed w m = installed w' m)
  /\ (forall f args kwargs, library w f args kwargs = library w' f args kwargs).

(** A world to run in: [mkdtemp] picks [/tmp/tmpk3x9], a library iterable
    yields nine elements (the indices of a 3 x 3 grid), every module is
    installed and every library call is quiet. *)
Definition example_world : world := calm_world ["tmp"; "tmpk3x9"] 9.

(** Python's [dict.update] on a module-level dictionary such as
    [plt.rcParams]: a call [d.update({k: v, ...})] sets the items with a
    string key. *)
Definition update_effect (f : value) (args : list value) : effect :=
  match f, args with
  | VGlobal g, [VDict kvs] =>
      if bool_decide (last g = Some "update") then
        {| sets := omap (fun kv => match kv with
                                   | (VStr k, v) => Some (OGlobal (removelast g), SlotItem k, v)
                                   | _ => None
                                   end) kvs;
           asks := []; throws := None |}
      else quiet
  | _, _ => quiet
  end.

(** The example world with a library that implements [update] and is quiet
    otherwise. *)
Definition updating_world : world :=
  {| tmpdir := ["tmp"; "tmpk3x9"]; unknown_len := 9;
     installed := fun _ => true;
     library := fun f args _ => update_effect f args |}.

(** The example world without PyVista. *)
Definition world_without_pyvista : world :=
  {| tmpdir := ["tmp"; "tmpk3x9"]; unknown_len := 9;
     installed := fun m => negb (String.eqb m "pyvista");
     library := fun _ _ _ => quiet |}.

(** A keyword argument [allow_download=True]. *)
Definition allows_download (kwargs : list (string * value)) : bool :=
  existsb (fun kv => match kv with
                     | (k, VBool true) => String.eqb k "allow_download"
                     | _ => false
                     end) kwargs.

(** The example world with an empty download cache: a library call with
    [allow_download=True] fetches its data set and writes it to [cache]. *)
Definition downloading_world (cache : list string) : world :=
  {| tmpdir := ["tmp"; "tmpk3x9"]; unknown_len := 9;
     installed := fun _ => true;
     library := fun _ _ kwargs =>
       if allows_download kwargs
       then {| sets := []; asks := [FsWrite cache]; throws := None |}
       else quiet |}.

End Sem.

(* ===================================================================== *)
(** ** The file system *)
(* ===================================================================== *)

Module Fs.
Import Sem.

Inductive node := File | Dir.

#[global] Instance node_eq_dec : EqDecision node.
Proof. solve_decision. Defined.

(** A file system: the paths that exist, each a file or a directory.  A path
    is its components from the root. *)
Abbreviation tree := (gmap (list string) node).

Definition parent (p : list string) : list string := removelast p.

Definition child_of (d p : list string) : Prop := p ≠ [] ∧ parent p = d.

#[global] Instance child_of_dec d p : Decision (child_of d p).
Proof. unfold child_of. apply _. Defined.

Definition empty_dir (d : list string) (t : tree) : Prop :=
  map_Forall (fun p _ => ¬ child_of d p) t.

(** Every path but the root lies in a directory that exists. *)
Definition wf (t : tree) : Prop :=
  map_Forall (fun p _ => p = [] ∨ t !! parent p = Some Dir) t.

(** One request.  [mkdtemp] makes a directory that did not exist, inside an
    existing one; [imsave] creates or overwrites a file in an existing
    directory; [os.remove] deletes a file and raises on anything else;
    [os.rmdir] deletes an empty directory and raises on anything else.  A
    request that raises gives [None]. *)
Definition step (op : fsop) (t : tree) : option tree :=
  match op with
  | FsMkdtemp d =>
      if decide (d ≠ [] ∧ t !! d = None ∧ t !! parent d = Some Dir)
      then Some (<[d := Dir]> t) else None
  | FsWrite f =>
      if decide (f ≠ [] ∧ t !! parent f = Some Dir ∧ t !! f ≠ Some Dir)
      then Some (<[f := File]> t) else None
  | FsRemove f =>
      if decide (t !! f = Some File) then Some (delete f t) else None
  | FsRmdir d =>
      if decide (t !! d = Some Dir ∧ empty_dir d t) then Some (delete d t) else None
  end.

Fixpoint replay (ops : list fsop) (t : tree) : option tree :=
  match ops with
  | [] => Some t
  | op :: ops' => step op t ≫= replay ops'
  end.

(** A small file system: the root and [/tmp]. *)
Definition example_tree : tree := {[ [] := Dir; ["tmp"] := Dir ]}.

(** The same with a directory for downloaded data, [/cache]. *)
Definition tree_with_cache : tree :=
  {[ [] := Dir; ["tmp"] := Dir; ["cache"] := Dir ]}.

End Fs.

(* ===================================================================== *)
(** ** Shapes of code *)
(* ===================================================================== *)

Module Shape.
Import Py.

(** Every expression inside [e], [e] first. *)
Fixpoint subexprs (e : expr) : list expr :=
  e ::
  match e with
  | EFString es | ETuple es | EList es => mjoin (map subexprs es)
  | EDict kvs =>
      mjoin (map (fun kv => let '(k, v) := kv in subexprs k ++ subexprs v) kvs)
  | EAttr e' _ | EStarred e' | ELambda _ e' => subexprs e'
  | ESubscript a b | EBinOp _ a b => subexprs a ++ subexprs b
  | ESlice lo hi step =>
      let sub o := match o with Some x => subexprs x | None => [] end in
      sub lo ++ sub hi ++ sub step
  | ECall f args kwargs =>
      subexprs f ++ mjoin (map subexprs args)
      ++ mjoin (map (fun kv => let '(_, v) := kv in subexprs v) kwargs)
  | EComp a b c => subexprs a ++ subexprs b ++ subexprs c
  | _ => []
  end.

(** Every statement inside [s], [s] first. *)
Fixpoint substmts (s : stmt) : list stmt :=
  s ::
  match s with
  | SFor _ _ b | SWhile _ b | SWith _ b | SDef _ _ b | SClass _ b =>
      mjoin (map substmts b)
  | SIf _ b c => mjoin (map substmts b) ++ mjoin (map substmts c)
  | STry b h f =>
      mjoin (map substmts b) ++ mjoin (map substmts h) ++ mjoin (map substmts f)
  | _ => []
  end.

(** The expressions a statement holds itself (not those of nested
    statements). *)
Definition own_exprs (s : stmt) : list expr :=
  match s with
  | SAssign t e => [t; e]
  | SExpr e | SRaise e | SAssert e => [e]
  | SFor t it _ => [t; it]
  | SWhile c _ | SIf c _ _ | SWith c _ => [c]
  | _ => []
  end.

Definition cell_stmts (c : list stmt) : list stmt := mjoin (map substmts c).

Definition cell_exprs (c : list stmt) : list expr :=
  mjoin (map subexprs (mjoin (map own_exprs (cell_stmts c)))).

Definition names (e : expr) : list string :=
  omap (fun x => match x with EName n => Some n | _ => None end) (subexprs e).

(** A statement with statements inside. *)
Definition compound (s : stmt) : bool :=
  match s with
  | SFor _ _ _ | SWhile _ _ | SIf _ _ _ | STry _ _ _ | SWith _ _
  | SDef _ _ _ | SClass _ _ => true
  | _ => false
  end.

(** A run of statements without a compound statement. *)
Definition straight_line (c : list stmt) : bool :=
  forallb (fun s => negb (compound s)) c.

(** A statement that defines a function or a class. *)
Definition definition (s : stmt) : bool :=
  match s with
  | SDef _ _ _ | SClass _ _ => true
  | _ => false
  end.

(** A statement that catches, raises or branches on a failure, or repeats
    until success. *)
Definition failure_construct (s : stmt) : bool :=
  match s with
  | STry _ _ _ | SRaise _ | SAssert _ | SIf _ _ _ | SWhile _ _ | SWith _ _ => true
  | _ => false
  end.

Definition anonymous_function (e : expr) : bool :=
  match e with
  | ELambda _ _ | EComp _ _ _ => true
  | _ => false
  end.

Definition is_import (s : stmt) : bool :=
  match s with
  | SImport _ _ | SFromImport _ _ => true
  | _ => false
  end.

(** An import of the PyEBSDIndex package (module [pyebsdindex]). *)
Definition imports_pyebsdindex (s : stmt) : bool :=
  match s with
  | SImport m _ | SFromImport m _ => contains "pyebsdindex" m
  | _ => false
  end.

(** The modules a cell imports before its first statement that is neither
    an import nor a magic. *)
Fixpoint leading_modules (c : list stmt) : list string :=
  match c with
  | SMagic _ :: c' => leading_modules c'
  | SImport m _ :: c' | SFromImport m _ :: c' => m :: leading_modules c'
  | _ => []
  end.

(** A cell with no logic of its own: it defines no function or class, has no
    failure construct, no lambda and no comprehension, and its only compound
    statements are [for] loops with a straight-line body. *)
Definition own_logic_free (c : list stmt) : bool :=
  forallb (fun s => negb (definition s) && negb (failure_construct s)) (cell_stmts c)
  && forallb (fun e => negb (anonymous_function e)) (cell_exprs c)
  && forallb (fun s => match s with
                       | SFor _ _ b => straight_line b
                       | _ => negb (compound s)
                       end) c.

(** A target that assigns into an object instead of binding a name. *)
Fixpoint stores_target (t : expr) : bool :=
  match t with
  | EName _ => false
  | ETuple ts | EList ts => existsb stores_target ts
  | _ => true
  end.

(** The statement, or one inside it, assigns an attribute or an item. *)
Fixpoint stores (s : stmt) : bool :=
  match s with
  | SAssign t _ => stores_target t
  | SFor t _ b => stores_target t || existsb stores b
  | SWhile _ b | SWith _ b | SDef _ _ b | SClass _ b => existsb stores b
  | SIf _ b c => existsb stores b || existsb stores c
  | STry b h f => existsb stores b || existsb stores h || existsb stores f
  | _ => false
  end.

(** The names a target binds. *)
Fixpoint target_names (t : expr) : list string :=
  match t with
  | EName x => [x]
  | ETuple ts | EList ts => mjoin (map target_names ts)
  | _ => []
  end.

(** The names a statement can bind: those of its import, of its assignment
    target, of its loop target and of the statements in its loop body. *)
Fixpoint stmt_binds (s : stmt) : list string :=
  match s with
  | SImport m asname => [fst (Sem.import_binding m asname)]
  | SFromImport _ names => names
  | SAssign t _ => target_names t
  | SFor t _ b => target_names t ++ mjoin (map stmt_binds b)
  | _ => []
  end.

Definition binds (c : list stmt) : list string := mjoin (map stmt_binds c).

Definition is_call (e : expr) : bool :=
  match e with ECall _ _ _ => true | _ => false end.

(** An expression without a call anywhere inside. *)
Definition call_free (e : expr) : bool :=
  forallb (fun x => negb (is_call x)) (subexprs e).

(** A cell that only shows values: expression statements without a call. *)
Definition display_only (c : list stmt) : bool :=
  forallb (fun s => match s with SExpr e => call_free e | _ => false end) c.

(** What the imports of a cell bind, statement by statement. *)
Definition imports (c : list stmt) : list (string * Sem.value) :=
  mjoin (map (fun s => match s with
                       | SImport m asname => [Sem.import_binding m asname]
                       | SFromImport m names =>
                           (fun x => (x, Sem.VGlobal (split_on "." m ++ [x]))) <$> names
                       | _ => []
                       end) c).

(** The method a call expression invokes. *)
Definition calls_method (m : string) (e : expr) : bool :=
  match e with
  | ECall (EAttr _ a) _ _ => String.eqb a m
  | _ => false
  end.

(** How often method [m] is called anywhere in a run of statements. *)
Definition method_calls (m : string) (ss : list stmt) : nat :=
  length (filter (fun e => calls_method m e = true) (cell_exprs ss)).

(** In a run of statements, every statement that is a call of [m] either is
    an expression statement (the call renders its result itself) or assigns
    the result to a name that the very next statement reads in an expression
    statement (a display, a print, a plot). *)
Fixpoint shown_at_once (m : string) (ss : list stmt) : bool :=
  match ss with
  | [] => true
  | SAssign t e :: rest =>
      (if calls_method m e then
         match t, rest with
         | EName x, SExpr e' :: _ => bool_decide (x ∈ names e')
         | _, _ => false
         end
       else true)
      && shown_at_once m rest
  | _ :: rest => shown_at_once m rest
  end.

(** How often [m] is called by a statement of the run itself: as the whole
    right-hand side of an assignment or as a whole expression statement. *)
Definition top_level_call (m : string) (s : stmt) : bool :=
  match s with
  | SAssign _ e | SExpr e => calls_method m e
  | _ => false
  end.

Definition top_level_calls (m : string) (ss : list stmt) : nat :=
  length (filter (fun s => top_level_call m s = true) ss).

(** Every call of [m] in the run is a statement of the run itself, and its
    result is shown at once. *)
Definition called_and_shown (m : string) (ss : list stmt) : bool :=
  (top_level_calls m ss =? method_calls m ss)%nat && shown_at_once m ss.

End Shape.

(* ===================================================================== *)
(** ** The slice *)
(* ===================================================================== *)

Module Slice.

(** The files of the slice, by their path from the repository root. *)
Definition files : list string :=
  [ "readthedocs.yaml";
    "doc/tutorials/virtual_backscatter_electron_imaging.ipynb";
    "doc/tutorials/hough_indexing.ipynb" ].

(** The proper prefixes of a path: the directories it lies in. *)
Definition dirs_of (p : list string) : list (list string) :=
  (fun n => take n p) <$> seq 1 (length p - 1).

(** The directories the slice's files lie in. *)
Definition dirs : list (list string) :=
  mjoin ((fun f => dirs_of (split_on "/" f)) <$> files).

(** All statements of a notebook's code cells, in the order they run. *)
Definition statements (nb : Nb.notebook) : list Py.stmt :=
  mjoin (Nb.code_cells nb).

(** The operations the spec names, each with the library method that
    performs it in the notebooks. *)
Definition operations : list (string * string) :=
  [ ("rectangular-ROI virtual imaging", "get_virtual_bse_intensity");
    ("detector-grid tiling into RGB channels", "get_rgb_image");
    ("projection-center optimization", "hough_indexing_optimize_pc");
    ("Hough-transform indexing", "hough_indexing");
    ("spherical master-pattern rendering", "plot_spherical") ].

(** The notebooks with their names. *)
Definition named_notebooks : list (string * Nb.notebook) :=
  [ ("virtual_backscatter_electron_imaging", Nb.virtual_backscatter_electron_imaging);
    ("hough_indexing", Nb.hough_indexing);
    ("visualizing_patterns", Nb.visualizing_patterns) ].

(** What the imports of a notebook bind. *)
Definition imported (nb : Nb.notebook) : list (string * Sem.value) :=
  mjoin (map Shape.imports (Nb.code_cells nb)).

(** The code cells for which [p] holds: notebook name and position among the
    notebook's code cells, counted from 0. *)
Definition cells_where (p : list Py.stmt -> bool) : list (string * nat) :=
  mjoin ((fun nn => (fun ic => (fst nn, fst ic)) <$>
                    filter (fun ic => p (snd ic) = true)
                           (imap pair (Nb.code_cells (snd nn))))
         <$> named_notebooks).

End Slice.

(* ===================================================================== *)
(** ** The build configuration: what it declares *)
(* ===================================================================== *)

Section Configuration.
Import Yaml.

Example split_version : split_on "." "3.10.9" = ["3"; "10"; "9"].
Proof. reflexivity. Qed.

Example tokenize_entry :
  tokenize ("    python: " +:+ q "3.10") = Some (4, IKeyVal "python" (YStr "3.10")).
Proof. reflexivity. Qed.

Example tokenize_sequence_of_mappings :
  tokenize "    - method: pip" = Some (4, ISeqKeyVal "method" (YStr "pip")).
Proof. reflexivity. Qed.

Example load_nested :
  load ["a:"; "  b: 1"; "  # not c"; "  d:"; "    - x"; "    - y"; "e: z"]
  = Some (YMap [ ("a", YMap [("b", YInt 1); ("d", YSeq [YStr "x"; YStr "y"])]);
                 ("e", YStr "z") ]).
Proof. reflexivity. Qed.

(** The loader reads the file into the document given above. *)
Lemma load_readthedocs : load readthedocs_lines = Some readthedocs.
Proof. vm_compute. reflexivity. Qed.

(** A comment line is no data line: what is commented out is not loaded. *)
Lemma comments_carry_no_data lines l :
  is_comment l = true → l ∉ data_lines lines.
Proof.
  intros Hc Hin. unfold data_lines in Hin.
  apply list_elem_of_filter in Hin as [Hdata _].
  rewrite Hc, orb_true_r in Hdata. discriminate.
Qed.

(** C1, as stated, fails: the configuration names [doc/conf.py], and no file
    of the slice has that path. *)
Lemma sphinx_configuration_file_not_in_slice :
  ¬ ∃ p, (load readthedocs_lines ≫= sphinx_configuration) = Some p
         ∧ p = "doc/conf.py" ∧ p ∈ Slice.files.
Proof.
  intros (p & _ & -> & Hin).
  revert Hin. apply (bool_decide_unpack _). vm_compute. exact I.
Qed.

(** C1, amended: the configuration declares the Sphinx configuration path
    [doc/conf.py], a relative path naming the file [conf.py] in the directory
    [doc], which is a directory of the slice (the tutorials lie below it);
    the file [doc/conf.py] itself is not among the slice's files. *)
Theorem sphinx_configuration_declared :
  (load readthedocs_lines ≫= sphinx_configuration) = Some "doc/conf.py"
  ∧ split_on "/" "doc/conf.py" = ["doc"; "conf.py"]
  ∧ ["doc"] ∈ Slice.dirs
  ∧ "doc/conf.py" ∉ Slice.files.
Proof.
  split; [by vm_compute|]. split; [by vm_compute|].
  split; apply (bool_decide_unpack _); by vm_compute.
Qed.

(** C4: the installation step has one entry, which installs the project
    itself ([pip] on path [.]) with the extra dependency groups [doc] and
    [viz] and no others. *)
Theorem install_project_with_doc_and_viz :
  (load readthedocs_lines ≫= python_install)
  = Some [ {| method := Some "pip"; path := Some ".";
              extra_requirements := ["doc"; "viz"] |} ]
  ∧ Forall (fun i => length (extra_requirements i) = 2
                     ∧ NoDup (extra_requirements i)
                     ∧ ∀ g, g ∈ extra_requirements i ↔ g = "doc" ∨ g = "viz")
           (default [] (load readthedocs_lines ≫= python_install)).
Proof.
  split; [by vm_compute|].
  replace (default [] (load readthedocs_lines ≫= python_install))
    with [ {| method := Some "pip"; path := Some ".";
              extra_requirements := ["doc"; "viz"] |} ] by (by vm_compute).
  constructor; [|constructor]. cbn [extra_requirements].
  split; [done|]. split.
  - apply (bool_decide_unpack _). by vm_compute.
  - intros g. rewrite !elem_of_cons, elem_of_nil. tauto.
Qed.

(** C5: the requested formats are [htmlzip] alone; [pdf] and [epub] are not
    requested, and the line that follows the [htmlzip] entry is a comment
    which, without its [#], is the sequence entry [pdf]. *)
Theorem formats_htmlzip_only :
  (load readthedocs_lines ≫= formats) = Some ["htmlzip"]
  ∧ ("pdf" ∉ default [] (load readthedocs_lines ≫= formats))
  ∧ ("epub" ∉ default [] (load readthedocs_lines ≫= formats))
  ∧ ∃ i l, readthedocs_lines !! i = Some "  - htmlzip"
           ∧ readthedocs_lines !! S i = Some l
           ∧ is_comment l = true
           ∧ (l ∉ data_lines readthedocs_lines)
           ∧ (uncomment l ≫= tokenize) = Some (2, ISeqVal (YStr "pdf")).
Proof.
  split; [by vm_compute|].
  split; [apply (bool_decide_unpack _); by vm_compute|].
  split; [apply (bool_decide_unpack _); by vm_compute|].
  exists 29, "#  - pdf". split; [by vm_compute|]. split; [by vm_compute|].
  split; [by vm_compute|]. split; [by apply comments_carry_no_data|by vm_compute].
Qed.

(** C6: the apt packages are exactly imagemagick, libgl1-mesa-dev and xvfb,
    each listed once; the comment above the list says what they are for
    (rendering 3D plots on the build server). *)
Theorem apt_packages_for_rendering :
  (load readthedocs_lines ≫= build_apt_packages)
  = Some ["imagemagick"; "libgl1-mesa-dev"; "xvfb"]
  ∧ NoDup (default [] (load readthedocs_lines ≫= build_apt_packages))
  ∧ (list_to_set (default [] (load readthedocs_lines ≫= build_apt_packages))
       : gset string)
    = {[ "imagemagick"; "libgl1-mesa-dev"; "xvfb" ]}
  ∧ ∃ i l, readthedocs_lines !! (i + 2) = Some "  apt_packages:"
           ∧ readthedocs_lines !! i = Some l
           ∧ is_comment l = true
           ∧ contains "needed by PyVista/panel to render 3D" l = true.
Proof.
  split; [by vm_compute|].
  split; [apply (bool_decide_unpack _); by vm_compute|].
  split.
  - replace (default [] (load readthedocs_lines ≫= build_apt_packages))
      with ["imagemagick"; "libgl1-mesa-dev"; "xvfb"] by (by vm_compute).
    cbn [list_to_set foldr]. set_solver.
  - exists 18. eexists. repeat split; by vm_compute.
Qed.

(** C7: one OS image, ubuntu-22.04, and tool versions for two ecosystems,
    Python 3.10 and Node.js 19. *)
Theorem build_os_and_tools :
  (load readthedocs_lines ≫= build_os) = Some "ubuntu-22.04"
  ∧ (load readthedocs_lines ≫= build_tools)
    = Some [("python", "3.10"); ("nodejs", "19")]
  ∧ length (default [] (load readthedocs_lines ≫= build_tools)) = 2.
Proof. repeat split; by vm_compute. Qed.

(** C10: the Python the build installs, 3.10, is the major.minor of the
    kernel version recorded in every notebook, 3.10.9. *)
Theorem python_version_matches_kernels :
  ∃ v, (load readthedocs_lines ≫= tool_version "python") = Some v
       ∧ v = "3.10"
       ∧ Forall (fun nb => Nb.language nb = "python"
                           ∧ Nb.language_version nb = "3.10.9"
                           ∧ take 2 (split_on "." (Nb.language_version nb))
                             = split_on "." v)
                Nb.notebooks.
Proof.
  exists "3.10". split; [by vm_compute|]. split; [done|].
  repeat constructor.
Qed.

End Configuration.

(* ===================================================================== *)
(** ** The notebooks: shape of the code *)
(* ===================================================================== *)

Section Notebooks.
Import Py Nb Shape.

Lemma forallb_Forall {A} (f : A -> bool) (l : list A) :
  forallb f l = true -> Forall (fun x => f x = true) l.
Proof. intros H. apply Forall_forall. intros x Hx. eapply forallb_forall; [done|]. by apply list_elem_of_In. Qed.

Lemma forallb_Forall2 {A B} (f : A -> B -> bool) (g : A -> list B) (l : list A) :
  forallb (fun a => forallb (f a) (g a)) l = true ->
  Forall (fun a => Forall (fun x => f a x = true) (g a)) l.
Proof.
  intros H. apply forallb_Forall in H.
  eapply Forall_impl; [done|]. intros a Ha. by apply forallb_Forall.
Qed.

(** C8, as stated, fails: not every code cell is a run of single calls each
    followed by a display.  Code cell 11 of the virtual imaging notebook
    holds a [for] loop over grid indices whose body has three statements: an
    index reversal of the notebook's own and two plotting calls. *)
Lemma plotting_loop_is_not_a_single_call :
  ¬ Forall (fun nb => Forall (fun c => straight_line c = true) (code_cells nb))
           notebooks.
Proof.
  intros H. apply Forall_inv in H.
  pose proof (proj1 (Forall_lookup _ _) H 11 _ eq_refl) as H11.
  by vm_compute in H11.
Qed.

(** C8, amended: no code cell defines a function or a class, uses a lambda
    or a comprehension, or has a [while], [if], [try] or [with]; the only
    compound statements are [for] loops, in four cells (code cells 11 and 15
    of the virtual imaging notebook, 20 and 23 of the Hough indexing
    notebook), each with a straight-line body; and each operation the spec
    names is performed by calls of one library method, every such call being
    a statement of a cell itself whose result is displayed by the statement
    that follows (or which is itself a rendering call). *)
Theorem operations_are_library_calls :
  Forall (fun nb => Forall (fun c => own_logic_free c = true) (code_cells nb))
         notebooks
  ∧ Slice.cells_where (fun c => negb (straight_line c))
    = [ ("virtual_backscatter_electron_imaging", 11);
        ("virtual_backscatter_electron_imaging", 15);
        ("hough_indexing", 20);
        ("hough_indexing", 23) ]
  ∧ (fun op => (fun nb => method_calls (snd op) (Slice.statements nb)) <$> notebooks)
      <$> Slice.operations
    = [ [1; 0; 0]; [1; 1; 1]; [0; 1; 0]; [0; 1; 0]; [0; 0; 1] ]
  ∧ Forall (fun op =>
              Forall (fun nb => called_and_shown (snd op) (Slice.statements nb) = true)
                     notebooks)
           Slice.operations.
Proof.
  split; [|split; [by vm_compute|split; [by vm_compute|]]].
  - apply (forallb_Forall2 (fun _ => own_logic_free)). by vm_compute.
  - apply (forallb_Forall2 (fun op nb => called_and_shown (snd op) (Slice.statements nb))
                           (fun _ => notebooks)).
    by vm_compute.
Qed.

End Notebooks.

(* ===================================================================== *)
(** ** Sessions: what a cell does to objects *)
(* ===================================================================== *)

Section Sessions.
Import Py Nb Sem.

Example path_join :
  value_of (eval example_world (EBinOp Div (EName "temp_dir") (EStr "vbse1.png")))
           {| env := {[ "temp_dir" := VPath ["tmp"; "d"] ]}; heap := ∅;
              scope := []; next := 0; files := [] |}
  = Some (VPath ["tmp"; "d"; "vbse1.png"]).
Proof. by vm_compute. Qed.

Example unbound_name :
  eval example_world (EName "roi") init = Err (NameError "roi").
Proof. by vm_compute. Qed.

Example attribute_assignment_is_read_back :
  value_of (bind_name "det" (VObj [7])
            ;; exec example_world (SAssign (EAttr (EName "det") "pc") (EInt 1))
            ;; eval example_world (EAttr (EName "det") "pc")) init
  = Some (VInt 1).
Proof. by vm_compute. Qed.

Example rmdir_needs_empty_directory :
  Fs.replay [FsMkdtemp ["tmp"; "d"]; FsWrite ["tmp"; "d"; "f"]; FsRmdir ["tmp"; "d"]]
            Fs.example_tree = None.
Proof. by vm_compute. Qed.

Lemma keeps_heap_ret {A} (a : A) : keeps_heap (ret a).
Proof. intros σ b σ' [= _ <-]. done. Qed.

Lemma keeps_heap_raise {A} e : keeps_heap (raise (A := A) e).
Proof. by intros σ b σ' [=]. Qed.

Lemma keeps_heap_bind {A B} (m : M A) (k : A → M B) :
  keeps_heap m → (∀ a, keeps_heap (k a)) → keeps_heap (bind m k).
Proof.
  intros Hm Hk σ b σ'. unfold bind.
  destruct (m σ) as [[a σ1]|] eqn:E; [|done].
  intros H. rewrite (Hk _ _ _ _ H). eauto.
Qed.

Lemma keeps_heap_lookup_name x : keeps_heap (lookup_name x).
Proof.
  intros σ a σ'. unfold lookup_name.
  destruct (env σ !! x); [by intros [= _ <-]|].
  case_bool_decide; [by intros [= _ <-]|done].
Qed.

Lemma keeps_heap_bind_name x v : keeps_heap (bind_name x v).
Proof. by intros σ a σ' [= _ <-]. Qed.

Lemma keeps_heap_load p : keeps_heap (load p).
Proof. by intros σ a σ' [= _ <-]. Qed.

Lemma keeps_heap_alloc : keeps_heap alloc.
Proof. by intros σ a σ' [= _ <-]. Qed.

Lemma keeps_heap_emit op : keeps_heap (emit op).
Proof. by intros σ a σ' [= _ <-]. Qed.

Lemma keeps_heap_position : keeps_heap position.
Proof. by intros σ a σ' [= _ <-]. Qed.

Lemma keeps_heap_renumber p k : keeps_heap (renumber p k).
Proof. by intros σ a σ' [= _ <-]. Qed.

Create HintDb keeps_heap discriminated.
Hint Resolve keeps_heap_ret keeps_heap_raise keeps_heap_lookup_name keeps_heap_bind_name
  keeps_heap_load keeps_heap_alloc keeps_heap_emit keeps_heap_position keeps_heap_renumber : keeps_heap.
Hint Extern 2 (keeps_heap (bind _ _)) => apply keeps_heap_bind; [|intros ?] : keeps_heap.

Lemma keeps_heap_mmap {A B} (f : A → M B) (P : A → Prop) l :
  (∀ a, P a → keeps_heap (f a)) → list_all A P l → keeps_heap (mmap f l).
Proof.
  intros Hf. induction 1; cbn [mmap]; eauto 6 with keeps_heap.
Qed.

Lemma keeps_heap_mmapT {A B} (f : A → M B) (P : A → Type) l :
  (∀ a, P a → keeps_heap (f a)) → list_all A P l → keeps_heap (mmap f l).
Proof.
  intros Hf. induction 1; cbn [mmap]; eauto 6 with keeps_heap.
Qed.

Lemma keeps_heap_moption {A B} (f : A → M B) (P : A → Prop) o :
  (∀ a, P a → keeps_heap (f a)) → option_all A P o → keeps_heap (moption f o).
Proof. intros Hf. destruct 1; cbn; eauto with keeps_heap. Qed.

Lemma keeps_heap_mfor {A} (f : A → M unit) l :
  (∀ a, a ∈ l → keeps_heap (f a)) → keeps_heap (mfor f l).
Proof.
  induction l as [|a l IH]; intros Hf; cbn [mfor]; [auto with keeps_heap|].
  apply keeps_heap_bind; [apply Hf; left|intros _; apply IH].
  intros b Hb. apply Hf. by right.
Qed.

Lemma keeps_heap_getattr v a : keeps_heap (getattr v a).
Proof.
  unfold getattr. destruct (oid_of v); [|auto with keeps_heap].
  apply keeps_heap_bind; [auto with keeps_heap|]. intros [x|]; auto with keeps_heap.
Qed.

Lemma keeps_heap_seq_index vs n : keeps_heap (seq_index vs n).
Proof.
  unfold seq_index. cbv zeta.
  destruct (_ && _); [|auto with keeps_heap].
  destruct (_ !! _); auto with keeps_heap.
Qed.

Lemma keeps_heap_getitem v i : keeps_heap (getitem v i).
Proof.
  assert (Hgen : keeps_heap (match oid_of v, i with
                        | Some o, VStr k =>
                            do r <- load (o, SlotItem k);
                            match r with
                            | Some x => ret x
                            | None => ret (VItemOf v i)
                            end
                        | _, _ => ret (VItemOf v i)
                        end)).
  { destruct (oid_of v); [|auto with keeps_heap].
    destruct i; auto with keeps_heap.
    apply keeps_heap_bind; [auto with keeps_heap|]. intros [x|]; auto with keeps_heap. }
  destruct v; try exact Hgen; destruct i; try exact Hgen; apply keeps_heap_seq_index.
Qed.

(** A library call keeps the assigned state when the world has it set
    nothing. *)
Lemma keeps_heap_library_call w f args kwargs :
  read_only w → keeps_heap (library_call w f args kwargs).
Proof.
  intros Hro. unfold library_call. rewrite Hro.
  destruct (throws _); [auto with keeps_heap|]. cbn [mfor].
  apply keeps_heap_bind; [auto with keeps_heap|intros _].
  apply keeps_heap_bind; [|auto with keeps_heap].
  apply keeps_heap_mfor. auto with keeps_heap.
Qed.

Lemma keeps_heap_call w f args kwargs : read_only w → keeps_heap (call w f args kwargs).
Proof.
  intros Hro. unfold call.
  destruct (api_of f) as [[]|]; auto using keeps_heap_library_call with keeps_heap.
  all: repeat match goal with
         | |- keeps_heap (match ?x with _ => _ end) => destruct x
         end; eauto with keeps_heap.
Qed.

Hint Resolve keeps_heap_getattr keeps_heap_getitem keeps_heap_call : keeps_heap.

Lemma keeps_heap_eval w e : read_only w → keeps_heap (eval w e).
Proof.
  intros Hro.
  induction e; cbn [eval]; eauto 8 with keeps_heap.
  all: repeat (apply keeps_heap_bind; [|intros ?]); auto with keeps_heap.
  all: try (eapply keeps_heap_mmap; [|eassumption]; cbn beta; auto; fail).
  all: try (eapply keeps_heap_moption; [|eassumption]; cbn beta; auto; fail).
  all: (eapply keeps_heap_mmap; [|eassumption]) || (eapply keeps_heap_mmapT; [|eassumption]).
  all: intros kv Hkv; destruct Hkv; eauto with keeps_heap.
Qed.

(** Assignments to names, and to tuples of names, bind names only. *)
Lemma keeps_heap_unpack k v : keeps_heap (unpack k v).
Proof.
  unfold unpack. destruct v; auto with keeps_heap; destruct (_ =? _)%nat; auto with keeps_heap.
Qed.

Lemma keeps_heap_mfor2 {A B} (f : A → B → M unit) (P : A → Prop) l r :
  (∀ a b, P a → keeps_heap (f a b)) → list_all A P l → keeps_heap (mfor2 f l r).
Proof.
  intros Hf H. revert r. induction H; intros [|b r]; cbn [mfor2]; eauto with keeps_heap.
Qed.

Lemma keeps_heap_assign w t v :
  read_only w → Shape.stores_target t = false → keeps_heap (assign w t v).
Proof.
  intros Hro. revert v. induction t; intros v; cbn [Shape.stores_target assign]; try done;
    auto with keeps_heap; intros Hs.
  all: apply keeps_heap_bind; [apply keeps_heap_unpack|intros vs].
  all: match goal with H : list_all _ _ _ |- _ => revert vs; induction H; intros [|b r]; cbn [mfor2]; auto with keeps_heap end.
  all: cbn [existsb] in Hs; apply orb_false_elim in Hs as [Ha Hl].
  all: apply keeps_heap_bind; [by eauto|intros _; by eauto].
Qed.

Lemma existsb_false_Forall {A} (f : A → bool) l :
  existsb f l = false → ∀ a, a ∈ l → f a = false.
Proof.
  induction l as [|b l IH]; cbn [existsb]; intros H a Ha; [by apply elem_of_nil in Ha|].
  apply orb_false_elim in H as [Hb Hl].
  apply elem_of_cons in Ha as [->|Ha]; auto.
Qed.

Lemma keeps_heap_block w b :
  list_all stmt (fun s => Shape.stores s = false → keeps_heap (exec w s)) b →
  existsb Shape.stores b = false → keeps_heap (mfor (exec w) b).
Proof.
  induction 1; cbn [existsb mfor]; intros Hs; [auto with keeps_heap|].
  apply orb_false_elim in Hs as [Ha Hl].
  apply keeps_heap_bind; [by auto|intros _; by auto].
Qed.

Lemma keeps_heap_exec w s : read_only w → Shape.stores s = false → keeps_heap (exec w s).
Proof.
  intros Hro.
  induction s; cbn [Shape.stores exec]; intros Hs; auto with keeps_heap.
  - destruct (installed w _); [|auto with keeps_heap].
    destruct (import_binding _ _). auto with keeps_heap.
  - destruct (installed w _); [|auto with keeps_heap].
    apply keeps_heap_mfor. auto with keeps_heap.
  - apply keeps_heap_bind; [by apply keeps_heap_eval|intros v; by apply keeps_heap_assign].
  - apply keeps_heap_bind; [by apply keeps_heap_eval|auto with keeps_heap].
  - apply orb_false_elim in Hs as [Ht Hb].
    apply keeps_heap_bind; [by apply keeps_heap_eval|intros v].
    apply keeps_heap_bind; [apply keeps_heap_position|intros pk].
    apply keeps_heap_bind; [|intros _; apply keeps_heap_renumber].
    apply keeps_heap_mfor. intros x _.
    apply keeps_heap_bind; [apply keeps_heap_renumber|intros _].
    apply keeps_heap_bind; [by apply keeps_heap_assign|intros _].
    by apply keeps_heap_block.
Qed.

(** In a world whose library calls set nothing, a cell none of whose
    statements assigns an attribute or an item leaves the assigned state of
    every object as it was, whatever the session. *)
Lemma keeps_heap_exec_cell w c :
  read_only w → existsb Shape.stores c = false → keeps_heap (exec_cell w c).
Proof.
  intros Hro Hs. apply keeps_heap_mfor. intros s Hin.
  apply keeps_heap_exec; [done|]. by eapply existsb_false_Forall.
Qed.



Lemma run_value {A} (m : M A) σ a : value_of m σ = Some a → m σ = Ok (a, after m σ).
Proof. unfold value_of, after. destruct (m σ) as [[b σ']|]; [|done]. by intros [= ->]. Qed.

Lemma cell_run_after w nb i c :
  code_cells nb !! i = Some c →
  value_of (exec_cells w (take i (code_cells nb))) init = Some tt →
  value_of (exec_cell w c) (after (exec_cells w (take i (code_cells nb))) init) = Some tt →
  cell_run w nb i
  = Some (after (exec_cells w (take i (code_cells nb))) init,
          after (exec_cell w c) (after (exec_cells w (take i (code_cells nb))) init)).
Proof.
  intros Hc H1 H2. unfold cell_run. rewrite Hc. cbn.
  by rewrite (run_value _ _ _ H1), (run_value _ _ _ H2).
Qed.

(** What a library call sets is set: in a world whose library implements
    [update], the first code cell of the Hough indexing notebook, which
    assigns no attribute or item itself, changes the font size that the
    first code cell of the virtual imaging notebook assigned. *)
Example update_call_changes_rcparams :
  ∃ σ σ',
    exec_cell updating_world (cell_source vbse_03) init = Ok (tt, σ)
    ∧ exec_cell updating_world (cell_source hough_02) σ = Ok (tt, σ')
    ∧ existsb Shape.stores (cell_source hough_02) = false
    ∧ heap σ !! (OGlobal ["matplotlib"; "pyplot"; "rcParams"], SlotItem "font.size")
      = Some (VInt 12)
    ∧ heap σ' !! (OGlobal ["matplotlib"; "pyplot"; "rcParams"], SlotItem "font.size")
      = Some (VInt 15).
Proof.
  eexists _, _.
  split; [apply run_value; vm_compute; reflexivity|].
  split; [apply run_value; vm_compute; reflexivity|].
  repeat apply conj; vm_compute; reflexivity.
Qed.


(** In the example world every notebook runs to its end. *)
Lemma notebooks_run :
  Forall (fun nb => value_of (exec_cells example_world (code_cells nb)) init = Some tt)
         notebooks.
Proof. repeat constructor; by vm_compute. Qed.

(** Each of the five cells that assign an attribute or an item does change
    the slot it assigns, in the example world. *)
Lemma assigning_cells_change_their_slot :
  Forall (fun '(nb, i, k) =>
            ∃ σ σ', cell_run example_world nb i = Some (σ, σ')
                    ∧ heap σ !! k ≠ heap σ' !! k)
         [ (virtual_backscatter_electron_imaging, 0,
            (OGlobal ["matplotlib"; "pyplot"; "rcParams"], SlotItem "font.size"));
           (virtual_backscatter_electron_imaging, 6, (OAlloc [4], SlotAttr "grid_shape"));
           (virtual_backscatter_electron_imaging, 9, (OAlloc [4], SlotAttr "grid_shape"));
           (hough_indexing, 15, (OAlloc [20], SlotAttr "pc"));
           (hough_indexing, 23, (OAlloc [32], SlotAttr "direction")) ].
Proof.
  repeat constructor.
  all: eexists _, _; split;
    [eapply cell_run_after; [reflexivity|by vm_compute|by vm_compute]|].
  all: by vm_compute.
Qed.

(** The cells that assign an attribute or an item, and that no statement of
    any cell defines a function or a class. *)
Lemma storing_cells :
  forallb (fun nn =>
             forallb (fun ic =>
                        (bool_decide ((fst nn, fst ic)
                                      ∈ [ ("virtual_backscatter_electron_imaging", 0);
                                          ("virtual_backscatter_electron_imaging", 6);
                                          ("virtual_backscatter_electron_imaging", 9);
                                          ("hough_indexing", 15);
                                          ("hough_indexing", 23) ])
                         || negb (existsb Shape.stores (snd ic)))
                        && forallb (fun s => negb (Shape.definition s))
                                   (Shape.cell_stmts (snd ic)))
                     (imap pair (code_cells (snd nn))))
          Slice.named_notebooks = true.
Proof. by vm_compute. Qed.

(** What an assignment to an attribute or to an item with a string key
    does, in any world and any session: the value of the right-hand side is
    what the slot of the receiver holds afterwards. *)
Lemma attribute_assignment_sets_slot w r a e σ σ' :
  exec w (SAssign (EAttr r a) e) σ = Ok (tt, σ') →
  ∃ v σ1 o σ2 k,
    eval w e σ = Ok (v, σ1) ∧ eval w r σ1 = Ok (o, σ2) ∧ oid_of o = Some k
    ∧ heap σ' = <[(k, SlotAttr a) := v]> (heap σ2).
Proof.
  cbn [exec assign]. unfold bind.
  destruct (eval w e σ) as [[v σ1]|] eqn:He; [|done].
  destruct (eval w r σ1) as [[o σ2]|] eqn:Hr; [|done].
  destruct (oid_of o) as [k|] eqn:Ho; [|done].
  intros [= <-]. by exists v, σ1, o, σ2, k.
Qed.

Lemma item_assignment_sets_slot w r key e σ σ' :
  exec w (SAssign (ESubscript r (EStr key)) e) σ = Ok (tt, σ') →
  ∃ v σ1 o σ2 k,
    eval w e σ = Ok (v, σ1) ∧ eval w r σ1 = Ok (o, σ2) ∧ oid_of o = Some k
    ∧ heap σ' = <[(k, SlotItem key) := v]> (heap σ2).
Proof.
  cbn [exec assign eval]. unfold bind, ret.
  destruct (eval w e σ) as [[v σ1]|] eqn:He; [|done].
  destruct (eval w r σ1) as [[o σ2]|] eqn:Hr; [|done].
  destruct (oid_of o) as [k|] eqn:Ho; [|done].
  intros [= <-]. by exists v, σ1, o, σ2, k.
Qed.



End Sessions.

(* ===================================================================== *)
(** ** Worlds: what a run asks of its surroundings *)
(* ===================================================================== *)

Section Worlds.
Import Py Nb Sem.

Lemma list_all_elem_of {A} (P R : A → Prop) (l : list A) :
  list_all A P l → (∀ a, P a → R a) → ∀ a, a ∈ l → R a.
Proof.
  intros H HR. induction H as [|b Hb l Hl IH]; intros a Ha.
  - by apply elem_of_nil in Ha.
  - apply elem_of_cons in Ha as [->|Ha]; auto.
Qed.

Lemma list_all_elem_ofT {A} (P : A → Type) (R : A → Prop) (l : list A) :
  list_all A P l → (∀ a, P a → R a) → ∀ a, a ∈ l → R a.
Proof.
  intros H HR. induction H as [|b Hb l Hl IH]; intros a Ha.
  - by apply elem_of_nil in Ha.
  - apply elem_of_cons in Ha as [->|Ha]; auto.
Qed.

Lemma bind_ext {A B} (m m' : M A) (k k' : A → M B) σ :
  (∀ τ, m τ = m' τ) → (∀ a τ, k a τ = k' a τ) → bind m k σ = bind m' k' σ.
Proof. intros Hm Hk. unfold bind. rewrite Hm. by destruct (m' σ) as [[a τ]|]. Qed.

Lemma mmap_ext {A B} (f g : A → M B) l σ :
  (∀ a, a ∈ l → ∀ τ, f a τ = g a τ) → mmap f l σ = mmap g l σ.
Proof.
  revert σ. induction l as [|a l IH]; intros σ Hfg; cbn [mmap]; [done|].
  apply bind_ext; [apply Hfg; left|intros b τ].
  apply bind_ext; [|done]. intros τ'. apply IH. intros c Hc. apply Hfg. by right.
Qed.

Lemma moption_ext {A B} (f g : A → M B) o σ :
  (∀ a, o = Some a → ∀ τ, f a τ = g a τ) → moption f o σ = moption g o σ.
Proof.
  destruct o as [a|]; intros Hfg; cbn [moption]; [|done].
  apply bind_ext; [by apply Hfg|done].
Qed.

Lemma mfor_ext {A} (f g : A → M unit) l σ :
  (∀ a, a ∈ l → ∀ τ, f a τ = g a τ) → mfor f l σ = mfor g l σ.
Proof.
  revert σ. induction l as [|a l IH]; intros σ Hfg; cbn [mfor]; [done|].
  apply bind_ext; [apply Hfg; left|intros _ τ].
  apply IH. intros c Hc. apply Hfg. by right.
Qed.

Lemma mfor2_ext {A B} (f g : A → B → M unit) l r σ :
  (∀ a, a ∈ l → ∀ b τ, f a b τ = g a b τ) → mfor2 f l r σ = mfor2 g l r σ.
Proof.
  revert r σ. induction l as [|a l IH]; intros [|b r] σ Hfg; cbn [mfor2]; try done.
  apply bind_ext; [apply Hfg; left|intros _ τ].
  apply IH. intros c Hc. apply Hfg. by right.
Qed.

(** A run asks the world for nothing but its four answers: in two worlds
    that answer alike, every expression, statement, cell and notebook runs
    alike. *)
Section Alike.
Context (w w' : world) (Hw : alike w w').

Lemma iter_values_alike v : iter_values w v = iter_values w' v.
Proof. destruct Hw as (_ & Hn & _). unfold iter_values. by rewrite Hn. Qed.

Lemma zip_values_alike args : zip_values w args = zip_values w' args.
Proof.
  unfold zip_values.
  assert (iter_values w <$> args = iter_values w' <$> args) as ->; [|done].
  apply list_fmap_ext. intros _ v _. apply iter_values_alike.
Qed.

Lemma call_alike f args kwargs σ : call w f args kwargs σ = call w' f args kwargs σ.
Proof.
  destruct Hw as (Hd & _ & _ & Hl). unfold call, library_call.
  by rewrite zip_values_alike, Hd, Hl.
Qed.

Lemma eval_alike e : ∀ σ, eval w e σ = eval w' e σ.
Proof.
  induction e as [x| |b|n|lit|s|parts IH| |es IH|es IH|kvs IH|e IH a|e IH1 i IH2
                 |lo IHlo hi IHhi step IHstep|f IHf args IHargs kwargs IHkw
                 |op l IHl r IHr|e IH|params body IH|elt IH1 target IH2 iter IH3];
    intros σ; cbn [eval]; try done.
  - apply bind_ext; [|done]. intros τ. apply mmap_ext.
    intros a Ha. exact (list_all_elem_of _ _ _ IH (fun _ H => H) a Ha).
  - apply bind_ext; [|done]. intros τ. apply mmap_ext.
    intros a Ha. exact (list_all_elem_of _ _ _ IH (fun _ H => H) a Ha).
  - apply bind_ext; [|done]. intros τ. apply mmap_ext.
    intros a Ha. exact (list_all_elem_of _ _ _ IH (fun _ H => H) a Ha).
  - apply bind_ext; [|done]. intros τ. apply mmap_ext. intros [k v] Hkv.
    refine (list_all_elem_ofT _
              (fun kv => ∀ τ, (let '(k, v) := kv in
                               do k' <- eval w k; do v' <- eval w v; ret (k', v')) τ
                              = (let '(k, v) := kv in
                                 do k' <- eval w' k; do v' <- eval w' v; ret (k', v')) τ)
              _ IH _ (k, v) Hkv).
    clear. intros kv [a Ha b Hb] τ. cbv beta iota.
    apply bind_ext; [exact Ha|intros ? ?]. apply bind_ext; [exact Hb|done].
  - apply bind_ext; [exact IH|done].
  - apply bind_ext; [exact IH1|intros ? ?]. apply bind_ext; [exact IH2|done].
  - destruct IHlo as [a Ha|], IHhi as [b Hb|], IHstep as [c Hc|]; cbn [moption];
      repeat (intros; apply bind_ext); auto.
  - apply bind_ext; [exact IHf|intros vf τ].
    apply bind_ext.
    { intros τ'. apply mmap_ext.
      intros a Ha. exact (list_all_elem_of _ _ _ IHargs (fun _ H => H) a Ha). }
    intros vs τ'. apply bind_ext; [|intros; apply call_alike].
    intros τ''. apply mmap_ext. intros [k v] Hkv.
    refine (list_all_elem_ofT _
              (fun kv => ∀ τ, (let '(k, v) := kv in do v' <- eval w v; ret (k, v')) τ
                              = (let '(k, v) := kv in do v' <- eval w' v; ret (k, v')) τ)
              _ IHkw _ (k, v) Hkv).
    clear. intros kv [a Ha b Hb] τ. cbv beta iota. apply bind_ext; [exact Hb|done].
  - apply bind_ext; [exact IHl|intros ? ?]. apply bind_ext; [exact IHr|done].
Qed.

Lemma assign_alike t : ∀ v σ, assign w t v σ = assign w' t v σ.
Proof.
  induction t as [x| |b|n|lit|s|parts IH| |es IH|es IH|kvs IH|e IH a|e IH1 i IH2
                 |lo IHlo hi IHhi step IHstep|f IHf args IHargs kwargs IHkw
                 |op l IHl r IHr|e IH|params body IH|elt IH1 target IH2 iter IH3];
    intros v σ; cbn [assign]; try done.
  - apply bind_ext; [done|intros vs τ]. apply mfor2_ext.
    intros t Ht u τ'. exact (list_all_elem_of _ _ _ IH (fun _ H => H) t Ht u τ').
  - apply bind_ext; [done|intros vs τ]. apply mfor2_ext.
    intros t Ht u τ'. exact (list_all_elem_of _ _ _ IH (fun _ H => H) t Ht u τ').
  - apply bind_ext; [apply eval_alike|done].
  - apply bind_ext; [apply eval_alike|intros o τ]. apply bind_ext; [apply eval_alike|done].
Qed.

Lemma exec_alike s : ∀ σ, exec w s σ = exec w' s σ.
Proof.
  destruct Hw as (_ & _ & Hi & _).
  induction s as [line|m asname|m names|t e|e|t it body IH|test body IH
                 |test body IH1 orelse IH2|body IH1 handlers IH2 finalbody IH3
                 |e|e|ctx body IH|name params body IH|name body IH];
    intros σ; cbn [exec]; try done.
  - by rewrite Hi.
  - by rewrite Hi.
  - apply bind_ext; [apply eval_alike|intros; apply assign_alike].
  - apply bind_ext; [apply eval_alike|done].
  - apply bind_ext; [apply eval_alike|intros v τ].
    apply bind_ext; [done|intros pk τ'].
    apply bind_ext; [|done]. intros τ''.
    rewrite iter_values_alike. apply mfor_ext. intros ix _ τ3.
    apply bind_ext; [done|intros _ τ4].
    apply bind_ext; [intros; apply assign_alike|intros _ τ5].
    apply mfor_ext. intros s Hs. exact (list_all_elem_of _ _ _ IH (fun _ H => H) s Hs).
Qed.

Lemma exec_cell_alike c σ : exec_cell w c σ = exec_cell w' c σ.
Proof. apply mfor_ext. intros s _. apply exec_alike. Qed.

Lemma exec_cells_alike cs σ : exec_cells w cs σ = exec_cells w' cs σ.
Proof. apply mfor_ext. intros c _ τ. apply exec_cell_alike. Qed.

Lemma run_alike nb : run w nb = run w' nb.
Proof. unfold run. by rewrite exec_cells_alike. Qed.

Lemma cell_run_alike nb i : cell_run w nb i = cell_run w' nb i.
Proof.
  unfold cell_run. destruct (code_cells nb !! i) as [c|]; [|done]. cbn [mbind option_bind].
  rewrite exec_cells_alike.
  destruct (exec_cells w' (take i (code_cells nb)) init) as [[[] σ]|]; [|done].
  by rewrite exec_cell_alike.
Qed.

End Alike.

Lemma calm_alike w : calm w → alike w (calm_world (tmpdir w) (unknown_len w)).
Proof. intros [Hi Hl]. by repeat split. Qed.

End Worlds.

(* ===================================================================== *)
(** ** Failures: where they surface *)
(* ===================================================================== *)

Section Failures.
Import Py Nb Sem Shape.

(** An import of a module that is not installed raises in the cell that
    holds it: the first such module among the imports that open a cell is
    what the cell raises, whatever the session. *)
Lemma missing_module_raises w c : ∀ σ m,
  List.find (fun m => negb (installed w m)) (leading_modules c) = Some m →
  exec_cell w c σ = Err (ModuleNotFoundError m).
Proof.
  unfold exec_cell.
  induction c as [|s c IH]; intros σ m; [done|].
  destruct s as [line|md asname|md nms| | | | | | | | | | | ];
    cbn [leading_modules List.find mfor exec]; try done.
  - intros Hm. unfold bind at 1. cbn [ret]. by apply IH.
  - destruct (installed w md) eqn:Hi; cbn [negb].
    + intros Hm. unfold bind at 1. destruct (import_binding md asname) as [x v].
      cbn [bind_name]. by apply IH.
    + by intros [= <-].
  - destruct (installed w md) eqn:Hi; cbn [negb].
    + intros Hm. unfold bind at 1.
      destruct (mfor _ nms σ) as [[[] σ1]|] eqn:Hn; [by apply IH|].
      exfalso. revert σ Hn. clear. induction nms as [|x nms IHn]; intros σ; [done|].
      cbn [mfor]. unfold bind at 1. cbn [bind_name]. apply IHn.
    + by intros [= <-].
Qed.

(** What a cell raises is what the run of the notebook ends with: no cell
    after it runs, none before it is undone. *)
Lemma mfor_raises {A} (f : A → M unit) l : ∀ i c σ σ1 e,
  l !! i = Some c →
  mfor f (take i l) σ = Ok (tt, σ1) →
  f c σ1 = Err e →
  mfor f l σ = Err e.
Proof.
  induction l as [|a l IH]; intros [|i] c σ σ1 e Hc; try done; cbn [take mfor].
  - injection Hc as ->. intros [= <-] He. unfold bind. by rewrite He.
  - unfold bind. destruct (f a σ) as [[[] τ]|]; [|done]. by apply IH.
Qed.

(** C3, as stated, fails: not every failure is handled by the external
    libraries.  The visualization notebook imports [pyvista] by a statement
    of its own, the fourth of its first code cell, with nothing around it.
    In a world where every module but PyVista is installed the three
    statements before it run, no library has been called yet, and the run
    of the notebook ends there, with the error the import raises. *)
Lemma missing_pyvista_fails_in_the_notebook :
  ∃ σ,
    installed world_without_pyvista "pyvista" = false
    ∧ (∀ m, m ≠ "pyvista" → installed world_without_pyvista m = true)
    ∧ code_cells visualizing_patterns !! 0 = Some (cell_source visual_02)
    ∧ cell_source visual_02 !! 3 = Some (SImport "pyvista" None)
    ∧ exec_cell world_without_pyvista (take 3 (cell_source visual_02)) init = Ok (tt, σ)
    ∧ next σ = 0
    ∧ files σ = []
    ∧ exec world_without_pyvista (SImport "pyvista" None) σ
      = Err (ModuleNotFoundError "pyvista")
    ∧ run world_without_pyvista visualizing_patterns = Err (ModuleNotFoundError "pyvista").
Proof.
  eexists. split; [reflexivity|].
  split; [intros m Hm; cbn; by apply negb_true_iff, String.eqb_neq|].
  split; [reflexivity|]. split; [reflexivity|].
  split; [apply run_value; vm_compute; reflexivity|].
  split; [vm_compute; reflexivity|]. split; [vm_compute; reflexivity|].
  split; [reflexivity|]. vm_compute. reflexivity.
Qed.

(** C3, amended: no statement of any code cell catches, raises or branches
    on a failure (no [try], [raise], [assert], [if], [while] or [with]);
    every import is a statement of a cell itself, never nested in another
    statement; that PyEBSDIndex and PyVista are optional is said in the
    markdown of the notebooks that use them, while the code never imports
    PyEBSDIndex itself and imports PyVista unconditionally, in the first
    code cell of the visualization notebook.  So nothing in the notebooks
    handles a failure, and a failure is not always the libraries' to handle:
    when a module that the first code cell of a notebook imports is not
    installed, the run of the notebook ends with the error that import
    raises; and whatever a cell raises, in its own statements or inside a
    library call, is what the run of the notebook ends with. *)
Theorem no_error_handling_in_code :
  Forall (fun nb =>
            Forall (fun c =>
                      Forall (fun s => failure_construct s = false) (cell_stmts c)
                      ∧ Forall (fun s => existsb is_import (tail (substmts s)) = false) c)
                   (code_cells nb))
         notebooks
  ∧ existsb (contains "PyEBSDIndex is an optional dependency of kikuchipy")
            (markdown_lines hough_indexing) = true
  ∧ existsb (contains "`PyVista`, required for this interactive plot, is an optional dependency")
            (markdown_lines visualizing_patterns) = true
  ∧ Forall (fun nb => existsb imports_pyebsdindex (Slice.statements nb) = false) notebooks
  ∧ cell_source visual_02 !! 3 = Some (SImport "pyvista" None)
  ∧ (fun nb => leading_modules <$> head (code_cells nb)) <$> notebooks
    = [ Some ["pathlib"; "tempfile"; "matplotlib.pyplot"; "numpy"; "hyperspy.api";
              "kikuchipy"];
        Some ["matplotlib.pyplot"; "numpy"; "diffpy.structure";
              "diffsims.crystallography"; "kikuchipy"; "orix"; "orix.crystal_map";
              "orix.vector"];
        Some ["matplotlib.pyplot"; "numpy"; "pyvista"; "skimage.exposure";
              "skimage.transform"; "hyperspy.api"; "kikuchipy"; "orix"] ]
  ∧ (∀ w nb c m,
       head (code_cells nb) = Some c →
       List.find (fun m => negb (installed w m)) (leading_modules c) = Some m →
       run w nb = Err (ModuleNotFoundError m))
  ∧ (∀ w nb i c σ e,
       code_cells nb !! i = Some c →
       exec_cells w (take i (code_cells nb)) init = Ok (tt, σ) →
       exec_cell w c σ = Err e →
       run w nb = Err e).
Proof.
  split; [apply (bool_decide_unpack _); by vm_compute|].
  split; [by vm_compute|]. split; [by vm_compute|].
  split; [apply (bool_decide_unpack _); by vm_compute|].
  split; [by vm_compute|]. split; [by vm_compute|].
  assert (Hraise : ∀ w nb i c σ e,
             code_cells nb !! i = Some c →
             exec_cells w (take i (code_cells nb)) init = Ok (tt, σ) →
             exec_cell w c σ = Err e →
             run w nb = Err e).
  { intros w nb i c σ e Hc Hpre He. unfold run, exec_cells.
    by rewrite (mfor_raises (exec_cell w) (code_cells nb) i c init σ e Hc Hpre He). }
  split; [|exact Hraise].
  intros w nb c m Hc Hm. apply (Hraise w nb 0 c init).
  - by rewrite <- head_lookup.
  - reflexivity.
  - by apply missing_module_raises.
Qed.

End Failures.

(* ===================================================================== *)
(** ** Files: what a notebook leaves on disk *)
(* ===================================================================== *)

Section Files.
Import Py Nb Sem.

Lemma state_eq σ τ :
  map_to_list (env σ) = map_to_list (env τ) →
  map_to_list (heap σ) = map_to_list (heap τ) →
  scope σ = scope τ → next σ = next τ → files σ = files τ → σ = τ.
Proof.
  destruct σ, τ; cbn. intros He Hh -> -> ->. f_equal.
  - apply map_to_list_inj. by rewrite He.
  - apply map_to_list_inj. by rewrite Hh.
Qed.
Lemma run_to {A} (m : M A) σ a τ :
  value_of m σ = Some a → after m σ = τ → m σ = Ok (a, τ).
Proof. intros H <-. by apply run_value. Qed.

Lemma mfor_app {A} (f : A → M unit) l1 l2 σ σ1 :
  mfor f l1 σ = Ok (tt, σ1) → mfor f (l1 ++ l2) σ = mfor f l2 σ1.
Proof.
  revert σ. induction l1 as [|a l1 IH]; intros σ; cbn [mfor app].
  - by intros [= ->].
  - unfold bind. destruct (f a σ) as [[[] σ']|]; [|done]. apply IH.
Qed.

Lemma mfor_at {A} (f : A → M unit) l k c σ σ1 σ2 σ3 :
  l !! k = Some c →
  mfor f (take k l) σ = Ok (tt, σ1) →
  f c σ1 = Ok (tt, σ2) →
  mfor f (drop (S k) l) σ2 = Ok (tt, σ3) →
  mfor f l σ = Ok (tt, σ3).
Proof.
  intros Hk H1 H2 H3.
  rewrite <- (take_drop_middle l k c Hk).
  erewrite mfor_app by done. cbn [mfor]. unfold bind. by rewrite H2.
Qed.

Lemma exec_cells_at w cs k c σ σ1 σ2 σ3 :
  cs !! k = Some c →
  exec_cells w (take k cs) σ = Ok (tt, σ1) →
  exec_cell w c σ1 = Ok (tt, σ2) →
  exec_cells w (drop (S k) cs) σ2 = Ok (tt, σ3) →
  exec_cells w cs σ = Ok (tt, σ3).
Proof. apply mfor_at. Qed.

Lemma exec_cell_at w c k s σ σ1 σ2 σ3 :
  c !! k = Some s →
  exec_cell w (take k c) σ = Ok (tt, σ1) →
  exec w s σ1 = Ok (tt, σ2) →
  exec_cell w (drop (S k) c) σ2 = Ok (tt, σ3) →
  exec_cell w c σ = Ok (tt, σ3).
Proof. apply mfor_at. Qed.

Lemma imap_pair_seq {A} (x : nat → A) n :
  imap pair (x <$> seq 0 n) = (fun i => (i, x i)) <$> seq 0 n.
Proof.
  induction n as [|n IH]; [done|].
  rewrite seq_S, !fmap_app, imap_app, IH. cbn. by rewrite length_fmap, length_seq, Nat.add_0_r.
Qed.

Lemma mfor_seq {A} (f : A → M unit) (x : nat → A) (st : nat → state) n :
  (∀ i, i < n → f (x i) (st i) = Ok (tt, st (S i))) →
  mfor f (x <$> seq 0 n) (st 0) = Ok (tt, st n).
Proof.
  induction n as [|n IH]; intros Hstep; [done|].
  rewrite seq_S, fmap_app. erewrite mfor_app; [|apply IH; auto with lia].
  cbn [fmap list_fmap mfor]. unfold bind. rewrite Hstep by lia. done.
Qed.

(** A loop over [n] elements [x 0 .. x (n - 1)] of an untracked iterable,
    whose session after [i] rounds is [st i]. *)
Lemma exec_for w t it body σ v (x : nat → value) (st : nat → state) σ' :
  eval w it σ = Ok (v, st 0) →
  iter_values w v = x <$> seq 0 (unknown_len w) →
  (∀ i, i < unknown_len w →
        (enter (scope (st 0)) (next (st 0)) i ;; assign w t (x i) ;; mfor (exec w) body)
          (st i) = Ok (tt, st (S i))) →
  after (leave (scope (st 0)) (next (st 0))) (st (unknown_len w)) = σ' →
  exec w (SFor t it body) σ = Ok (tt, σ').
Proof.
  intros H1 Hit Hstep <-. cbn [exec]. unfold bind at 1. rewrite H1.
  unfold bind at 1. cbn [position fst snd]. unfold bind at 1.
  rewrite Hit, imap_pair_seq.
  rewrite (mfor_seq _ (fun i => (i, x i)) st); done.
Qed.

Ltac by_run := apply run_value; vm_compute; reflexivity.

Ltac compute_lhs :=
  lazymatch goal with
  | |- ?l = _ =>
      let r := eval vm_compute in l in
      transitivity r; [vm_compute; reflexivity|reflexivity]
  end.

Ltac same_state := apply state_eq; vm_compute; reflexivity.

Ltac plotting_loop m :=
  lazymatch goal with
  | |- exec ?w (SFor _ ?it _) ?σ = _ =>
      let v := eval vm_compute in (value_of (eval w it) σ) in
      lazymatch v with
      | Some ?v =>
          eapply (exec_for w _ _ _ _ v
                    (fun i => VItemOf v (VInt (Z.of_nat i)))
                    (fun i => match i with
                              | O => after (eval w it) σ
                              | S j => plotting_loop_state (after (eval w it) σ) v j
                              end));
          [by_run|reflexivity
          |intros [|j] _; (apply run_to; [vm_compute; reflexivity|same_state])
          |reflexivity]
      end
  end.

Ltac plotting_loop_cell m :=
  eapply (exec_cell_at _ _ 1); [reflexivity|by_run|plotting_loop m|by_run].


(** The virtual imaging notebook, run in a calm world, whatever its
    temporary directory and the number of elements of a library iterable:
    its code cells 0 to 16 ask for the temporary directory and for one file
    in it, and its last code cell, 17, asks for that file and then that
    directory to be deleted. *)
Lemma vbse_session_calm d n :
  ∃ c σ17 σ,
    code_cells virtual_backscatter_electron_imaging !! 17 = Some c
    ∧ exec_cells (calm_world d n)
        (take 17 (code_cells virtual_backscatter_electron_imaging)) init
      = Ok (tt, σ17)
    ∧ exec_cell (calm_world d n) c σ17 = Ok (tt, σ)
    ∧ files σ17 = [FsMkdtemp d; FsWrite (d ++ ["vbse1.png"])]
    ∧ files σ = files σ17 ++ [FsRemove (d ++ ["vbse1.png"]); FsRmdir d].
Proof.
  destruct n as [|m].
  - eexists _, _, _. split; [reflexivity|]. split; [by_run|]. split; [by_run|].
    split; vm_compute; reflexivity.
  - eexists _, _, _. split; [reflexivity|]. split; [|split; [|split]].
    + eapply (exec_cells_at _ _ 11); [reflexivity|by_run|plotting_loop_cell m|].
      eapply (exec_cells_at _ _ 3); [reflexivity|by_run|plotting_loop_cell m|by_run].
    + by_run.
    + vm_compute; reflexivity.
    + vm_compute; reflexivity.
Qed.

Lemma vbse_session w :
  calm w →
  ∃ c σ17 σ,
    code_cells virtual_backscatter_electron_imaging !! 17 = Some c
    ∧ exec_cells w (take 17 (code_cells virtual_backscatter_electron_imaging)) init
      = Ok (tt, σ17)
    ∧ exec_cell w c σ17 = Ok (tt, σ)
    ∧ files σ17 = [FsMkdtemp (tmpdir w); FsWrite (tmpdir w ++ ["vbse1.png"])]
    ∧ files σ = files σ17 ++ [FsRemove (tmpdir w ++ ["vbse1.png"]); FsRmdir (tmpdir w)].
Proof.
  intros Hcalm. pose proof (calm_alike w Hcalm) as Hw.
  destruct (vbse_session_calm (tmpdir w) (unknown_len w))
    as (c & σ17 & σ & Hc & H17 & Hlast & Hf17 & Hf).
  exists c, σ17, σ. split; [exact Hc|].
  split; [rewrite (exec_cells_alike _ _ Hw); exact H17|].
  split; [rewrite (exec_cell_alike _ _ Hw); exact Hlast|].
  exact (conj Hf17 Hf).
Qed.

Lemma parent_app d name : Fs.parent (d ++ [name]) = d.
Proof. apply removelast_last. Qed.

Lemma parent_neq d : d ≠ [] → Fs.parent d ≠ d.
Proof.
  intros Hd Heq. destruct (exists_last Hd) as (l & a & ->).
  rewrite parent_app in Heq. apply (f_equal length) in Heq.
  rewrite length_app in Heq. cbn in Heq. lia.
Qed.

(** Making a directory that did not exist, writing one file into it,
    deleting the file and then the directory gives back the file system one
    started with. *)
Lemma scratch_directory_round_trip (t : Fs.tree) d name :
  Fs.wf t → t !! d = None → t !! Fs.parent d = Some Fs.Dir → d ≠ [] →
  Fs.replay [FsMkdtemp d; FsWrite (d ++ [name]); FsRemove (d ++ [name]); FsRmdir d] t
  = Some t.
Proof.
  intros Hwf Hd Hp Hne.
  assert (Hf : t !! (d ++ [name]) = None).
  { destruct (t !! (d ++ [name])) as [n|] eqn:E; [|done].
    destruct (Hwf _ _ E) as [Hnil|Hdir].
    - by destruct d.
    - rewrite parent_app in Hdir. congruence. }
  assert (Hfd : d ++ [name] ≠ d).
  { intros Heq. apply (f_equal length) in Heq. rewrite length_app in Heq. cbn in Heq. lia. }
  assert (Hdf : d ++ [name] ≠ []) by (by destruct d).
  cbn [Fs.replay Fs.step].
  rewrite decide_True by done. cbn [mbind option_bind].
  rewrite decide_True
    by (by rewrite parent_app, lookup_insert_eq, lookup_insert_ne, Hf).
  cbn [mbind option_bind].
  rewrite decide_True by (by rewrite lookup_insert_eq). cbn [mbind option_bind].
  rewrite delete_insert_id by (by rewrite lookup_insert_ne).
  rewrite decide_True; [cbn; by rewrite delete_insert_id|].
  split; [by rewrite lookup_insert_eq|].
  intros p n Hpn [Hp0 Hpar].
  destruct (decide (p = d)) as [->|Hpd].
  - by apply (parent_neq d).
  - rewrite lookup_insert_ne in Hpn by done.
    destruct (Hwf _ _ Hpn) as [?|Hdir]; [done|]. congruence.
Qed.

(** C9, as stated, fails: the notebook's first code cell calls
    [kp.data.nickel_ebsd_large(allow_download=True)].  In a world where the
    data set is not in the cache yet, the library fetches it and writes it
    to disk, here to [/cache/nickel_ebsd_large.h5]; the notebook never
    removes that file.  On a file system that meets every premise of the
    claim (the temporary directory is fresh, the directory it is made in
    exists) the notebook runs to its end, and the file system it leaves
    holds the downloaded file: it is not the one it started on. *)
Lemma download_stays_on_disk :
  ∃ σ0 σ t',
    cell_run (downloading_world ["cache"; "nickel_ebsd_large.h5"])
             virtual_backscatter_electron_imaging 0 = Some (init, σ0)
    ∧ files σ0 = [FsWrite ["cache"; "nickel_ebsd_large.h5"]]
    ∧ run (downloading_world ["cache"; "nickel_ebsd_large.h5"])
          virtual_backscatter_electron_imaging = Ok σ
    ∧ files σ = [ FsWrite ["cache"; "nickel_ebsd_large.h5"];
                  FsMkdtemp ["tmp"; "tmpk3x9"];
                  FsWrite ["tmp"; "tmpk3x9"; "vbse1.png"];
                  FsRemove ["tmp"; "tmpk3x9"; "vbse1.png"];
                  FsRmdir ["tmp"; "tmpk3x9"] ]
    ∧ Fs.wf Fs.tree_with_cache
    ∧ Fs.tree_with_cache !! ["tmp"; "tmpk3x9"] = None
    ∧ Fs.tree_with_cache !! Fs.parent ["tmp"; "tmpk3x9"] = Some Fs.Dir
    ∧ Fs.replay (files σ) Fs.tree_with_cache = Some t'
    ∧ Fs.tree_with_cache !! ["cache"; "nickel_ebsd_large.h5"] = None
    ∧ t' !! ["cache"; "nickel_ebsd_large.h5"] = Some Fs.File
    ∧ t' ≠ Fs.tree_with_cache.
Proof.
  set (w := downloading_world ["cache"; "nickel_ebsd_large.h5"]).
  set (nb := virtual_backscatter_electron_imaging).
  assert (Hrun : exec_cells w (code_cells nb) init
                 = Ok (tt, after (exec_cells w (code_cells nb)) init)) by by_run.
  assert (Hfiles : files (after (exec_cells w (code_cells nb)) init)
                   = [ FsWrite ["cache"; "nickel_ebsd_large.h5"];
                       FsMkdtemp ["tmp"; "tmpk3x9"];
                       FsWrite ["tmp"; "tmpk3x9"; "vbse1.png"];
                       FsRemove ["tmp"; "tmpk3x9"; "vbse1.png"];
                       FsRmdir ["tmp"; "tmpk3x9"] ]) by (vm_compute; reflexivity).
  assert (Hreplay : (fun t' => t' !! ["cache"; "nickel_ebsd_large.h5"])
                      <$> Fs.replay (files (after (exec_cells w (code_cells nb)) init))
                                    Fs.tree_with_cache
                    = Some (Some Fs.File)) by (rewrite Hfiles; vm_compute; reflexivity).
  destruct (Fs.replay _ Fs.tree_with_cache) as [t'|] eqn:Ht'; [|done].
  injection Hreplay as Hfile.
  assert (Hnone : Fs.tree_with_cache !! ["cache"; "nickel_ebsd_large.h5"] = None)
    by (vm_compute; reflexivity).
  eexists _, _, t'.
  split; [eapply (cell_run_after w nb 0); [reflexivity|by vm_compute|by vm_compute]|].
  split; [vm_compute; reflexivity|].
  split; [unfold run; by rewrite Hrun|].
  split; [exact Hfiles|].
  split; [apply (bool_decide_unpack _); vm_compute; exact I|].
  split; [vm_compute; reflexivity|]. split; [vm_compute; reflexivity|].
  split; [exact Ht'|]. split; [exact Hnone|]. split; [exact Hfile|].
  intros ->. rewrite Hnone in Hfile. discriminate Hfile.
Qed.

(** C9, amended: in a calm world (every module installed, every library
    call quiet: the data set of code cell 0 is in the cache already and no
    library call writes a file), on any well-formed file system in which the
    directory [mkdtemp] picks does not exist yet (and the directory it is
    made in does), the virtual imaging notebook runs to its end; its code
    cells before the last one create the temporary directory and write one
    file, [vbse1.png], into it; its last cell (code cell 17 of 18, the hidden
    cell that ends the notebook) removes that file and then the directory;
    and these four requests, in this order, leave the file system as it
    was. *)
Theorem vbse_notebook_leaves_no_files (w : world) (t : gmap (list string) Fs.node) :
  calm w →
  Fs.wf t →
  t !! tmpdir w = None →
  t !! Fs.parent (tmpdir w) = Some Fs.Dir →
  tmpdir w ≠ [] →
  ∃ σ17 σ,
    last (cells virtual_backscatter_electron_imaging) = Some vbse_31
    ∧ last (code_cells virtual_backscatter_electron_imaging) = Some (cell_source vbse_31)
    ∧ length (code_cells virtual_backscatter_electron_imaging) = 18
    ∧ cell_run w virtual_backscatter_electron_imaging 17 = Some (σ17, σ)
    ∧ run w virtual_backscatter_electron_imaging = Ok σ
    ∧ files σ17 = [FsMkdtemp (tmpdir w); FsWrite (tmpdir w ++ ["vbse1.png"])]
    ∧ files σ = files σ17 ++ [FsRemove (tmpdir w ++ ["vbse1.png"]); FsRmdir (tmpdir w)]
    ∧ Fs.replay (files σ) t = Some t.
Proof.
  intros Hcalm Hwf Hd Hp Hne.
  destruct (vbse_session w Hcalm) as (c & σ17 & σ & Hc & H17 & Hlast & Hf17 & Hf).
  exists σ17, σ. do 3 (split; [reflexivity|]).
  split; [unfold cell_run; rewrite Hc; cbn [mbind option_bind]; by rewrite H17, Hlast|].
  split.
  - unfold run.
    by rewrite (exec_cells_at _ _ 17 c init σ17 σ σ Hc H17 Hlast eq_refl).
  - split; [done|]. split; [done|].
    rewrite Hf, Hf17. by apply scratch_directory_round_trip.
Qed.

(** The theorem at work: the temporary directory is [/tmp/tmpk3x9], the file
    system holds [/tmp] and nothing else. *)
Lemma vbse_notebook_leaves_no_files_example :
  ∃ σ17 σ,
    last (cells virtual_backscatter_electron_imaging) = Some vbse_31
    ∧ last (code_cells virtual_backscatter_electron_imaging) = Some (cell_source vbse_31)
    ∧ length (code_cells virtual_backscatter_electron_imaging) = 18
    ∧ cell_run example_world virtual_backscatter_electron_imaging 17 = Some (σ17, σ)
    ∧ run example_world virtual_backscatter_electron_imaging = Ok σ
    ∧ files σ17 = [FsMkdtemp ["tmp"; "tmpk3x9"]; FsWrite ["tmp"; "tmpk3x9"; "vbse1.png"]]
    ∧ files σ = files σ17 ++ [FsRemove ["tmp"; "tmpk3x9"; "vbse1.png"];
                              FsRmdir ["tmp"; "tmpk3x9"]]
    ∧ Fs.replay (files σ) Fs.example_tree = Some Fs.example_tree.
Proof.
  apply (vbse_notebook_leaves_no_files example_world Fs.example_tree).
  - by split.
  - apply (bool_decide_unpack _). vm_compute. exact I.
  - vm_compute. reflexivity.
  - vm_compute. reflexivity.
  - discriminate.
Defined.

(** The three notebooks run to their end in every calm world; what their
    sessions hold then. *)
Lemma hough_session_calm d n :
  ∃ σ, exec_cells (calm_world d n) (code_cells hough_indexing) init = Ok (tt, σ)
       ∧ files σ = []
       ∧ scope σ = []
       ∧ map_to_list (heap σ)
         = (OAlloc [20], SlotAttr "pc", VAttrOf (VObj [20]) "pc_average")
           :: match n with
              | O => []
              | S k => [ (OAlloc [32], SlotAttr "direction",
                          VItemOf (VObj [38])
                                  (VItemOf VUnknown (VInt (Z.of_nat (Nat.min k 2))))) ]
              end
       ∧ bound_to σ builtins = [None; None; None]
       ∧ bound_to σ (Slice.imported hough_indexing).*1
         = Some <$> (Slice.imported hough_indexing).*2
       ∧ bound_to σ ["det"; "ckey"; "directions"]
         = [Some (VObj [20]); Some (VObj [32]); Some (VObj [38])].
Proof.
  destruct n as [|[|[|[|m]]]].
  all: eexists; split; [by_run|].
  all: repeat apply conj; vm_compute; reflexivity.
Qed.

Lemma visual_session_calm d n :
  ∃ σ, exec_cells (calm_world d n) (code_cells visualizing_patterns) init = Ok (tt, σ)
       ∧ files σ = []
       ∧ scope σ = []
       ∧ map_to_list (heap σ) = []
       ∧ bound_to σ builtins = [None; None; None]
       ∧ bound_to σ (Slice.imported visualizing_patterns).*1
         = Some <$> (Slice.imported visualizing_patterns).*2.
Proof.
  eexists; split; [by_run|].
  repeat apply conj; vm_compute; reflexivity.
Qed.

Lemma vbse_final_calm d n :
  ∃ σ, exec_cells (calm_world d n) (code_cells virtual_backscatter_electron_imaging) init
       = Ok (tt, σ)
       ∧ files σ = [FsMkdtemp d; FsWrite (d ++ ["vbse1.png"]);
                    FsRemove (d ++ ["vbse1.png"]); FsRmdir d]
       ∧ scope σ = []
       ∧ map_to_list (heap σ)
         = [ (OGlobal ["matplotlib"; "pyplot"; "rcParams"], SlotItem "font.size", VInt 12);
             (OAlloc [4], SlotAttr "grid_shape", VTuple [VInt 3; VInt 3]) ]
       ∧ bound_to σ builtins = [None; None; None]
       ∧ bound_to σ (Slice.imported virtual_backscatter_electron_imaging).*1
         = Some <$> (Slice.imported virtual_backscatter_electron_imaging).*2
       ∧ bound_to σ ["vbse_imager"; "temp_dir"] = [Some (VObj [4]); Some (VPath d)].
Proof.
  destruct n as [|m].
  - eexists. split; [by_run|]. repeat apply conj; vm_compute; reflexivity.
  - eexists. split.
    + eapply (exec_cells_at _ _ 11); [reflexivity|by_run|plotting_loop_cell m|].
      eapply (exec_cells_at _ _ 3); [reflexivity|by_run|plotting_loop_cell m|by_run].
    + repeat apply conj; vm_compute; reflexivity.
Qed.

End Files.

(* ===================================================================== *)
(** ** Frames: what a cell leaves alone *)
(* ===================================================================== *)

Section Frames.
Import Py Nb Sem Shape.

Section Keeps.
Context {B : Type} (proj : state → B).

Lemma keeps_ret {A} (a : A) : keeps proj (ret a).
Proof. by intros σ b σ' [= _ <-]. Qed.

Lemma keeps_raise {A} e : keeps proj (raise (A := A) e).
Proof. by intros σ b σ' [=]. Qed.

Lemma keeps_bind {A C} (m : M A) (k : A → M C) :
  keeps proj m → (∀ a, keeps proj (k a)) → keeps proj (bind m k).
Proof.
  intros Hm Hk σ b σ'. unfold bind.
  destruct (m σ) as [[a σ1]|] eqn:E; [|done].
  intros H. rewrite (Hk _ _ _ _ H). eauto.
Qed.

Lemma keeps_lookup_name x : keeps proj (lookup_name x).
Proof.
  intros σ a σ'. unfold lookup_name.
  destruct (env σ !! x); [by intros [= _ <-]|].
  case_bool_decide; [by intros [= _ <-]|done].
Qed.

Lemma keeps_load p : keeps proj (load p).
Proof. by intros σ a σ' [= _ <-]. Qed.

Lemma keeps_position : keeps proj position.
Proof. by intros σ a σ' [= _ <-]. Qed.

Lemma keeps_mmap {A C} (f : A → M C) l :
  (∀ a, a ∈ l → keeps proj (f a)) → keeps proj (mmap f l).
Proof.
  induction l as [|a l IH]; intros Hf; cbn [mmap]; [apply keeps_ret|].
  apply keeps_bind; [apply Hf; left|intros b].
  apply keeps_bind; [apply IH; intros c Hc; apply Hf; by right|intros bs; apply keeps_ret].
Qed.

Lemma keeps_mfor {A} (f : A → M unit) l :
  (∀ a, a ∈ l → keeps proj (f a)) → keeps proj (mfor f l).
Proof.
  induction l as [|a l IH]; intros Hf; cbn [mfor]; [apply keeps_ret|].
  apply keeps_bind; [apply Hf; left|intros _; apply IH].
  intros b Hb. apply Hf. by right.
Qed.

Lemma keeps_mfor2 {A C} (f : A → C → M unit) l r :
  (∀ a c, a ∈ l → keeps proj (f a c)) → keeps proj (mfor2 f l r).
Proof.
  revert r. induction l as [|a l IH]; intros [|c r] Hf; cbn [mfor2]; try apply keeps_ret.
  apply keeps_bind; [apply Hf; left|intros _; apply IH].
  intros b c' Hb. apply Hf. by right.
Qed.

Lemma keeps_getattr v a : keeps proj (getattr v a).
Proof.
  unfold getattr. destruct (oid_of v); [|apply keeps_ret].
  apply keeps_bind; [apply keeps_load|]. intros [x|]; apply keeps_ret.
Qed.

Lemma keeps_seq_index vs n : keeps proj (seq_index vs n).
Proof.
  unfold seq_index. cbv zeta.
  destruct (_ && _); [|apply keeps_raise].
  destruct (_ !! _); [apply keeps_ret|apply keeps_raise].
Qed.

Lemma keeps_getitem v i : keeps proj (getitem v i).
Proof.
  assert (Hgen : keeps proj (match oid_of v, i with
                        | Some o, VStr k =>
                            do r <- load (o, SlotItem k);
                            match r with
                            | Some x => ret x
                            | None => ret (VItemOf v i)
                            end
                        | _, _ => ret (VItemOf v i)
                        end)).
  { destruct (oid_of v); [|apply keeps_ret].
    destruct i; try apply keeps_ret.
    apply keeps_bind; [apply keeps_load|]. intros [x|]; apply keeps_ret. }
  destruct v; try exact Hgen; destruct i; try exact Hgen; apply keeps_seq_index.
Qed.

Lemma keeps_unpack k v : keeps proj (unpack k v).
Proof.
  unfold unpack. destruct v; try apply keeps_ret;
    destruct (_ =? _)%nat; (apply keeps_ret || apply keeps_raise).
Qed.

(** An expression all of whose calls keep the view keeps it. *)
Section Eval.
Context (ok : expr → bool).
Hypothesis Hcall : ∀ w f args kwargs vf vs kvs,
  ok (ECall f args kwargs) = true → keeps proj (call w vf vs kvs).

Lemma forallb_mjoin {A C} (f : C → bool) (g : A → list C) (l : list A) :
  forallb f (mjoin (map g l)) = true → ∀ a, a ∈ l → forallb f (g a) = true.
Proof.
  induction l as [|b l IH]; cbn [map mjoin list_join]; intros H a Ha.
  - by apply elem_of_nil in Ha.
  - rewrite forallb_app in H. apply andb_prop in H as [Hb Hl].
    apply elem_of_cons in Ha as [->|Ha]; auto.
Qed.

Lemma keeps_eval_list w es :
  list_all expr (fun e => forallb ok (subexprs e) = true → keeps proj (eval w e)) es →
  forallb ok (mjoin (map subexprs es)) = true →
  keeps proj (mmap (eval w) es).
Proof.
  intros IH Hok. apply keeps_mmap. intros a Ha.
  apply (list_all_elem_of _ _ _ IH (fun _ H => H) a Ha).
  by eapply forallb_mjoin.
Qed.

Lemma keeps_eval_where w e :
  forallb ok (subexprs e) = true → keeps proj (eval w e).
Proof.
  induction e as [x| |b|n|lit|s|parts IH| |es IH|es IH|kvs IH|e IH a|e IH1 i IH2
                 |lo IHlo hi IHhi step IHstep|f IHf args IHargs kwargs IHkw
                 |op l IHl r IHr|e IH|params body IH|elt IH1 target IH2 iter IH3];
    cbn [subexprs forallb eval]; intros Hok;
    apply andb_prop in Hok as [Hq Hok];
    try apply keeps_ret; try apply keeps_raise; try apply keeps_lookup_name.
  - apply keeps_bind; [|intros ?; apply keeps_ret]. by apply keeps_eval_list.
  - apply keeps_bind; [|intros ?; apply keeps_ret]. by apply keeps_eval_list.
  - apply keeps_bind; [|intros ?; apply keeps_ret]. by apply keeps_eval_list.
  - apply keeps_bind; [|intros ?; apply keeps_ret].
    apply keeps_mmap. intros [k v] Hkv.
    pose proof (forallb_mjoin _ _ _ Hok _ Hkv) as Hs. cbn beta iota in Hs.
    rewrite forallb_app in Hs. apply andb_prop in Hs as [Hk Hv].
    refine (list_all_elem_ofT _
              (fun kv => forallb ok (subexprs kv.1) = true →
                         forallb ok (subexprs kv.2) = true →
                         keeps proj (let '(k, v) := kv in
                                     do k' <- eval w k; do v' <- eval w v; ret (k', v')))
              _ IH _ (k, v) Hkv Hk Hv).
    clear. intros kv [a Ha b Hb] Hk Hv. cbn [fst snd] in *.
    apply keeps_bind; [auto|intros ?]. apply keeps_bind; [auto|intros ?; apply keeps_ret].
  - apply keeps_bind; [auto|intros ?; apply keeps_getattr].
  - rewrite forallb_app in Hok. apply andb_prop in Hok as [H1 H2].
    apply keeps_bind; [auto|intros ?]. apply keeps_bind; [auto|intros ?; apply keeps_getitem].
  - rewrite !forallb_app in Hok.
    apply andb_prop in Hok as [H1 Hok]. apply andb_prop in Hok as [H2 H3].
    destruct IHlo as [a Ha|], IHhi as [b Hb|], IHstep as [c Hc|]; cbn [moption];
      repeat (apply keeps_bind; [|intros ?]); auto using keeps_ret.
  - rewrite !forallb_app in Hok.
    apply andb_prop in Hok as [H1 Hok]. apply andb_prop in Hok as [H2 H3].
    apply keeps_bind; [auto|intros ?].
    apply keeps_bind; [by apply keeps_eval_list|intros ?].
    apply keeps_bind; [|intros ?; by eapply Hcall].
    apply keeps_mmap. intros [k v] Hkv.
    pose proof (forallb_mjoin _ _ _ H3 _ Hkv) as Hs. cbn beta iota in Hs.
    refine (list_all_elem_ofT _
              (fun kv => forallb ok (subexprs kv.2) = true →
                         keeps proj (let '(k, v) := kv in do v' <- eval w v; ret (k, v')))
              _ IHkw _ (k, v) Hkv Hs).
    clear. intros kv [a Ha b Hb] Hv. cbn [fst snd] in *.
    apply keeps_bind; [auto|intros ?; apply keeps_ret].
  - rewrite forallb_app in Hok. apply andb_prop in Hok as [H1 H2].
    apply keeps_bind; [auto|intros ?]. apply keeps_bind; [auto|intros ?; apply keeps_ret].
  - auto.
Qed.

End Eval.

(** A view that numbering an object, asking the file system, setting a
    slot and renumbering leave alone is kept by every expression, and by
    every statement that binds no name the view depends on. *)
Hypothesis Halloc : keeps proj alloc.
Hypothesis Hemit : ∀ op, keeps proj (emit op).
Hypothesis Hstore : ∀ p v, keeps proj (store p v).
Hypothesis Hrenumber : ∀ p k, keeps proj (renumber p k).

Lemma keeps_call w f args kwargs : keeps proj (call w f args kwargs).
Proof.
  unfold call.
  destruct (api_of f) as [[]|]; try apply keeps_ret.
  all: repeat match goal with
         | |- keeps proj (match ?x with _ => _ end) => destruct x
         end.
  all: try apply keeps_ret; try apply keeps_raise.
  all: try (apply keeps_bind; [apply Hemit|intros _; apply keeps_ret]).
  unfold library_call. cbv zeta. destruct (throws _); [apply keeps_raise|].
  apply keeps_bind; [apply keeps_mfor; intros pv _; apply Hstore|intros _].
  apply keeps_bind; [apply keeps_mfor; intros op _; apply Hemit|intros _; apply Halloc].
Qed.

Lemma forallb_true {A} (l : list A) : forallb (fun _ => true) l = true.
Proof. by induction l. Qed.

Lemma keeps_eval w e : keeps proj (eval w e).
Proof.
  apply (keeps_eval_where (fun _ => true)); [|apply forallb_true].
  intros. apply keeps_call.
Qed.

Lemma elem_of_mjoin_map {A C} (g : A → list C) (l : list A) a x :
  a ∈ l → x ∈ g a → x ∈ mjoin (map g l).
Proof.
  induction l as [|b l IH]; cbn [map mjoin list_join]; intros Ha Hx.
  - by apply elem_of_nil in Ha.
  - apply elem_of_app. apply elem_of_cons in Ha as [->|Ha]; auto.
Qed.

Lemma keeps_assign w t v :
  (∀ x u, x ∈ target_names t → keeps proj (bind_name x u)) → keeps proj (assign w t v).
Proof.
  revert v.
  induction t as [x| |b|n|lit|s|parts IH| |es IH|es IH|kvs IH|e IH a|e IH1 i IH2
                 |lo IHlo hi IHhi step IHstep|f IHf args IHargs kwargs IHkw
                 |op l IHl r IHr|e IH|params body IH|elt IH1 target IH2 iter IH3];
    intros v Hb; cbn [assign target_names] in *; try apply keeps_raise.
  - apply Hb. by left.
  - apply keeps_bind; [apply keeps_unpack|intros vs].
    apply keeps_mfor2. intros t u Ht.
    apply (list_all_elem_of _ _ _ IH (fun _ H => H) t Ht).
    intros x u' Hx. apply Hb. by eapply elem_of_mjoin_map.
  - apply keeps_bind; [apply keeps_unpack|intros vs].
    apply keeps_mfor2. intros t u Ht.
    apply (list_all_elem_of _ _ _ IH (fun _ H => H) t Ht).
    intros x u' Hx. apply Hb. by eapply elem_of_mjoin_map.
  - apply keeps_bind; [apply keeps_eval|intros o].
    destruct (oid_of o); [apply Hstore|apply keeps_raise].
  - apply keeps_bind; [apply keeps_eval|intros o].
    apply keeps_bind; [apply keeps_eval|intros k].
    destruct (oid_of o); [|apply keeps_raise].
    destruct k; try apply keeps_raise. apply Hstore.
Qed.

Lemma keeps_exec w s :
  (∀ x u, x ∈ stmt_binds s → keeps proj (bind_name x u)) → keeps proj (exec w s).
Proof.
  induction s as [line|m asname|m names|t e|e|t it body IH|test body IH
                 |test body IH1 orelse IH2|body IH1 handlers IH2 finalbody IH3
                 |e|e|ctx body IH|name params body IH|name body IH];
    intros Hb; cbn [exec stmt_binds] in *; try apply keeps_raise.
  - apply keeps_ret.
  - destruct (installed w m); [|apply keeps_raise].
    destruct (import_binding m asname) as [x v]. apply Hb. by left.
  - destruct (installed w m); [|apply keeps_raise].
    apply keeps_mfor. intros x Hx. by apply Hb.
  - apply keeps_bind; [apply keeps_eval|intros v]. by apply keeps_assign.
  - apply keeps_bind; [apply keeps_eval|intros v; apply keeps_ret].
  - apply keeps_bind; [apply keeps_eval|intros v].
    apply keeps_bind; [apply keeps_position|intros pk].
    apply keeps_bind; [|intros _; apply Hrenumber].
    apply keeps_mfor. intros ix _.
    apply keeps_bind; [apply Hrenumber|intros _].
    apply keeps_bind; [|intros _].
    + apply keeps_assign. intros x u Hx. apply Hb. apply elem_of_app. by left.
    + apply keeps_mfor. intros s Hs.
      apply (list_all_elem_of _ _ _ IH (fun _ H => H) s Hs).
      intros x u Hx. apply Hb. apply elem_of_app. right. by eapply elem_of_mjoin_map.
Qed.

Lemma keeps_exec_cell w c :
  (∀ x u, x ∈ binds c → keeps proj (bind_name x u)) → keeps proj (exec_cell w c).
Proof.
  intros Hb. apply keeps_mfor. intros s Hs. apply keeps_exec.
  intros x u Hx. apply Hb. by eapply elem_of_mjoin_map.
Qed.

End Keeps.

(** A cell that does not bind [x] leaves [x] bound as it was. *)
Lemma keeps_name_exec_cell w c x :
  x ∉ binds c → keeps (fun σ => env σ !! x) (exec_cell w c).
Proof.
  intros Hx. apply keeps_exec_cell; try (by intros; intros σ a σ' [= _ <-]).
  intros y u Hy σ a σ' [= _ <-]. cbn. apply lookup_insert_ne. by intros ->.
Qed.

Lemma exec_cells_app w l1 l2 σ σ1 :
  exec_cells w l1 σ = Ok (tt, σ1) → exec_cells w (l1 ++ l2) σ = exec_cells w l2 σ1.
Proof. apply mfor_app. Qed.

Lemma exec_cells_snoc w l c σ σ1 σ2 :
  exec_cells w l σ = Ok (tt, σ1) → exec_cell w c σ1 = Ok (tt, σ2) →
  exec_cells w (l ++ [c]) σ = Ok (tt, σ2).
Proof.
  intros Hl Hc. rewrite (exec_cells_app _ _ _ _ _ Hl).
  unfold exec_cells. cbn [mfor]. unfold bind. by rewrite Hc.
Qed.

Lemma cell_run_inv w nb i σ σ' :
  cell_run w nb i = Some (σ, σ') →
  ∃ c, code_cells nb !! i = Some c
       ∧ exec_cells w (take i (code_cells nb)) init = Ok (tt, σ)
       ∧ exec_cell w c σ = Ok (tt, σ').
Proof.
  unfold cell_run. destruct (code_cells nb !! i) as [c|]; [|done]. cbn [mbind option_bind].
  destruct (exec_cells w (take i (code_cells nb)) init) as [[[] σ0]|]; [|done].
  destruct (exec_cell w c σ0) as [[[] σ1]|] eqn:E; [|done].
  intros [= <- <-]. eauto.
Qed.

(** A name that no cell after cell [k] binds is bound, before and after
    every later cell, to what it was bound to when cell [k] ended. *)
Lemma name_kept_after w (cs : list (list stmt)) k x ck σk σk' :
  cs !! k = Some ck →
  exec_cells w (take k cs) init = Ok (tt, σk) →
  exec_cell w ck σk = Ok (tt, σk') →
  Forall (fun c => x ∉ binds c) (drop (S k) cs) →
  ∀ i c σ σ', (k < i)%nat → cs !! i = Some c →
    exec_cells w (take i cs) init = Ok (tt, σ) →
    exec_cell w c σ = Ok (tt, σ') →
    env σ !! x = env σk' !! x ∧ env σ' !! x = env σk' !! x.
Proof.
  intros Hck Hk Hrun Hno i c σ σ' Hlt Hc Hi Hcell.
  rewrite Forall_forall in Hno.
  pose proof (exec_cells_snoc _ _ _ _ _ _ Hk Hrun) as HSk.
  rewrite <- (take_S_r _ _ _ Hck) in HSk.
  assert (Hσ : env σ !! x = env σk' !! x).
  { replace i with (S k + (i - S k)) in Hi by lia.
    rewrite <- take_take_drop in Hi. rewrite (exec_cells_app _ _ _ _ _ HSk) in Hi.
    refine (keeps_mfor (fun τ => env τ !! x) (exec_cell w) _ _ σk' tt σ Hi).
    intros c' Hc'. apply (keeps_name_exec_cell w c' x).
    apply Hno. rewrite <- (take_drop (i - S k) (drop (S k) cs)). apply elem_of_app. by left. }
  split; [exact Hσ|]. rewrite <- Hσ.
  refine (keeps_name_exec_cell w c x _ σ tt σ' Hcell).
  apply Hno. apply (list_elem_of_lookup_2 _ (i - S k)).
  rewrite lookup_drop. by replace (S k + (i - S k)) with i by lia.
Qed.



(** X2: [temp_dir] is bound once.  Code cell 3 of the virtual imaging
    notebook is the only cell of the three notebooks that binds [temp_dir];
    so in every world, before and after every later cell of that notebook,
    the name is bound to what code cell 3 left it bound to: the directory
    the last cell removes is the one [mkdtemp] made. *)
Theorem temp_dir_is_bound_once (w : world) i σ3 σ3' σ σ' :
  cell_run w virtual_backscatter_electron_imaging 3 = Some (σ3, σ3') →
  (3 < i)%nat →
  cell_run w virtual_backscatter_electron_imaging i = Some (σ, σ') →
  Slice.cells_where (fun c => bool_decide ("temp_dir" ∈ binds c))
  = [ ("virtual_backscatter_electron_imaging", 3) ]
  ∧ env σ !! "temp_dir" = env σ3' !! "temp_dir"
  ∧ env σ' !! "temp_dir" = env σ3' !! "temp_dir".
Proof.
  intros H3 Hi Hrun.
  apply cell_run_inv in H3 as (c3 & Hc3 & Hpre3 & Hcell3).
  apply cell_run_inv in Hrun as (c & Hc & Hpre & Hcell).
  split; [vm_compute; reflexivity|].
  refine (name_kept_after w _ 3 "temp_dir" c3 σ3 σ3' Hc3 Hpre3 Hcell3 _ i c σ σ'
            Hi Hc Hpre Hcell).
  apply (bool_decide_unpack _). vm_compute. exact I.
Qed.

(** The theorem at work: the example world, and the last cell. *)
Lemma temp_dir_is_bound_once_example :
  ∃ σ3 σ3' σ σ',
    cell_run example_world virtual_backscatter_electron_imaging 3 = Some (σ3, σ3')
    ∧ cell_run example_world virtual_backscatter_electron_imaging 17 = Some (σ, σ')
    ∧ env σ3' !! "temp_dir" = Some (VPath ["tmp"; "tmpk3x9"])
    ∧ env σ !! "temp_dir" = env σ3' !! "temp_dir"
    ∧ env σ' !! "temp_dir" = env σ3' !! "temp_dir".
Proof.
  eexists _, _, _, _.
  assert (H3 : cell_run example_world virtual_backscatter_electron_imaging 3 = Some (_, _))
    by (eapply cell_run_after; [reflexivity|vm_compute; reflexivity|vm_compute; reflexivity]).
  assert (H17 : cell_run example_world virtual_backscatter_electron_imaging 17 = Some (_, _))
    by (eapply cell_run_after; [reflexivity|vm_compute; reflexivity|vm_compute; reflexivity]).
  split; [exact H3|]. split; [exact H17|]. split; [vm_compute; reflexivity|].
  exact (proj2 (temp_dir_is_bound_once example_world 17 _ _ _ _ H3
                  (le_n_S _ _ (le_n_S _ _ (le_n_S _ _ (le_n_S _ _ (Nat.le_0_l 13))))) H17)).
Defined.



End Frames.

(* ===================================================================== *)
(** ** The scratch directory: making it and cleaning it up *)
(* ===================================================================== *)

Section Scratch.
Import Py Nb Sem Shape.

Lemma lookup_name_bound x v σ : env σ !! x = Some v → lookup_name x σ = Ok (v, σ).
Proof. intros H. unfold lookup_name. by rewrite H. Qed.

Lemma getattr_global g a σ :
  heap σ !! (OGlobal g, SlotAttr a) = None →
  getattr (VGlobal g) a σ = Ok (VGlobal (g ++ [a]), σ).
Proof. intros H. unfold getattr, bind, load. cbn [oid_of]. by rewrite H. Qed.

Lemma bind_ok {A C} (m : M A) (k : A → M C) σ a σ1 :
  m σ = Ok (a, σ1) → bind m k σ = k a σ1.
Proof. intros H. unfold bind. by rewrite H. Qed.

Lemma bind_err {A C} (m : M A) (k : A → M C) σ e :
  m σ = Err e → bind m k σ = Err e.
Proof. intros H. unfold bind. by rewrite H. Qed.

Lemma cleanup_cell_requests_at w σ p :
  installed w "os" = true →
  env σ !! "temp_dir" = Some (VPath p) →
  heap σ !! (OGlobal ["os"], SlotAttr "remove") = None →
  heap σ !! (OGlobal ["os"], SlotAttr "rmdir") = None →
  exec_cell w (cell_source vbse_31) σ
  = Ok (tt, {| env := <["os" := VGlobal ["os"]]> (env σ); heap := heap σ;
               scope := scope σ; next := next σ;
               files := files σ ++ [FsRemove (p ++ ["vbse1.png"]); FsRmdir p] |}).
Proof.
  intros Hos Ht Hrm Hrd.
  unfold exec_cell, cell_source, vbse_31. cbn [mfor exec eval mmap]. rewrite Hos.
  change (import_binding "os" None) with ("os", VGlobal ["os"]). cbv beta iota.
  erewrite bind_ok by reflexivity.
  set (σ1 := {| env := <["os" := VGlobal ["os"]]> (env σ); heap := heap σ;
                scope := scope σ; next := next σ; files := files σ |}).
  set (σ2 := {| env := env σ1; heap := heap σ1; scope := scope σ1; next := next σ1;
                files := files σ1 ++ [FsRemove (p ++ ["vbse1.png"])] |}).
  assert (Hremove : eval w (ECall (EAttr (EName "os") "remove")
                              [EBinOp Div (EName "temp_dir") (EStr "vbse1.png")] []) σ1
                    = Ok (VNone, σ2)).
  { cbn [eval mmap].
    erewrite bind_ok; cycle 1.
    { erewrite bind_ok by (apply lookup_name_bound, lookup_insert_eq).
      by apply getattr_global. }
    erewrite bind_ok; cycle 1.
    { erewrite bind_ok; cycle 1.
      { erewrite bind_ok
          by (apply lookup_name_bound; cbn [env σ1]; by rewrite lookup_insert_ne).
        reflexivity. }
      reflexivity. }
    reflexivity. }
  assert (Hrmdir : eval w (ECall (EAttr (EName "os") "rmdir") [EName "temp_dir"] []) σ2
                   = Ok (VNone, {| env := env σ2; heap := heap σ2; scope := scope σ2;
                                   next := next σ2; files := files σ2 ++ [FsRmdir p] |})).
  { cbn [eval mmap].
    erewrite bind_ok; cycle 1.
    { erewrite bind_ok by (apply lookup_name_bound, lookup_insert_eq).
      by apply getattr_global. }
    erewrite bind_ok; cycle 1.
    { erewrite bind_ok
        by (apply lookup_name_bound; cbn [env σ2 σ1]; by rewrite lookup_insert_ne).
      reflexivity. }
    reflexivity. }
  cbn [eval mmap] in Hremove, Hrmdir |- *.
  erewrite bind_ok by (erewrite bind_ok by exact Hremove; reflexivity).
  erewrite bind_ok by (erewrite bind_ok by exact Hrmdir; reflexivity).
  unfold ret, σ2, σ1. cbn [env heap scope next files]. by rewrite <- app_assoc.
Qed.





Lemma replay_app (ops1 ops2 : list fsop) (t : gmap (list string) Fs.node) :
  Fs.replay (ops1 ++ ops2) t = Fs.replay ops1 t ≫= Fs.replay ops2.
Proof.
  revert t. induction ops1 as [|op ops1 IH]; intros t; cbn [Fs.replay app]; [done|].
  destruct (Fs.step op t) as [t'|]; cbn [mbind option_bind]; [apply IH|done].
Qed.

(** Once a file and the directory it was in are removed, removing the file
    again fails. *)
Lemma remove_twice_fails (t : gmap (list string) Fs.node) (d : list string)
    (name : string) (rest : list fsop) :
  Fs.replay ([FsRemove (d ++ [name]); FsRmdir d; FsRemove (d ++ [name])] ++ rest) t = None.
Proof.
  assert (Hfd : d ++ [name] ≠ d).
  { intros Heq. apply (f_equal length) in Heq. rewrite length_app in Heq. cbn in Heq. lia. }
  cbn [Fs.replay Fs.step app].
  case_decide as H1; cbn [mbind option_bind]; [|done].
  case_decide as H2; cbn [mbind option_bind]; [|done].
  rewrite decide_False; [done|].
  by rewrite lookup_delete_ne, lookup_delete_eq.
Qed.



(** Every request that succeeds keeps the file system well formed. *)
Lemma wf_step (op : fsop) (t t' : gmap (list string) Fs.node) :
  Fs.wf t → Fs.step op t = Some t' → Fs.wf t'.
Proof.
  intros Hwf. destruct op as [d|f|f|d]; cbn [Fs.step]; case_decide as Hg; intros [= <-].
  - destruct Hg as (Hne & Hnew & Hpar).
    intros p n Hp. destruct (decide (p = d)) as [->|Hpd].
    + right. rewrite lookup_insert_ne; [done|]. intros Heq. by apply (parent_neq d).
    + rewrite lookup_insert_ne in Hp by done.
      destruct (Hwf _ _ Hp) as [?|Hdir]; [by left|right].
      destruct (decide (d = Fs.parent p)) as [->|?];
        [by rewrite lookup_insert_eq|by rewrite lookup_insert_ne].
  - destruct Hg as (Hne & Hpar & Hnd).
    intros p n Hp. destruct (decide (p = f)) as [->|Hpf].
    + right. destruct (decide (f = Fs.parent f)) as [Heq|?];
        [by destruct (parent_neq f Hne)|by rewrite lookup_insert_ne].
    + rewrite lookup_insert_ne in Hp by done.
      destruct (Hwf _ _ Hp) as [?|Hdir]; [by left|right].
      rewrite lookup_insert_ne; [done|]. intros ->. contradiction.
  - intros p n Hp. apply lookup_delete_Some in Hp as [Hpf Hp].
    destruct (Hwf _ _ Hp) as [?|Hdir]; [by left|right].
    rewrite lookup_delete_ne; [done|]. intros ->. congruence.
  - destruct Hg as [Hd Hempty].
    intros p n Hp. apply lookup_delete_Some in Hp as [Hpd Hp].
    destruct (Hwf _ _ Hp) as [?|Hdir]; [by left|].
    destruct (decide (p = [])) as [->|Hnil]; [by left|right].
    rewrite lookup_delete_ne; [done|]. intros ->.
    by apply (Hempty _ _ Hp).
Qed.

Lemma requests_keep_well_formed (ops : list fsop) (t t' : gmap (list string) Fs.node) :
  Fs.wf t → Fs.replay ops t = Some t' → Fs.wf t'.
Proof.
  revert t. induction ops as [|op ops IH]; intros t Hwf; cbn [Fs.replay].
  - by intros [= <-].
  - destruct (Fs.step op t) as [t1|] eqn:E; cbn [mbind option_bind]; [|done].
    apply IH. by eapply wf_step.
Qed.

(** X7: the requests a notebook makes keep the file system well formed.
    Whatever sequence of the four requests ([mkdtemp], writing a file,
    [os.remove], [os.rmdir]) succeeds on a file system in which every path
    lies in a directory that exists, it leaves such a file system: a
    directory is made only inside a directory, a file is never written over
    a directory, and only files and empty directories are removed. *)
Theorem requests_keep_the_file_system_well_formed
    (ops : list fsop) (t t' : gmap (list string) Fs.node) :
  Fs.wf t → Fs.replay ops t = Some t' → Fs.wf t'.
Proof. apply requests_keep_well_formed. Qed.

(** The theorem at work: the scratch directory with its file on the example
    file system. *)
Lemma requests_keep_the_file_system_well_formed_example :
  ∃ t',
    Fs.replay [FsMkdtemp ["tmp"; "d"]; FsWrite ["tmp"; "d"; "vbse1.png"]] Fs.example_tree
    = Some t'
    ∧ t' !! ["tmp"; "d"; "vbse1.png"] = Some Fs.File
    ∧ Fs.wf t'.
Proof.
  assert (Hfile : (fun t' => t' !! ["tmp"; "d"; "vbse1.png"])
                    <$> Fs.replay [FsMkdtemp ["tmp"; "d"]; FsWrite ["tmp"; "d"; "vbse1.png"]]
                                  Fs.example_tree
                  = Some (Some Fs.File)) by (vm_compute; reflexivity).
  destruct (Fs.replay _ Fs.example_tree) as [t'|] eqn:Ht'; [|discriminate Hfile].
  exists t'. split; [reflexivity|]. split; [by injection Hfile|].
  apply (requests_keep_the_file_system_well_formed
           [FsMkdtemp ["tmp"; "d"]; FsWrite ["tmp"; "d"; "vbse1.png"]]
           Fs.example_tree t'); [|exact Ht'].
  apply (bool_decide_unpack _). vm_compute. exact I.
Defined.

End Scratch.

(* ===================================================================== *)
(** ** Runs: the three notebooks in calm worlds *)
(* ===================================================================== *)

Section Runs.
Import Py Nb Sem Shape.

Lemma run_ok w nb σ : exec_cells w (code_cells nb) init = Ok (tt, σ) → run w nb = Ok σ.
Proof. intros H. unfold run. by rewrite H. Qed.

Lemma calm_run w nb σ :
  calm w →
  exec_cells (calm_world (tmpdir w) (unknown_len w)) (code_cells nb) init = Ok (tt, σ) →
  run w nb = Ok σ.
Proof.
  intros Hcalm H. rewrite (run_alike _ _ (calm_alike w Hcalm)). by apply run_ok.
Qed.

Lemma heap_of_list σ l : map_to_list (heap σ) = l → heap σ = list_to_map l.
Proof. intros <-. by rewrite list_to_map_to_list. Qed.

Lemma bound_to_pairs σ (l : list (string * value)) :
  bound_to σ l.*1 = Some <$> l.*2 → ∀ x v, (x, v) ∈ l → env σ !! x = Some v.
Proof.
  unfold bound_to. induction l as [|[y u] l IH]; cbn [fmap list_fmap fst snd]; intros H x v Hin.
  - by apply elem_of_nil in Hin.
  - injection H as Hy Hl. apply elem_of_cons in Hin as [[= -> ->]|Hin]; auto.
Qed.

Lemma bound_to_none σ (xs : list string) :
  bound_to σ xs = (fun _ => None) <$> xs → ∀ x, x ∈ xs → env σ !! x = None.
Proof.
  unfold bound_to. induction xs as [|y xs IH]; cbn [fmap list_fmap]; intros H x Hin.
  - by apply elem_of_nil in Hin.
  - injection H as Hy Hl. apply elem_of_cons in Hin as [->|Hin]; auto.
Qed.

Lemma example_world_calm : calm example_world.
Proof. by split. Qed.

(** X8: in every calm world each of the three notebooks runs to its end.
    Whatever the temporary directory and however many elements the library
    iterables of the plotting loops yield (none included), every name a cell
    reads has been bound by an earlier statement, every tuple target gets as
    many values as it has names, no statement is outside the Python the
    notebooks are written in, and every loop has been left at the end. *)
Theorem notebooks_run_in_every_calm_world (w : world) :
  calm w → Forall (fun nb => ∃ σ, run w nb = Ok σ ∧ scope σ = []) notebooks.
Proof.
  intros Hcalm.
  destruct (vbse_final_calm (tmpdir w) (unknown_len w)) as (σ1 & H1 & _ & Hs1 & _).
  destruct (hough_session_calm (tmpdir w) (unknown_len w)) as (σ2 & H2 & _ & Hs2 & _).
  destruct (visual_session_calm (tmpdir w) (unknown_len w)) as (σ3 & H3 & _ & Hs3 & _).
  apply Forall_cons_2; [|apply Forall_cons_2; [|apply Forall_cons_2; [|apply Forall_nil_2]]].
  - exists σ1. exact (conj (calm_run _ _ _ Hcalm H1) Hs1).
  - exists σ2. exact (conj (calm_run _ _ _ Hcalm H2) Hs2).
  - exists σ3. exact (conj (calm_run _ _ _ Hcalm H3) Hs3).
Qed.

Lemma notebooks_run_in_every_calm_world_example :
  Forall (fun nb => ∃ σ, run example_world nb = Ok σ ∧ scope σ = []) notebooks.
Proof. exact (notebooks_run_in_every_calm_world example_world example_world_calm). Defined.



(** X10: any sequence of runs of the three notebooks, each in a calm world
    of its own whose temporary directory is fresh on the file system the
    sequence starts on, leaves that file system as it was: a documentation
    build that runs the notebooks one after another, in any order and any
    number of times, leaves no file by the notebooks' own statements, and a
    temporary directory can be reused by a later run. *)
Theorem notebook_runs_leave_no_files (t : gmap (list string) Fs.node)
    (rs : list (world * notebook)) :
  Fs.wf t →
  Forall (fun r => calm r.1
                   ∧ r.2 ∈ notebooks
                   ∧ tmpdir r.1 ≠ []
                   ∧ t !! tmpdir r.1 = None
                   ∧ t !! Fs.parent (tmpdir r.1) = Some Fs.Dir) rs →
  ∃ σs, Forall2 (fun r σ => run r.1 r.2 = Ok σ) rs σs
        ∧ Fs.replay (mjoin (files <$> σs)) t = Some t.
Proof.
  intros Hwf Hrs.
  induction Hrs as [|[w nb] rs (Hcalm & Hnb & Hne & Hd & Hp) _ (σs & Hruns & Hreplay)].
  - by exists [].
  - cbn [fst snd] in *.
    assert (∃ σ, run w nb = Ok σ ∧ Fs.replay (files σ) t = Some t) as (σ & Hrun & Hσ).
    { unfold notebooks in Hnb.
      apply elem_of_cons in Hnb as [->|Hnb]; [|apply elem_of_cons in Hnb as [->|Hnb]];
        [| |apply list_elem_of_singleton in Hnb as ->].
      - destruct (vbse_final_calm (tmpdir w) (unknown_len w)) as (σ & H & Hf & _).
        exists σ. split; [exact (calm_run _ _ _ Hcalm H)|].
        rewrite Hf. exact (scratch_directory_round_trip t _ _ Hwf Hd Hp Hne).
      - destruct (hough_session_calm (tmpdir w) (unknown_len w)) as (σ & H & Hf & _).
        exists σ. split; [exact (calm_run _ _ _ Hcalm H)|]. rewrite Hf. reflexivity.
      - destruct (visual_session_calm (tmpdir w) (unknown_len w)) as (σ & H & Hf & _).
        exists σ. split; [exact (calm_run _ _ _ Hcalm H)|]. rewrite Hf. reflexivity. }
    exists (σ :: σs). split; [by constructor|].
    cbn [fmap list_fmap mjoin list_join]. rewrite replay_app, Hσ. exact Hreplay.
Qed.

(** The theorem at work: the virtual imaging notebook, the Hough indexing
    notebook and the virtual imaging notebook again, with the same temporary
    directory, on the example file system. *)
Lemma notebook_runs_leave_no_files_example :
  ∃ σs, Forall2 (fun r σ => run r.1 r.2 = Ok σ)
                [ (example_world, virtual_backscatter_electron_imaging);
                  (example_world, hough_indexing);
                  (example_world, virtual_backscatter_electron_imaging) ] σs
        ∧ Fs.replay (mjoin (files <$> σs)) Fs.example_tree = Some Fs.example_tree.
Proof.
  apply (notebook_runs_leave_no_files Fs.example_tree).
  - apply (bool_decide_unpack _). vm_compute. exact I.
  - assert (Hfresh : tmpdir example_world ≠ []
                     ∧ Fs.example_tree !! tmpdir example_world = None
                     ∧ Fs.example_tree !! Fs.parent (tmpdir example_world) = Some Fs.Dir).
    { split; [discriminate|]. split; vm_compute; reflexivity. }
    apply Forall_cons_2; [|apply Forall_cons_2; [|apply Forall_cons_2; [|apply Forall_nil_2]]];
      (split; [exact example_world_calm|split; [|exact Hfresh]]).
    + left.
    + right. left.
    + left.
Defined.

(** X11: what the notebooks' own assignments leave on objects.  At the end
    of a run in a calm world the attributes and items assigned are: in the
    virtual imaging notebook the font size 12 on [plt.rcParams] and the grid
    shape (3, 3) on the imager (the earlier (10, 10) overwritten); in the
    Hough indexing notebook [pc] on the detector that [det] then names, and,
    when the loop over the directions had a round, [direction] on the colour
    key, left at the direction of the last round; in the visualization
    notebook none. *)
Theorem notebooks_net_assignments (w : world) :
  calm w →
  ∃ σv σh σp,
    run w virtual_backscatter_electron_imaging = Ok σv
    ∧ run w hough_indexing = Ok σh
    ∧ run w visualizing_patterns = Ok σp
    ∧ env σv !! "vbse_imager" = Some (VObj [4])
    ∧ heap σv
      = list_to_map
          [ (OGlobal ["matplotlib"; "pyplot"; "rcParams"], SlotItem "font.size", VInt 12);
            (OAlloc [4], SlotAttr "grid_shape", VTuple [VInt 3; VInt 3]) ]
    ∧ env σh !! "det" = Some (VObj [20])
    ∧ env σh !! "ckey" = Some (VObj [32])
    ∧ env σh !! "directions" = Some (VObj [38])
    ∧ heap σh
      = list_to_map
          ((OAlloc [20], SlotAttr "pc", VAttrOf (VObj [20]) "pc_average")
           :: match unknown_len w with
              | O => []
              | S k => [ (OAlloc [32], SlotAttr "direction",
                          VItemOf (VObj [38])
                                  (VItemOf VUnknown (VInt (Z.of_nat (Nat.min k 2))))) ]
              end)
    ∧ heap σp = ∅.
Proof.
  intros Hcalm.
  destruct (vbse_final_calm (tmpdir w) (unknown_len w))
    as (σ1 & H1 & _ & _ & Hh1 & _ & _ & Hn1).
  destruct (hough_session_calm (tmpdir w) (unknown_len w))
    as (σ2 & H2 & _ & _ & Hh2 & _ & _ & Hn2).
  destruct (visual_session_calm (tmpdir w) (unknown_len w))
    as (σ3 & H3 & _ & _ & Hh3 & _).
  exists σ1, σ2, σ3.
  injection Hn1 as Hi _. injection Hn2 as Hd Hc Hdir.
  split; [exact (calm_run _ _ _ Hcalm H1)|]. split; [exact (calm_run _ _ _ Hcalm H2)|].
  split; [exact (calm_run _ _ _ Hcalm H3)|].
  split; [exact Hi|]. split; [exact (heap_of_list _ _ Hh1)|].
  split; [exact Hd|]. split; [exact Hc|]. split; [exact Hdir|].
  split; [exact (heap_of_list _ _ Hh2)|]. exact (heap_of_list _ [] Hh3).
Qed.

Lemma notebooks_net_assignments_example :
  ∃ σv σh σp,
    run example_world virtual_backscatter_electron_imaging = Ok σv
    ∧ run example_world hough_indexing = Ok σh
    ∧ run example_world visualizing_patterns = Ok σp
    ∧ env σv !! "vbse_imager" = Some (VObj [4])
    ∧ heap σv
      = list_to_map
          [ (OGlobal ["matplotlib"; "pyplot"; "rcParams"], SlotItem "font.size", VInt 12);
            (OAlloc [4], SlotAttr "grid_shape", VTuple [VInt 3; VInt 3]) ]
    ∧ env σh !! "det" = Some (VObj [20])
    ∧ env σh !! "ckey" = Some (VObj [32])
    ∧ env σh !! "directions" = Some (VObj [38])
    ∧ heap σh
      = list_to_map
          [ (OAlloc [20], SlotAttr "pc", VAttrOf (VObj [20]) "pc_average");
            (OAlloc [32], SlotAttr "direction",
             VItemOf (VObj [38]) (VItemOf VUnknown (VInt 2))) ]
    ∧ heap σp = ∅.
Proof. exact (notebooks_net_assignments example_world example_world_calm). Defined.

(** X12: imported names stay what they were imported as.  At the end of a
    run in a calm world every name a notebook imported is still bound to
    the module or member it was imported as: no assignment and no loop
    target shadows an import; and [print], [zip] and [range] are never
    bound, so they are still the builtins. *)
Theorem imported_names_stay_bound (w : world) :
  calm w →
  Forall (fun nb => ∃ σ, run w nb = Ok σ
                         ∧ (∀ x v, (x, v) ∈ Slice.imported nb → env σ !! x = Some v)
                         ∧ (∀ x, x ∈ builtins → env σ !! x = None))
         notebooks.
Proof.
  intros Hcalm.
  destruct (vbse_final_calm (tmpdir w) (unknown_len w))
    as (σ1 & H1 & _ & _ & _ & Hb1 & Hi1 & _).
  destruct (hough_session_calm (tmpdir w) (unknown_len w))
    as (σ2 & H2 & _ & _ & _ & Hb2 & Hi2 & _).
  destruct (visual_session_calm (tmpdir w) (unknown_len w))
    as (σ3 & H3 & _ & _ & _ & Hb3 & Hi3).
  apply Forall_cons_2; [|apply Forall_cons_2; [|apply Forall_cons_2; [|apply Forall_nil_2]]].
  - exists σ1. exact (conj (calm_run _ _ _ Hcalm H1)
                           (conj (bound_to_pairs _ _ Hi1) (bound_to_none _ _ Hb1))).
  - exists σ2. exact (conj (calm_run _ _ _ Hcalm H2)
                           (conj (bound_to_pairs _ _ Hi2) (bound_to_none _ _ Hb2))).
  - exists σ3. exact (conj (calm_run _ _ _ Hcalm H3)
                           (conj (bound_to_pairs _ _ Hi3) (bound_to_none _ _ Hb3))).
Qed.

Lemma imported_names_stay_bound_example :
  Forall (fun nb => ∃ σ, run example_world nb = Ok σ
                         ∧ (∀ x v, (x, v) ∈ Slice.imported nb → env σ !! x = Some v)
                         ∧ (∀ x, x ∈ builtins → env σ !! x = None))
         notebooks.
Proof. exact (imported_names_stay_bound example_world example_world_calm). Defined.



(** In a well-formed file system a path below a directory that does not
    exist does not exist either. *)
Lemma fresh_child (t : gmap (list string) Fs.node) (d : list string) (name : string) :
  Fs.wf t → t !! d = None → d ≠ [] → t !! (d ++ [name]) = None.
Proof.
  intros Hwf Hd Hne.
  destruct (t !! (d ++ [name])) as [n|] eqn:E; [|done].
  destruct (Hwf _ _ E) as [Hnil|Hdir].
  - by destruct d.
  - rewrite parent_app in Hdir. congruence.
Qed.

(** X14: what the shown cells leave behind.  The code cells of the virtual
    imaging notebook that the built page shows are all but the last; run in
    a calm world on a well-formed file system in which the temporary
    directory is fresh, they leave that file system with two more paths, the
    directory and [vbse1.png] in it, and still well formed: who runs the
    tutorial as it is printed is left with the scratch directory. *)
Theorem visible_cells_leave_scratch_files (w : world) (t : gmap (list string) Fs.node) :
  calm w →
  Fs.wf t →
  t !! tmpdir w = None →
  t !! Fs.parent (tmpdir w) = Some Fs.Dir →
  tmpdir w ≠ [] →
  ∃ σ t',
    visible_code_cells virtual_backscatter_electron_imaging
    = take 17 (code_cells virtual_backscatter_electron_imaging)
    ∧ exec_cells w (visible_code_cells virtual_backscatter_electron_imaging) init
      = Ok (tt, σ)
    ∧ Fs.replay (files σ) t = Some t'
    ∧ t' = <[tmpdir w ++ ["vbse1.png"] := Fs.File]> (<[tmpdir w := Fs.Dir]> t)
    ∧ t' ≠ t
    ∧ Fs.wf t'.
Proof.
  intros Hcalm Hwf Hd Hp Hne.
  destruct (vbse_session w Hcalm) as (c & σ17 & σ & _ & H17 & _ & Hf17 & _).
  assert (Hvis : visible_code_cells virtual_backscatter_electron_imaging
                 = take 17 (code_cells virtual_backscatter_electron_imaging))
    by (vm_compute; reflexivity).
  assert (Hreplay : Fs.replay (files σ17) t
                    = Some (<[tmpdir w ++ ["vbse1.png"] := Fs.File]> (<[tmpdir w := Fs.Dir]> t))).
  { clear H17. rewrite Hf17. cbn [Fs.replay Fs.step].
    rewrite decide_True by done. cbn [mbind option_bind].
    rewrite decide_True; [done|].
    split; [by destruct (tmpdir w)|].
    rewrite parent_app, lookup_insert_eq. split; [done|].
    rewrite lookup_insert_ne, (fresh_child t _ _ Hwf Hd Hne); [done|].
    intros Heq. apply (f_equal length) in Heq. rewrite length_app in Heq. cbn in Heq. lia. }
  exists σ17, (<[tmpdir w ++ ["vbse1.png"] := Fs.File]> (<[tmpdir w := Fs.Dir]> t)).
  split; [exact Hvis|]. rewrite Hvis. split; [exact H17|]. split; [exact Hreplay|].
  split; [reflexivity|]. clear H17. split.
  - intros Heq. apply (f_equal (fun m => m !! tmpdir w)) in Heq.
    rewrite lookup_insert_ne, lookup_insert_eq, Hd in Heq; [discriminate Heq|].
    intros Heq'. apply (f_equal length) in Heq'. rewrite length_app in Heq'. cbn in Heq'. lia.
  - exact (requests_keep_well_formed _ _ _ Hwf Hreplay).
Qed.

Lemma visible_cells_leave_scratch_files_example :
  ∃ σ t',
    visible_code_cells virtual_backscatter_electron_imaging
    = take 17 (code_cells virtual_backscatter_electron_imaging)
    ∧ exec_cells example_world (visible_code_cells virtual_backscatter_electron_imaging) init
      = Ok (tt, σ)
    ∧ Fs.replay (files σ) Fs.example_tree = Some t'
    ∧ t' = <[tmpdir example_world ++ ["vbse1.png"] := Fs.File]>
             (<[tmpdir example_world := Fs.Dir]> Fs.example_tree)
    ∧ t' ≠ Fs.example_tree
    ∧ Fs.wf t'.
Proof.
  apply (visible_cells_leave_scratch_files example_world Fs.example_tree).
  - exact example_world_calm.
  - apply (bool_decide_unpack _). vm_compute. exact I.
  - vm_compute. reflexivity.
  - vm_compute. reflexivity.
  - discriminate.
Defined.

End Runs.

(* ===================================================================== *)
(** ** More of the build configuration *)
(* ===================================================================== *)

Section Document.
Import Yaml.

Lemma get_unique (es : list (string * yaml)) k v :
  NoDup es.*1 → (k, v) ∈ es → get k (YMap es) = Some v.
Proof.
  cbn [get]. induction es as [|[k' v'] es IH]; intros Hnd Hin.
  - by apply elem_of_nil in Hin.
  - cbn [fmap list_fmap fst] in Hnd. apply NoDup_cons in Hnd as [Hk' Hnd].
    cbn [List.find fst]. destruct (String.eqb k' k) eqn:E.
    + apply String.eqb_eq in E as ->.
      apply elem_of_cons in Hin as [[= <-]|Hin]; [done|].
      exfalso. apply Hk'. apply list_elem_of_fmap. by exists (k, v).
    + apply elem_of_cons in Hin as [[= -> ->]|Hin].
      * by rewrite String.eqb_refl in E.
      * by apply IH.
Qed.

Lemma get_elem_of k y v : get k y = Some v → ∃ es, y = YMap es ∧ (k, v) ∈ es.
Proof.
  destruct y as [| |items|es]; try done. cbn [get]. intros H.
  exists es. split; [done|].
  destruct (List.find _ es) as [[k' v']|] eqn:E; [|done].
  injection H as <-. apply find_some in E as [Hin Hk].
  cbn [fst] in Hk. apply String.eqb_eq in Hk as ->. by apply list_elem_of_In.
Qed.

Lemma keys_unique_get k y v : keys_unique y = true → get k y = Some v → keys_unique v = true.
Proof.
  intros Hu Hg. apply get_elem_of in Hg as (es & -> & Hin).
  cbn [keys_unique] in Hu. apply andb_prop in Hu as [_ Hall].
  rewrite forallb_forall in Hall. apply list_elem_of_In in Hin.
  exact (Hall _ Hin).
Qed.

Lemma keys_unique_get_path ks : ∀ y v,
  keys_unique y = true → get_path ks y = Some v → keys_unique v = true.
Proof.
  induction ks as [|k ks IH]; intros y v Hu; cbn [get_path].
  - by intros [= <-].
  - destruct (get k y) as [y'|] eqn:E; cbn [mbind option_bind]; [|done].
    apply IH. by eapply keys_unique_get.
Qed.

Lemma get_path_app ks k : ∀ y, get_path (ks ++ [k]) y = get_path ks y ≫= get k.
Proof.
  induction ks as [|k' ks IH]; intros y; cbn [get_path app].
  - cbn. by destruct (get k y).
  - destruct (get k' y) as [y'|]; cbn [mbind option_bind]; [apply IH|done].
Qed.

(** X15: no key of the build configuration hides another.  No mapping of
    the file, at any depth, has the same key twice; so every entry of every
    mapping that a path of keys leads to is what the lookup by that path and
    its key gives. *)
Theorem every_entry_is_reachable ks es k v :
  get_path ks readthedocs = Some (YMap es) →
  (k, v) ∈ es →
  keys_unique readthedocs = true
  ∧ load readthedocs_lines = Some readthedocs
  ∧ get_path (ks ++ [k]) readthedocs = Some v.
Proof.
  intros Hes Hin.
  assert (Hu : keys_unique readthedocs = true) by (vm_compute; reflexivity).
  split; [exact Hu|]. split; [exact load_readthedocs|].
  rewrite get_path_app, Hes. cbn [mbind option_bind].
  apply get_unique; [|done].
  pose proof (keys_unique_get_path _ _ _ Hu Hes) as Hsub.
  cbn [keys_unique] in Hsub. apply andb_prop in Hsub as [Hnd _].
  by apply bool_decide_eq_true in Hnd.
Qed.

(** The theorem at work: the Python version among the build tools. *)
Lemma every_entry_is_reachable_example :
  keys_unique readthedocs = true
  ∧ load readthedocs_lines = Some readthedocs
  ∧ get_path ["build"; "tools"; "python"] readthedocs = Some (YStr "3.10").
Proof.
  apply (every_entry_is_reachable ["build"; "tools"]
           [("python", YStr "3.10"); ("nodejs", YStr "19")] "python" (YStr "3.10")).
  - reflexivity.
  - left.
Defined.

(** X16: what enabling the PDF build would change.  Line 31 of the file is
    the comment [#  - pdf]; with its [#] taken away it stands at the column
    of the entry [htmlzip] above it, so the file with that line uncommented
    still loads, and the document it gives differs from the present one in
    the formats alone, which become [htmlzip] and [pdf]. *)
Theorem enabling_pdf_adds_only_that_format :
  ∃ es1 es2,
    readthedocs_lines !! 30 = Some "#  - pdf"
    ∧ uncomment "#  - pdf" = Some "  - pdf"
    ∧ load readthedocs_lines
      = Some (YMap (es1 ++ ("formats", YSeq [YStr "htmlzip"]) :: es2))
    ∧ load (<[30 := "  - pdf"]> readthedocs_lines)
      = Some (YMap (es1 ++ ("formats", YSeq [YStr "htmlzip"; YStr "pdf"]) :: es2))
    ∧ formats (YMap (es1 ++ ("formats", YSeq [YStr "htmlzip"; YStr "pdf"]) :: es2))
      = Some ["htmlzip"; "pdf"].
Proof.
  exists [ ("version", YInt 2);
           ("sphinx", YMap [ ("configuration", YStr "doc/conf.py") ]);
           ("build",
             YMap
               [ ("os", YStr "ubuntu-22.04");
                 ("tools", YMap [ ("python", YStr "3.10"); ("nodejs", YStr "19") ]);
                 ("apt_packages",
                   YSeq [ YStr "imagemagick"; YStr "libgl1-mesa-dev"; YStr "xvfb" ]) ]) ],
         [ ("python",
             YMap
               [ ("install",
                   YSeq
                     [ YMap
                         [ ("method", YStr "pip");
                           ("path", YStr ".");
                           ("extra_requirements", YSeq [ YStr "doc"; YStr "viz" ]) ] ]) ]) ].
  repeat apply conj; vm_compute; reflexivity.
Qed.

(** X17: the version and the sections of the build configuration.  The
    file loads to a mapping with the five keys [version], [sphinx],
    [build], [formats] and [python], in this order; [version], the key the
    file marks as required, is the integer 2; the versions of the build
    tools are strings, as they are quoted in the file. *)
Theorem configuration_version_and_sections :
  ∃ es,
    load readthedocs_lines = Some (YMap es)
    ∧ es.*1 = ["version"; "sphinx"; "build"; "formats"; "python"]
    ∧ get "version" (YMap es) = Some (YInt 2)
    ∧ readthedocs_lines !! 4 = Some "# Required"
    ∧ readthedocs_lines !! 5 = Some "version: 2"
    ∧ get_path ["build"; "tools"] (YMap es)
      = Some (YMap [("python", YStr "3.10"); ("nodejs", YStr "19")]).
Proof. eexists. repeat apply conj; vm_compute; reflexivity. Qed.

End Document.

(* ===================================================================== *)
(** ** What the notebooks say about their cells *)
(* ===================================================================== *)

Section Metadata.
Import Py Nb Shape.

(** X18: the cells' metadata.  Each notebook opens with a markdown cell
    that the built page leaves out, and the only other cell left out is the
    last cell of the virtual imaging notebook, the code cell that cleans up;
    each notebook marks one cell as its thumbnail, a code cell that the page
    shows and that ends with a plotting call; and the one cell that the
    notebook tests skip is the last code cell of the visualization notebook,
    the interactive [plot_spherical] call that needs PyVista. *)
Theorem cell_metadata :
  positions hidden <$> notebooks = [[0; 31]; [0]; [0]]
  ∧ (fun nb => length (cells nb)) <$> notebooks = [32; 57; 24]
  ∧ (fun nb => is_code <$> head (cells nb)) <$> notebooks
    = [Some false; Some false; Some false]
  ∧ last (cells virtual_backscatter_electron_imaging) = Some vbse_31
  ∧ is_code vbse_31 = true
  ∧ positions (tagged "nbsphinx-thumbnail") <$> notebooks = [[18]; [46]; [20]]
  ∧ Forall (fun nb =>
              Forall (fun i => ∃ c s f args kwargs,
                                 cells nb !! i = Some c
                                 ∧ is_code c = true ∧ hidden c = false
                                 ∧ last (cell_source c) = Some s
                                 ∧ s = SExpr (ECall f args kwargs))
                     (positions (tagged "nbsphinx-thumbnail") nb))
           notebooks
  ∧ positions (tagged "nbval-skip") <$> notebooks = [[]; []; [22]]
  ∧ cells visualizing_patterns !! 22
    = Some (Code false ["nbval-skip"]
              [SExpr (ECall (EAttr (EName "mp_stereo") "plot_spherical") []
                            [("style", EStr "points")])])
  ∧ last (code_cells visualizing_patterns)
    = Some [SExpr (ECall (EAttr (EName "mp_stereo") "plot_spherical") []
                         [("style", EStr "points")])].
Proof.
  repeat apply conj; try (vm_compute; reflexivity).
  apply Forall_cons_2; [|apply Forall_cons_2; [|apply Forall_cons_2; [|apply Forall_nil_2]]].
  all: apply Forall_cons_2; [|apply Forall_nil_2].
  all: eexists _, _, _, _, _; repeat apply conj; vm_compute; reflexivity.
Qed.

End Metadata.
